(** * GR00T whole-body control with Inspire hands: hand bridge, relay client,
      gripper retargeting solver and teleop policy loop.

    Shallow embedding of
      - gr00t_wbc/control/envs/g1/utils/inspire_driver.py
      - gr00t_wbc/control/teleop/solver/hand/g1_gripper_ik_solver.py
      - gr00t_wbc/control/teleop/streamers/pico_hand_tracking_client_streamer.py
      - gr00t_wbc/control/main/teleop/run_teleop_policy_loop.py
      - gr00t_wbc/control/teleop/device/pico/pico_hand_tracking_server.py
      - gr00t_wbc/control/envs/g1/g1_hand.py
      - gr00t_wbc/control/main/teleop/configs/configs.py

    Numbers: the Python code computes on float64.  Most of the development
    takes a float for an exact rational ([Q]): rounding, infinities and NaN
    are outside that model.  The clamp law of the solver and the target time
    of the loop depend on them, and are stated on a second embedding of the
    same code on IEEE 754 binary64 ([F64], [FloatSolver], [FloatLoop]).
    Python exceptions are values of [exn], carried by the [result] monad. *)

From Stdlib Require Import QArith Qabs Qminmax Lia Lqa.
From Stdlib Require Floats.
From stdpp Require Import base list strings gmap.

#[global] Set Warnings "-inexact-float".

Open Scope nat_scope.

(** ** Python exceptions and the error monad *)

Inductive exn : Type :=
| IndexError
| TypeError
| ValueError
| ZeroDivisionError
| RuntimeError
| ZmqAgain          (* zmq.Again: the receive timed out *)
| ZmqError          (* any other zmq.ZMQError *)
| KeyError
| UnpicklingError.

Inductive result (A : Type) : Type :=
| Ok (a : A)
| Raise (e : exn).
Arguments Ok {A} a.
Arguments Raise {A} e.

Definition rbind {A B} (r : result A) (k : A -> result B) : result B :=
  match r with
  | Ok a => k a
  | Raise e => Raise e
  end.

#[global] Instance result_ret : MRet result := @Ok.
#[global] Instance result_bind : MBind result :=
  fun A B k r => rbind r k.

(** [try: body except _: handler] for a handler that catches every
    [Exception]. *)
Definition try_except {A} (body : result A) (handler : exn -> result A)
  : result A :=
  match body with
  | Ok a => Ok a
  | Raise e => handler e
  end.

(** [for i in range(n): st = body(i, st)], started at index [from]. *)
Fixpoint for_range_from {St} (from n : nat) (body : nat -> St -> result St)
    (st : St) : result St :=
  match n with
  | O => Ok st
  | S n' => st' ← body from st; for_range_from (S from) n' body st'
  end.

Definition for_range {St} (n : nat) (body : nat -> St -> result St)
    (st : St) : result St := for_range_from 0 n body st.

(** ** One-dimensional float arrays

    [a[i]] and [a[i] = v] for a non-negative index: Python raises
    IndexError out of range (stdpp's insert alone would do nothing). *)

Definition getitem {A} (a : list A) (i : nat) : result A :=
  match a !! i with
  | Some v => Ok v
  | None => Raise IndexError
  end.

Definition setitem {A} (a : list A) (i : nat) (v : A) : result (list A) :=
  if decide (i < length a) then Ok (<[i:=v]> a) else Raise IndexError.

(** [a[start:stop]] for [0 <= start <= stop]: never raises, stops at the end
    of [a]. *)
Definition slice {A} (a : list A) (start stop : nat) : list A :=
  take (stop - start) (drop start a).

Definition np_zeros (n : nat) : list Q := replicate n 0%Q.
Definition np_ones (n : nat) : list Q := replicate n 1%Q.

(** ** inspire_driver.py *)

Module InspireDriver.

Definition NUM_MOTORS_PER_HAND : nat := 6.
Definition TOTAL_MOTORS : nat := 12.  (* 0-5 Right, 6-11 Left *)

(** One entry of [MotorStates_.states]. *)
Record MotorState := mkMotorState { q : Q; dq : Q; tau_est : Q }.

(** One entry of [MotorCmds_.cmds]. *)
Record MotorCmd := mkMotorCmd { mode : Z; cmd_target : Q; kp : Q; kd : Q }.

(** The driver object.  Each field names one ndarray allocated once in
    [__init__]; afterwards the arrays are only mutated in place
    ([self.joint_q[i] = ...]), the fields are never rebound.  So a field is
    the identity of its array, and the record is the store of the four
    arrays. *)
Record InspireHandDriver := mkDriver {
  joint_q : list Q;
  joint_dq : list Q;
  joint_tau : list Q;
  cmd_q : list Q;
}.

Definition init : InspireHandDriver :=
  {| joint_q := np_zeros TOTAL_MOTORS;
     joint_dq := np_zeros TOTAL_MOTORS;
     joint_tau := np_zeros TOTAL_MOTORS;
     cmd_q := np_ones TOTAL_MOTORS |}.

Definition with_joint_q (d : InspireHandDriver) (a : list Q) :=
  {| joint_q := a; joint_dq := joint_dq d; joint_tau := joint_tau d;
     cmd_q := cmd_q d |}.
Definition with_joint_dq (d : InspireHandDriver) (a : list Q) :=
  {| joint_q := joint_q d; joint_dq := a; joint_tau := joint_tau d;
     cmd_q := cmd_q d |}.
Definition with_joint_tau (d : InspireHandDriver) (a : list Q) :=
  {| joint_q := joint_q d; joint_dq := joint_dq d; joint_tau := a;
     cmd_q := cmd_q d |}.
Definition with_cmd_q (d : InspireHandDriver) (a : list Q) :=
  {| joint_q := joint_q d; joint_dq := joint_dq d; joint_tau := joint_tau d;
     cmd_q := a |}.

(** The arrays all have [TOTAL_MOTORS] slots: true of [init], kept by every
    operation below. *)
Definition wf (d : InspireHandDriver) : Prop :=
  length (joint_q d) = TOTAL_MOTORS /\
  length (joint_dq d) = TOTAL_MOTORS /\
  length (joint_tau d) = TOTAL_MOTORS /\
  length (cmd_q d) = TOTAL_MOTORS.

(** Body of the [for i in range(count)] loop of [_recv_loop]. *)
Definition recv_body (states : list MotorState) (i : nat)
    (d : InspireHandDriver) : result InspireHandDriver :=
  s ← getitem states i;
  a ← setitem (joint_q d) i (q s);
  let d := with_joint_q d a in
  a ← setitem (joint_dq d) i (dq s);
  let d := with_joint_dq d a in
  a ← setitem (joint_tau d) i (tau_est s);
  Ok (with_joint_tau d a).

(** One turn of the [while self.running] loop of [_recv_loop];
    [msg] is what [self.sub.Read()] returned ([None] when no frame). *)
Definition recv_step (d : InspireHandDriver)
    (msg : option (list MotorState)) : result InspireHandDriver :=
  match msg with
  | Some states =>
      let count := Nat.min (length states) TOTAL_MOTORS in
      for_range count (recv_body states) d
  | None => Ok d
  end.

(** One turn of [_send_loop]: the frame handed to [self.pub.Write]. *)
Definition send_body (i : nat) (st : InspireHandDriver * list MotorCmd)
  : result (InspireHandDriver * list MotorCmd) :=
  let '(d, cmds) := st in
  c ← getitem (cmd_q d) i;
  cmds' ← setitem cmds i
    {| mode := 1%Z; cmd_target := c; kp := 0%Q; kd := 0%Q |};
  Ok (d, cmds').

Definition send_step (d : InspireHandDriver) (cmds : list MotorCmd)
  : result (list MotorCmd) :=
  st ← for_range TOTAL_MOTORS send_body (d, cmds);
  Ok (snd st).

(** What basic slicing of an ndarray returns: a view, that is the base
    array and a window on it, not a copy of the elements. *)
Inductive buffer : Type := Joint_q | Joint_dq | Joint_tau | Cmd_q.

Record ndview := mkView { base : buffer; start : nat; stop : nat }.

Definition buffer_of (d : InspireHandDriver) (b : buffer) : list Q :=
  match b with
  | Joint_q => joint_q d
  | Joint_dq => joint_dq d
  | Joint_tau => joint_tau d
  | Cmd_q => cmd_q d
  end.

(** The elements seen through a view when the store is [d]. *)
Definition view_values (d : InspireHandDriver) (v : ndview) : list Q :=
  slice (buffer_of d (base v)) (start v) (stop v).

Definition get_hand_state (is_left : bool) : ndview * ndview * ndview :=
  let start_idx := if is_left then 6 else 0 in
  let end_idx := start_idx + 6 in
  (mkView Joint_q start_idx end_idx,
   mkView Joint_dq start_idx end_idx,
   mkView Joint_tau start_idx end_idx).

Definition set_body (start_idx : nat) (q_cmd : list Q) (i : nat)
    (d : InspireHandDriver) : result InspireHandDriver :=
  v ← getitem q_cmd i;
  a ← setitem (cmd_q d) (start_idx + i) v;
  Ok (with_cmd_q d a).

Definition set_hand_cmd (d : InspireHandDriver) (is_left : bool)
    (q_cmd : list Q) : result InspireHandDriver :=
  let start_idx := if is_left then 6 else 0 in
  let limit := Nat.min (length q_cmd) 6 in
  for_range limit (set_body start_idx q_cmd) d.

(** [start_idx] as both accessors compute it. *)
Definition start_idx (is_left : bool) : nat := if is_left then 6 else 0.

(** The command mirror after the first [k] turns of the loop of
    [set_hand_cmd]. *)
Definition written (d : InspireHandDriver) (is_left : bool)
    (q_cmd : list Q) (k : nat) : list Q :=
  take (start_idx is_left) (cmd_q d) ++ take k q_cmd
    ++ drop (start_idx is_left + k) (cmd_q d).

(** What the loop of [_recv_loop] has done to one state array after [k]
    turns: slots below [k] hold the frame's field, the others are as before. *)
Definition ingested (proj : MotorState -> Q) (states : list MotorState)
    (old new : list Q) (k : nat) : Prop :=
  length new = TOTAL_MOTORS /\
  forall j, new !! j = if decide (j < k) then proj <$> states !! j
                       else old !! j.

End InspireDriver.

(** ** Small dense linear algebra on rows of floats *)

Definition vector := list Q.
Definition matrix := list (list Q).
(** A fingertip pose tensor: 25 homogeneous 4x4 transforms. *)
Definition tensor := list matrix.

Definition np_zeros3 (n r c : nat) : tensor :=
  replicate n (replicate r (replicate c 0%Q)).

Definition vsub (a b : vector) : vector := zip_with Qminus a b.

Definition dot (a b : vector) : Q :=
  foldr Qplus 0%Q (zip_with Qmult a b).

Definition transpose3 (m : matrix) : matrix :=
  map (fun j => map (fun row => default 0%Q (row !! j)) m) (seq 0 3).

(** [m @ v]; numpy raises ValueError when the shapes do not agree. *)
Definition matvec (m : matrix) (v : vector) : result vector :=
  if forallb (fun row => Nat.eqb (length row) (length v)) m
  then Ok (map (fun row => dot row v) m)
  else Raise ValueError.

(** [a @ b] for (3,3) operands. *)
Definition matmul3 (a b : matrix) : result matrix :=
  if forallb (fun row => Nat.eqb (length row) 3) a
     && Nat.eqb (length b) 3
     && forallb (fun row => Nat.eqb (length row) 3) b
  then Ok (map (fun row => map (fun col => dot row col) (transpose3 b)) a)
  else Raise ValueError.

(** A computable norm to run the solver on concrete tensors: the Euclidean
    length rounded down to a multiple of [1/den], [den] the denominator of
    the reduced sum of squares.  Exact whenever the length is rational. *)
Definition floor_norm (v : vector) : Q :=
  let s := Qred (dot v v) in
  Qred (Z.sqrt (Qnum s * Zpos (Qden s)) # Qden s).

(** [np.allclose(a, b)] for a scalar [b], with numpy's default tolerances:
    every entry has [|x - b| <= atol + rtol * |b|]. *)
Definition rtol : Q := 1e-5%Q.
Definition atol : Q := 1e-8%Q.

Definition isclose (x b : Q) : bool :=
  Qle_bool (Qabs (x - b)) (atol + rtol * Qabs b).

Definition allclose1 (a : vector) (b : Q) : bool :=
  forallb (fun x => isclose x b) a.

Definition allclose3 (t : tensor) (b : Q) : bool :=
  forallb (forallb (fun row => allclose1 row b)) t.

(** [np.clip(x, lo, hi)] is [minimum(maximum(x, lo), hi)]. *)
Definition np_clip (x lo hi : Q) : Q := Qmin (Qmax x lo) hi.

(** [a[:stop] = v] on a one-dimensional array. *)
Definition set_prefix (a : vector) (stop : nat) (v : Q) : vector :=
  replicate (Nat.min stop (length a)) v ++ drop stop a.

(** [str.lower()] on ASCII text. *)
Definition lower_ascii (c : Ascii.ascii) : Ascii.ascii :=
  let n := Ascii.nat_of_ascii c in
  if (65 <=? n)%nat && (n <=? 90)%nat then Ascii.ascii_of_nat (n + 32) else c.

Fixpoint lower (s : string) : string :=
  match s with
  | EmptyString => EmptyString
  | String c s' => String (lower_ascii c) (lower s')
  end.

(** ** g1_gripper_ik_solver.py *)

Module GripperSolver.

(** The two-key dicts [{"thumb": _, "fingers": _}]. *)
Record thresholds := mkThresholds { thumb : Q; fingers : Q }.

Record G1GripperInverseKinematicsSolver := mkSolver {
  side : string;
  tip_indices : list nat;
  open_thresholds : thresholds;
  close_thresholds : thresholds;
}.

Definition __init__ (side : string) : G1GripperInverseKinematicsSolver :=
  {| side := if String.eqb (lower side) "left" then "L" else "R";
     tip_indices := [4; 9; 14; 19; 24];  (* Thumb, Index, Middle, Ring, Pinky *)
     open_thresholds := {| thumb := 0.09%Q; fingers := 0.10%Q |};
     close_thresholds := {| thumb := 0.05%Q; fingers := 0.06%Q |} |}.

Definition threshold (t : thresholds) (is_thumb : bool) : Q :=
  if is_thumb then thumb t else fingers t.

(** [finger[:3, 3]]: column 3 of the first three rows. *)
Definition translation (finger : matrix) : result vector :=
  mapM (fun row => getitem row 3) (take 3 finger).

Section Solver.

(** [np.linalg.norm] on a vector: numpy's, the float nearest to the
    Euclidean length.  The solver uses it as a black box. *)
Variable linalg_norm : vector -> Q.

Variable self : G1GripperInverseKinematicsSolver.

(** Lines 37-46 of [get_curl]: from the distance to the curl. *)
Definition curl_of_dist (is_thumb : bool) (dist : Q) : Q :=
  let t_open := threshold (open_thresholds self) is_thumb in
  let t_close := threshold (close_thresholds self) is_thumb in
  let val := ((dist - t_close) / (t_open - t_close))%Q in
  let val := (val * 1.1)%Q in
  np_clip val 0%Q 1%Q.

(** The fingertip-to-wrist distance [get_curl] computes. *)
Definition tip_dist (positions : list vector) (wrist_pos : vector)
    (tip_idx : nat) : result Q :=
  tip_pos ← getitem positions tip_idx;
  Ok (linalg_norm (vsub tip_pos wrist_pos)).

Definition get_curl (positions : list vector) (wrist_pos : vector)
    (tip_idx : nat) (is_thumb : bool) : result Q :=
  dist ← tip_dist positions wrist_pos tip_idx;
  Ok (curl_of_dist is_thumb dist).

Definition __call__ (finger_data : gmap string tensor) : result vector :=
  let q_desired := np_zeros 7 in
  fingertips ← match finger_data !! "position" with
               | Some t => Ok t
               | None => Raise KeyError
               end;
  if allclose3 fingertips 0%Q then
    Ok (set_prefix q_desired 6 1%Q)
  else
    positions ← mapM translation fingertips;
    wrist_pos ← getitem positions 0;
    i0 ← getitem (tip_indices self) 0;
    thumb_curl ← get_curl positions wrist_pos i0 true;
    i1 ← getitem (tip_indices self) 1;
    index_curl ← get_curl positions wrist_pos i1 false;
    i2 ← getitem (tip_indices self) 2;
    middle_curl ← get_curl positions wrist_pos i2 false;
    i3 ← getitem (tip_indices self) 3;
    ring_curl ← get_curl positions wrist_pos i3 false;
    i4 ← getitem (tip_indices self) 4;
    pinky_curl ← get_curl positions wrist_pos i4 false;
    q_desired ← setitem q_desired 0 pinky_curl;
    q_desired ← setitem q_desired 1 ring_curl;
    q_desired ← setitem q_desired 2 middle_curl;
    q_desired ← setitem q_desired 3 index_curl;
    q_desired ← setitem q_desired 4 thumb_curl;
    q_desired ← setitem q_desired 5 1%Q;
    Ok q_desired.

End Solver.

(** The shape of the tensors the streamer hands to the solver. *)
Definition has_shape (n r c : nat) (t : tensor) : Prop :=
  length t = n /\
  Forall (fun m => length m = r /\ Forall (fun row => length row = c) m) t.

(** A sample input: the wrist at the origin and the 24 other joints 10 cm
    away from it, each pose a pure translation. *)
Definition translate (x y z : Q) : matrix :=
  [ [1; 0; 0; x]; [0; 1; 0; y]; [0; 0; 1; z]; [0; 0; 0; 1] ]%Q.

Definition stretched_hand : tensor :=
  translate 0 0 0 :: replicate 24 (translate 0.06 0.08 0).

(** The translation part of pose [k] of a tensor, when there is one. *)
Definition pose_position (t : tensor) (k : nat) : option vector :=
  match t !! k with
  | Some finger =>
      match translation finger with
      | Ok v => Some v
      | Raise _ => None
      end
  | None => None
  end.

End GripperSolver.

(** ** pico_hand_tracking_client_streamer.py *)

Module PicoClient.

Definition R_HEADSET_TO_WORLD : matrix :=
  [ [0; 0; -1];
    [-1; 0; 0];
    [0; 1; 0] ]%Q.

(** The dict the server pickles, after [pickle.loads]: one field per key the
    client looks at.  [None] stands for an absent key as well as for a key
    bound to [None] ([dict.get] answers [None] for both); [error] is [Some]
    exactly when the key ["error"] is in the dict. *)
Record server_reply := mkReply {
  error : option string;
  headset_pose : option vector;
  left_hand_joints : option (list vector);
  right_hand_joints : option (list vector);
}.

(** What the network does during one [_request_data]: the outcome of
    [socket.send] and, when it is reached, of [socket.recv].  A receive
    timeout is [Raise ZmqAgain]. *)
Record exchange := mkExchange {
  send_result : result unit;
  recv_result : result (list Byte.byte);
}.

Record PicoHandTrackingClientStreamer := mkStreamer {
  server_host : string;
  server_port : Z;
  context : option unit;
  socket : option unit;
}.

Definition new (server_host : string) (server_port : Z)
  : PicoHandTrackingClientStreamer :=
  {| server_host := server_host; server_port := server_port;
     context := None; socket := None |}.

Definition start_streaming (self : PicoHandTrackingClientStreamer)
  : PicoHandTrackingClientStreamer :=
  match socket self with
  | Some _ => self
  | None =>
      {| server_host := server_host self; server_port := server_port self;
         context := Some tt; socket := Some tt |}
  end.

Definition stop_streaming (self : PicoHandTrackingClientStreamer)
  : PicoHandTrackingClientStreamer :=
  {| server_host := server_host self; server_port := server_port self;
     context := None; socket := None |}.

Record StreamerOutput := mkOutput {
  ik_data : gmap string (gmap string tensor);
  source : string;
}.

(** [fingertips[i] = np.eye(4)], then the rotation block and the
    translation column are overwritten. *)
Definition eye4 : matrix :=
  [ [1; 0; 0; 0]; [0; 1; 0; 0]; [0; 0; 1; 0]; [0; 0; 0; 1] ]%Q.

Definition set_rotation (m rot : matrix) : matrix :=
  zip_with (fun row r => r ++ drop 3 row) (take 3 m) rot ++ drop 3 m.

Definition set_translation (m : matrix) (pos : vector) : matrix :=
  zip_with (fun row p => <[3:=p]> row) (take 3 m) pos ++ drop 3 m.

Section Client.

(** [pickle.loads]: raises on bytes that are not a pickle. *)
Variable pickle_loads : list Byte.byte -> result server_reply.

(** scipy's [Rotation]: [R.from_quat(q).as_matrix()],
    [R.from_matrix(m).as_euler("xyz")] and
    [R.from_euler("z", a).as_matrix()]. *)
Variable quat_as_matrix : vector -> result matrix.
Variable matrix_as_euler_xyz : matrix -> result vector.
Variable euler_z_as_matrix : Q -> matrix.

Definition _request_data (self : PicoHandTrackingClientStreamer)
    (net : exchange) : result (option server_reply) :=
  match socket self with
  | None => Raise RuntimeError
  | Some _ =>
      try_except
        (_ ← send_result net;
         message ← recv_result net;
         data ← pickle_loads message;
         match error data with
         | Some _ => Ok None
         | None => Ok (Some data)
         end)
        (fun e =>
           match e with
           | ZmqAgain => Ok None
           | _ => Ok None
           end)
  end.

(** A zero quaternion is replaced by the identity quaternion. *)
Definition safe_quat (quat : vector) : vector :=
  if allclose1 quat 0%Q then [0; 0; 0; 1]%Q else quat.

(** Body of the [for i in range(num_joints)] loop. *)
Definition joint_body (hand_joints : list vector) (h_pos : vector)
    (inv_yaw_rot : matrix) (i : nat) (fingertips : tensor) : result tensor :=
  joint_data ← getitem hand_joints i;
  let j_pos_raw := take 3 joint_data in
  let j_quat_raw := safe_quat (drop 3 joint_data) in
  j_pos ← matvec R_HEADSET_TO_WORLD j_pos_raw;
  j_rot ← quat_as_matrix j_quat_raw;
  j_rot ← matmul3 R_HEADSET_TO_WORLD j_rot;
  j_rot ← matmul3 j_rot (transpose3 R_HEADSET_TO_WORLD);
  let pos_delta := vsub j_pos h_pos in
  pos_final ← matvec inv_yaw_rot pos_delta;
  rot_final ← matmul3 inv_yaw_rot j_rot;
  setitem fingertips i (set_translation (set_rotation eye4 rot_final) pos_final).

Definition _generate_finger_data (hand_joints : option (list vector))
    (headset_pose : option vector) (hand_side : string) : result tensor :=
  match hand_joints with
  | None => Ok (np_zeros3 25 4 4)
  | Some hand_joints =>
      if decide (length hand_joints < 25) then Ok (np_zeros3 25 4 4)
      else
        let fingertips := np_zeros3 25 4 4 in
        headset_pose ← match headset_pose with
                       | Some p => Ok p
                       | None => Raise TypeError
                       end;
        let headset_pose_xyz := take 3 headset_pose in
        let headset_pose_quat := safe_quat (drop 3 headset_pose) in
        h_pos ← matvec R_HEADSET_TO_WORLD headset_pose_xyz;
        h_rot ← quat_as_matrix headset_pose_quat;
        h_rot ← matmul3 R_HEADSET_TO_WORLD h_rot;
        h_rot ← matmul3 h_rot (transpose3 R_HEADSET_TO_WORLD);
        euler ← matrix_as_euler_xyz h_rot;
        headset_yaw ← getitem euler 2;
        let inv_yaw_rot := euler_z_as_matrix (- headset_yaw)%Q in
        let num_joints := Nat.min (length hand_joints) 25 in
        for_range num_joints (joint_body hand_joints h_pos inv_yaw_rot)
          fingertips
  end.

Definition fingers_output (left_fingers right_fingers : tensor)
  : StreamerOutput :=
  {| ik_data :=
       <["left_fingers" := {["position" := left_fingers]}]>
         {["right_fingers" := {["position" := right_fingers]}]};
     source := "pico_hand_tracking" |}.

Definition get (self : PicoHandTrackingClientStreamer) (net : exchange)
  : result StreamerOutput :=
  server_data ← _request_data self net;
  match server_data with
  | None => Ok (fingers_output (np_zeros3 25 4 4) (np_zeros3 25 4 4))
  | Some server_data =>
      left_fingers ← _generate_finger_data (left_hand_joints server_data)
                       (headset_pose server_data) "left";
      right_fingers ← _generate_finger_data (right_hand_joints server_data)
                        (headset_pose server_data) "right";
      Ok (fingers_output left_fingers right_fingers)
  end.

(** The request/response exchange fails: [send] raises, or [recv] raises
    (a timeout is [ZmqAgain]), or the bytes received do not unpickle. *)
Inductive exchange_fails (net : exchange) : Prop :=
| send_fails e :
    send_result net = Raise e -> exchange_fails net
| recv_fails e :
    send_result net = Ok tt -> recv_result net = Raise e ->
    exchange_fails net
| loads_fails message e :
    send_result net = Ok tt -> recv_result net = Ok message ->
    pickle_loads message = Raise e -> exchange_fails net.

End Client.

(** A hand-joint input with fewer than 25 joints, [None] included. *)
Definition fewer_than_25 (hand_joints : option (list vector)) : Prop :=
  match hand_joints with
  | None => True
  | Some joints => length joints < 25
  end.

(** To run the client on concrete data: the rotation matrix of a
    scalar-last quaternion [x, y, z, w], which is rational in the
    quaternion, and the two yaw functions for a headset that looks straight
    ahead (yaw 0). *)
Definition unit_quat_matrix (quat : vector) : result matrix :=
  match quat with
  | [x; y; z; w] =>
      let n := (x * x + y * y + z * z + w * w)%Q in
      if Qeq_bool n 0 then Raise ValueError
      else
        let s := (2 / n)%Q in
        Ok [ [Qred (1 - s * (y * y + z * z)); Qred (s * (x * y - z * w));
              Qred (s * (x * z + y * w))];
             [Qred (s * (x * y + z * w)); Qred (1 - s * (x * x + z * z));
              Qred (s * (y * z - x * w))];
             [Qred (s * (x * z - y * w)); Qred (s * (y * z + x * w));
              Qred (1 - s * (x * x + y * y))] ]%Q
  | _ => Raise ValueError
  end.

Definition level_euler (m : matrix) : result vector := Ok [0; 0; 0]%Q.

Definition level_yaw_matrix (angle : Q) : matrix :=
  [ [1; 0; 0]; [0; 1; 0]; [0; 0; 1] ]%Q.

(** A hand-joint input the client treats as tracked. *)
Definition tracked (hand_joints : option (list vector)) : Prop :=
  match hand_joints with
  | None => False
  | Some joints => 25 <= length joints
  end.

(** The identity rotation as a scalar-last quaternion [x, y, z, w]. *)
Definition identity_quat : vector := [0; 0; 0; 1]%Q.

(** A pose [x, y, z, qx, qy, qz, qw] in which a quaternion that is
    numerically zero has been replaced by the identity quaternion. *)
Definition identity_if_zero (pose : vector) : vector :=
  if allclose1 (drop 3 pose) 0%Q then take 3 pose ++ identity_quat else pose.

Definition is_3x3 (m : matrix) : Prop :=
  length m = 3 /\ Forall (fun row => length row = 3) m.

End PicoClient.

(** ** run_teleop_policy_loop.py *)

Module TeleopLoop.

(** A value of the action dict. *)
Inductive value : Type :=
| VFloat (x : Q)
| VArray (a : vector).

Abbreviation action := (gmap string value).

(** The one field of [TeleopConfig] the loop body reads. *)
Record TeleopConfig := mkConfig { teleop_frequency : Q }.

(** Python's [a / b] on floats. *)
Definition py_div (a b : Q) : result Q :=
  if Qeq_bool b 0 then Raise ZeroDivisionError else Ok (a / b)%Q.

(** What one cycle reads from outside: the three clock readings and the
    dict [teleop_policy.get_action()] returned. *)
Record cycle_input := mkInput {
  t_start : Q;
  data : action;
  t_now : Q;
  end_time : Q;
}.

(** The loop's variable [iteration] and what the loop has done so far:
    the actions handed to [control_publisher.publish], the [time.sleep]
    durations, and how many times the missed-deadline report was logged. *)
Record loop_state := mkLoop {
  iteration : nat;
  published : list action;
  slept : list Q;
  missed : nat;
}.

Definition time_to_get_to_initial_pose : Q := 2.

Definition initial : loop_state :=
  {| iteration := 0; published := []; slept := []; missed := 0 |}.

(** One pass through the body of [while rclpy.ok()].  The state returned
    holds the effects performed, also when the pass ends in an exception
    (the second component). *)
Definition cycle (config : TeleopConfig) (st : loop_state)
    (inp : cycle_input) : loop_state * option exn :=
  let data := <["timestamp" := VFloat (t_now inp)]> (data inp) in
  let target :=
    if Nat.eqb (iteration st) 0
    then Ok (t_now inp + time_to_get_to_initial_pose)%Q
    else period ← py_div 1 (teleop_frequency config);
         Ok (t_now inp + period)%Q in
  match target with
  | Raise e => (st, Some e)
  | Ok target_time =>
      let data := <["target_time" := VFloat target_time]> data in
      let st :=
        {| iteration := iteration st;
           published := published st ++ [data];
           slept := slept st; missed := missed st |} in
      let st :=
        if Nat.eqb (iteration st) 0
        then {| iteration := iteration st; published := published st;
                slept := slept st ++ [time_to_get_to_initial_pose];
                missed := missed st |}
        else st in
      let st :=
        {| iteration := iteration st + 1; published := published st;
           slept := slept st; missed := missed st |} in
      match py_div 1 (teleop_frequency config) with
      | Raise e => (st, Some e)
      | Ok period =>
          if Qlt_le_dec period (end_time inp - t_start inp)
          then ({| iteration := iteration st; published := published st;
                   slept := slept st; missed := missed st + 1 |}, None)
          else (st, None)
      end
  end.

(** The loop, one input per turn for which [rclpy.ok()] held; it stops at
    the first exception. *)
Fixpoint run (config : TeleopConfig) (st : loop_state)
    (inputs : list cycle_input) : loop_state * option exn :=
  match inputs with
  | [] => (st, None)
  | inp :: rest =>
      match cycle config st inp with
      | (st', None) => run config st' rest
      | (st', Some e) => (st', Some e)
      end
  end.

Definition main (config : TeleopConfig) (inputs : list cycle_input)
  : loop_state * option exn := run config initial inputs.

(** Reading a float entry of a published action. *)
Definition float_at (a : action) (key : string) : option Q :=
  match a !! key with
  | Some (VFloat x) => Some x
  | _ => None
  end.

(** Did the cycle take longer than one period? *)
Definition overran (config : TeleopConfig) (inp : cycle_input) : bool :=
  if Qlt_le_dec (1 / teleop_frequency config) (end_time inp - t_start inp)
  then true else false.

(** The action published for an input: the policy's dict with the two time
    stamps set. *)
Definition stamped (inp : cycle_input) (target_time : Q) : action :=
  <["target_time" := VFloat target_time]>
    (<["timestamp" := VFloat (t_now inp)]> (data inp)).

End TeleopLoop.

(** ** inspire_driver.py: construction of the singleton *)

Module InspireSingleton.
Import InspireDriver.

(** What the DDS layer answers during one [__init__]. *)
Record dds_env := mkDds {
  factory_init : result unit;   (* ChannelFactoryInitialize(0, interface) *)
  pub_init : result unit;       (* ChannelPublisher(...) and pub.Init() *)
  sub_init : result unit;       (* ChannelSubscriber(...) and sub.Init() *)
}.

(** The object held in the class attribute [_instance].  [arrays] is [None]
    until [__init__] has allocated the mirrors; [threads] counts the pairs
    of background threads started (starting a thread is taken to succeed). *)
Record instance := mkInstance {
  _initialized : bool;
  arrays : option InspireHandDriver;
  running : bool;
  threads : nat;
}.

(** [__new__]: the class attribute afterwards, which is also the object
    returned. *)
Definition __new__ (_instance : option instance) : instance :=
  match _instance with
  | None => {| _initialized := false; arrays := None; running := false;
               threads := 0 |}
  | Some self => self
  end.

Definition __init__ (self : instance) (env : dds_env)
  : instance * option exn :=
  if _initialized self then (self, None)
  else
    match try_except (factory_init env) (fun _ => Ok tt) with
    | Raise e => (self, Some e)
    | Ok _ =>
        let self := {| _initialized := _initialized self;
                       arrays := Some init;
                       running := running self;
                       threads := threads self |} in
        match pub_init env with
        | Raise e => (self, Some e)
        | Ok _ =>
            match sub_init env with
            | Raise e => (self, Some e)
            | Ok _ =>
                ({| _initialized := true; arrays := arrays self;
                    running := true; threads := threads self + 1 |}, None)
            end
        end
    end.

(** [InspireHandDriver(interface)]: [__new__], then [__init__] on the object
    it returned.  The class attribute afterwards and the exception, if any. *)
Definition construct (_instance : option instance) (env : dds_env)
  : option instance * option exn :=
  let '(self, e) := __init__ (__new__ _instance) env in (Some self, e).

(** A run of constructor calls. *)
Fixpoint constructs (_instance : option instance) (envs : list dds_env)
  : option instance :=
  match envs with
  | [] => _instance
  | env :: rest => constructs (construct _instance env).1 rest
  end.

(** What every run of constructor calls keeps true of the instance. *)
Definition singleton_inv (self : instance) : Prop :=
  threads self <= 1 /\
  (_initialized self = true <-> threads self = 1) /\
  (_initialized self = true -> running self = true /\ is_Some (arrays self)).

End InspireSingleton.

(** The frame [_send_loop] builds from the command mirror. *)
Module InspireFrames.
Import InspireDriver.

Definition servo_cmd (target : Q) : MotorCmd :=
  {| mode := 1%Z; cmd_target := target; kp := 0%Q; kd := 0%Q |}.

(** Does index [j] fall in the window a call of [set_hand_cmd] writes? *)
Definition in_window (is_left : bool) (q_cmd : list Q) (j : nat) : bool :=
  (start_idx is_left <=? j) && (j <? start_idx is_left + Nat.min (length q_cmd) 6).

End InspireFrames.

(** ** pico_hand_tracking_server.py *)

Module PicoServer.
Import PicoClient.

(** What the XR client answers during one capture, and the two readings of
    [time.time()] (for the data dict and for the error dict). *)
Record xr_answers := mkXr {
  headset : result (option vector);       (* get_pose_by_name("headset") *)
  left_state : result Z;                  (* get_hand_tracking_state("left") *)
  right_state : result Z;                 (* get_hand_tracking_state("right") *)
  left_joints : result (option (list vector));
                                          (* get_hand_joint_locations("left") *)
  right_joints : result (option (list vector));
  data_time : Q;
  error_time : Q;
}.

(** The two dicts the server pickles. *)
Inductive payload : Type :=
| Tracking (headset_pose : option vector)
    (left_hand_tracking_state right_hand_tracking_state : Z)
    (left_hand_joints right_hand_joints : option (list vector))
    (timestamp : Q)
| Failure (error : string) (timestamp : Q).

(** The client's view of a payload: the keys it looks up. *)
Definition reply_of (p : payload) : server_reply :=
  match p with
  | Tracking hp _ _ l r _ =>
      {| PicoClient.error := None; PicoClient.headset_pose := hp;
         PicoClient.left_hand_joints := l;
         PicoClient.right_hand_joints := r |}
  | Failure e _ =>
      {| PicoClient.error := Some e; PicoClient.headset_pose := None;
         PicoClient.left_hand_joints := None;
         PicoClient.right_hand_joints := None |}
  end.

Definition _get_hand_tracking_data (xr : xr_answers) : result payload :=
  headset_pose ← headset xr;
  left_hand_tracking_state ← left_state xr;
  right_hand_tracking_state ← right_state xr;
  let '(left_hand_joints, right_hand_joints) :=
    match left_joints xr with
    | Raise _ => (None, None)
    | Ok l =>
        match right_joints xr with
        | Raise _ => (l, None)
        | Ok r => (l, r)
        end
    end in
  Ok (Tracking headset_pose left_hand_tracking_state
        right_hand_tracking_state left_hand_joints right_hand_joints
        (data_time xr)).

(** What happens around one request: how [socket.recv] ends (a
    KeyboardInterrupt, which is not an [Exception], or a result), the
    capture, and the outcomes of the [send] of the data and of the [send]
    in the handler. *)
Inductive arrival : Type :=
| Interrupted
| Arrived (request : result (list Byte.byte)).

Record request_env := mkRequest {
  srv_recv : arrival;
  xr : xr_answers;
  data_send : result unit;
  error_send : result unit;
}.

(** How one turn of [while True] ends. *)
Inductive turn : Type :=
| Continue          (* next turn *)
| Break             (* KeyboardInterrupt: the loop is left *)
| Propagate (e : exn).  (* the handler itself raised *)

Section Server.

Variable pickle_dumps : payload -> list Byte.byte.
(** [str(e)] *)
Variable exn_str : exn -> string.

(** The [except Exception as e] handler. *)
Definition on_exception (env : request_env) (e : exn)
  : list (list Byte.byte) * turn :=
  match error_send env with
  | Ok _ => ([pickle_dumps (Failure (exn_str e) (error_time (xr env)))],
             Continue)
  | Raise e' => ([], Propagate e')
  end.

(** One turn of the loop of [run]: the messages sent and how it ends. *)
Definition run_turn (env : request_env) : list (list Byte.byte) * turn :=
  match srv_recv env with
  | Interrupted => ([], Break)
  | Arrived (Raise e) => on_exception env e
  | Arrived (Ok _) =>
      match _get_hand_tracking_data (xr env) with
      | Raise e => on_exception env e
      | Ok data =>
          match data_send env with
          | Ok _ => ([pickle_dumps data], Continue)
          | Raise e => on_exception env e
          end
      end
  end.

End Server.

(** The capture itself fails: the headset pose or a tracking state cannot
    be read. *)
Definition capture_fails (xr : xr_answers) (e : exn) : Prop :=
  headset xr = Raise e \/
  (exists hp, headset xr = Ok hp /\ left_state xr = Raise e) \/
  (exists hp ls, headset xr = Ok hp /\ left_state xr = Ok ls /\
                 right_state xr = Raise e).

End PicoServer.

(** ** g1_hand.py *)

Module G1Hand.

(** The dict [observe] returns. *)
Record observation := mkObservation {
  hand_q : vector;
  hand_dq : vector;
  hand_ddq : vector;
  hand_tau_est : vector;
}.

(** [G1InspireHand.observe]: no assertion and no offset. *)
Definition inspire_observe (hand_state : matrix) : result observation :=
  row ← getitem hand_state 0;
  Ok {| hand_q := slice row 0 7;
        hand_dq := slice row 7 14;
        hand_ddq := slice row 21 28;
        hand_tau_est := slice row 14 21 |}.

(** [G1InspireHand.queue_action]. *)
Definition inspire_queue_action (action : gmap string vector)
  : gmap string vector * list vector :=
  match action !! "hand_q" with
  | Some q => (action, [q])
  | None => (action, [])
  end.

End G1Hand.

(** ** configs.py *)

Module Configs.

(** The flags [SyncSimPlaybackConfig.validate_args] reads. *)
Record SyncSimPlaybackConfig := mkPlayback {
  use_actions : bool;
  use_wbc_goals : bool;
  use_teleop_cmd : bool;
  save_video : bool;
  save_lerobot : bool;
  save_img_obs : bool;
  intervention : bool;
}.

(** The five checks, in order; the number of the check that raised
    ValueError, or [None] when the arguments pass. *)
Definition validate_args (self : SyncSimPlaybackConfig) : option nat :=
  if use_teleop_cmd self && negb (use_actions self) then Some 1
  else if use_teleop_cmd self && use_wbc_goals self then Some 2
  else if (use_teleop_cmd self || use_wbc_goals self)
          && negb (use_actions self) then Some 3
  else if save_img_obs self && negb (save_lerobot self) then Some 4
  else if intervention self && negb (save_video self) then Some 5
  else None.

(** A value of the WBC YAML dict. *)
Inductive yaml : Type :=
| YStr (s : string)
| YBool (b : bool)
| YFloat (x : Q)
| YFloats (l : list Q)
| YStrs (l : list string)
| YNone.

(** The fields of [BaseConfig] that [override_wbc_config] reads. *)
Record BaseConfig := mkBase {
  interface : string;
  env_type : string;
  wbc_version : string;
  simulator : string;
  sim_frequency : Q;
  enable_offscreen : bool;
  enable_onscreen : bool;
  wbc_model_path : string;
  enable_waist : bool;
  with_hands : bool;
  hand_type : string;
  verbose : bool;
  verbose_timing : bool;
  upper_body_joint_speed : Q;
  keyboard_dispatcher_type : string;
  enable_gravity_compensation : bool;
  gravity_compensation_joints : option (list string);
  high_elbow_pose : bool;
}.

(** The dict [key_to_value], in insertion order.  Building it divides by
    the simulation frequency. *)
Definition key_to_value (config : BaseConfig)
  : result (list (string * yaml)) :=
  if Qeq_bool (sim_frequency config) 0 then Raise ZeroDivisionError
  else Ok
    [ ("INTERFACE", YStr (interface config));
      ("ENV_TYPE", YStr (env_type config));
      ("VERSION", YStr (wbc_version config));
      ("SIMULATOR", YStr (simulator config));
      ("SIMULATE_DT", YFloat (1 / sim_frequency config));
      ("ENABLE_OFFSCREEN", YBool (enable_offscreen config));
      ("ENABLE_ONSCREEN", YBool (enable_onscreen config));
      ("model_path", YStr (wbc_model_path config));
      ("enable_waist", YBool (enable_waist config));
      ("with_hands", YBool (with_hands config));
      ("HAND_TYPE", YStr (hand_type config));
      ("verbose", YBool (verbose config));
      ("verbose_timing", YBool (verbose_timing config));
      ("upper_body_max_joint_speed", YFloat (upper_body_joint_speed config));
      ("keyboard_dispatcher_type", YStr (keyboard_dispatcher_type config));
      ("enable_gravity_compensation",
       YBool (enable_gravity_compensation config));
      ("gravity_compensation_joints",
       match gravity_compensation_joints config with
       | Some l => YStrs l
       | None => YNone
       end);
      ("high_elbow_pose", YBool (high_elbow_pose config)) ].

(** The two [for key in key_to_value] loops. *)
Fixpoint add_missed (table : list (string * yaml))
    (wbc_config : gmap string yaml) : gmap string yaml :=
  match table with
  | [] => wbc_config
  | (key, v) :: rest =>
      add_missed rest
        (match wbc_config !! key with
         | None => <[key := v]> wbc_config
         | Some _ => wbc_config
         end)
  end.

Fixpoint set_all (table : list (string * yaml))
    (wbc_config : gmap string yaml) : gmap string yaml :=
  match table with
  | [] => wbc_config
  | (key, v) :: rest => set_all rest (<[key := v]> wbc_config)
  end.

(** [wbc_config["MOTOR_KD"][14] = wbc_config["MOTOR_KD"][14] - 10] *)
Definition lower_waist_damping (wbc_config : gmap string yaml)
  : result (gmap string yaml) :=
  match wbc_config !! "MOTOR_KD" with
  | None => Raise KeyError
  | Some (YFloats kd) =>
      x ← getitem kd 14;
      kd' ← setitem kd 14 (x - 10)%Q;
      Ok (<["MOTOR_KD" := YFloats kd']> wbc_config)
  | Some _ => Raise TypeError
  end.

Definition override_wbc_config (wbc_config : gmap string yaml)
    (config : BaseConfig) (missed_keys_only : bool)
  : result (gmap string yaml) :=
  table ← key_to_value config;
  let wbc_config :=
    if missed_keys_only then add_missed table wbc_config
    else set_all table wbc_config in
  if String.eqb (env_type config) "real"
  then lower_waist_damping wbc_config
  else Ok wbc_config.

(** The keys of [key_to_value]. *)
Definition table_keys : list string :=
  [ "INTERFACE"; "ENV_TYPE"; "VERSION"; "SIMULATOR"; "SIMULATE_DT";
    "ENABLE_OFFSCREEN"; "ENABLE_ONSCREEN"; "model_path"; "enable_waist";
    "with_hands"; "HAND_TYPE"; "verbose"; "verbose_timing";
    "upper_body_max_joint_speed"; "keyboard_dispatcher_type";
    "enable_gravity_compensation"; "gravity_compensation_joints";
    "high_elbow_pose" ].

(** A sample configuration and YAML dict. *)
Definition sample_config (env : string) : BaseConfig :=
  {| interface := "lo"; env_type := env; wbc_version := "gear_wbc";
     simulator := "mujoco"; sim_frequency := 200;
     enable_offscreen := false; enable_onscreen := true;
     wbc_model_path := "policy/model.onnx"; enable_waist := false;
     with_hands := true; hand_type := "inspire"; verbose := true;
     verbose_timing := false; upper_body_joint_speed := 1000;
     keyboard_dispatcher_type := "raw";
     enable_gravity_compensation := false;
     gravity_compensation_joints := None; high_elbow_pose := false |}.

Definition sample_yaml : gmap string yaml :=
  <["INTERFACE" := YStr "eth0"]>
    (<["MOTOR_KD" := YFloats (replicate 29 20%Q)]>
       {["GAIT_PERIOD" := YFloat 0.8%Q]}).

End Configs.

(** * The same code on float64

    The embeddings above compute on exact rationals.  Where a property
    depends on what float64 does -- NaN, rounding -- the code is embedded
    again on Rocq's primitive floats, which are IEEE 754 binary64 as
    Python's and numpy's floats are. *)

Module F64.
Import Floats.

Definition fvector := list float.
Definition fmatrix := list (list float).
(** A fingertip pose tensor: 25 homogeneous 4x4 transforms. *)
Definition ftensor := list fmatrix.

(** [np.isnan] *)
Definition isnan (x : float) : bool := PrimFloat.is_nan x.

(** Is [x] a number of the closed interval [0, 1]?  False of NaN. *)
Definition in_unit_interval (x : float) : bool :=
  (0 <=? x)%float && (x <=? 1)%float.

(** numpy's [maximum] and [minimum] inside [clip]: NaN in the first operand
    is passed on, otherwise the C comparison decides. *)
Definition clip_max (a b : float) : float :=
  if isnan a then a else if (b <? a)%float then a else b.

Definition clip_min (a b : float) : float :=
  if isnan a then a else if (a <? b)%float then a else b.

(** [np.clip(x, lo, hi)] *)
Definition np_clip (x lo hi : float) : float := clip_min (clip_max x lo) hi.

(** A finite float other than zero: what the thresholds and the gain are. *)
Definition finite_nonzero (c : float) : Prop :=
  exists s m e, Prim2SF c = S754_finite s m e.

(** [np.allclose(a, b)] for a scalar [b] that is finite:
    [|x - b| <= atol + rtol * |b|], false when [x] is NaN or infinite. *)
Definition isclose (x b : float) : bool :=
  (abs (x - b) <=? 1e-8 + 1e-5 * abs b)%float.

Definition allclose3 (t : ftensor) (b : float) : bool :=
  forallb (forallb (forallb (fun x => isclose x b))) t.

Definition vsub (a b : fvector) : fvector :=
  zip_with PrimFloat.sub a b.

(** A Euclidean norm to run the code on concrete tensors: the square root
    of the sum of the squares, as [np.linalg.norm] computes it on a vector
    (numpy may add the squares in another order).  NaN in, NaN out. *)
Definition euclid_norm (v : fvector) : float :=
  sqrt (foldr PrimFloat.add 0%float (map (fun x => (x * x)%float) v)).

End F64.

(** ** g1_gripper_ik_solver.py on float64 *)

Module FloatSolver.
Import Floats F64.

Record thresholds := mkThresholds { thumb : float; fingers : float }.

Record G1GripperInverseKinematicsSolver := mkSolver {
  side : string;
  tip_indices : list nat;
  open_thresholds : thresholds;
  close_thresholds : thresholds;
}.

Definition __init__ (side : string) : G1GripperInverseKinematicsSolver :=
  {| side := if String.eqb (lower side) "left" then "L" else "R";
     tip_indices := [4; 9; 14; 19; 24];
     open_thresholds := {| thumb := 0.09%float; fingers := 0.10%float |};
     close_thresholds := {| thumb := 0.05%float; fingers := 0.06%float |} |}.

Definition threshold (t : thresholds) (is_thumb : bool) : float :=
  if is_thumb then thumb t else fingers t.

(** [finger[:3, 3]] *)
Definition translation (finger : fmatrix) : result fvector :=
  mapM (fun row => getitem row 3) (take 3 finger).

(** The translation part of pose [k] of a tensor, when there is one. *)
Definition pose_position (t : ftensor) (k : nat) : option fvector :=
  match t !! k with
  | Some finger =>
      match translation finger with
      | Ok v => Some v
      | Raise _ => None
      end
  | None => None
  end.

Section Solver.

(** [np.linalg.norm], numpy's. *)
Variable linalg_norm : fvector -> float.

Variable self : G1GripperInverseKinematicsSolver.

(** Lines 37-46 of [get_curl]. *)
Definition curl_of_dist (is_thumb : bool) (dist : float) : float :=
  let t_open := threshold (open_thresholds self) is_thumb in
  let t_close := threshold (close_thresholds self) is_thumb in
  let val := ((dist - t_close) / (t_open - t_close))%float in
  let val := (val * 1.1)%float in
  np_clip val 0 1.

Definition tip_dist (positions : list fvector) (wrist_pos : fvector)
    (tip_idx : nat) : result float :=
  tip_pos ← getitem positions tip_idx;
  Ok (linalg_norm (vsub tip_pos wrist_pos)).

Definition get_curl (positions : list fvector) (wrist_pos : fvector)
    (tip_idx : nat) (is_thumb : bool) : result float :=
  dist ← tip_dist positions wrist_pos tip_idx;
  Ok (curl_of_dist is_thumb dist).

Definition __call__ (finger_data : gmap string ftensor) : result fvector :=
  let q_desired := replicate 7 0%float in
  fingertips ← match finger_data !! "position" with
               | Some t => Ok t
               | None => Raise KeyError
               end;
  if allclose3 fingertips 0 then
    Ok (replicate (Nat.min 6 (length q_desired)) 1%float ++ drop 6 q_desired)
  else
    positions ← mapM translation fingertips;
    wrist_pos ← getitem positions 0;
    i0 ← getitem (tip_indices self) 0;
    thumb_curl ← get_curl positions wrist_pos i0 true;
    i1 ← getitem (tip_indices self) 1;
    index_curl ← get_curl positions wrist_pos i1 false;
    i2 ← getitem (tip_indices self) 2;
    middle_curl ← get_curl positions wrist_pos i2 false;
    i3 ← getitem (tip_indices self) 3;
    ring_curl ← get_curl positions wrist_pos i3 false;
    i4 ← getitem (tip_indices self) 4;
    pinky_curl ← get_curl positions wrist_pos i4 false;
    q_desired ← setitem q_desired 0 pinky_curl;
    q_desired ← setitem q_desired 1 ring_curl;
    q_desired ← setitem q_desired 2 middle_curl;
    q_desired ← setitem q_desired 3 index_curl;
    q_desired ← setitem q_desired 4 thumb_curl;
    q_desired ← setitem q_desired 5 1%float;
    Ok q_desired.

End Solver.

Definition has_shape (n r c : nat) (t : ftensor) : Prop :=
  length t = n /\
  Forall (fun m => length m = r /\ Forall (fun row => length row = c) m) t.

(** The distances the call computes are numbers: for every fingertip index
    of the solver, the norm of fingertip minus wrist is not NaN. *)
Definition distances_are_numbers (linalg_norm : fvector -> float)
    (self : G1GripperInverseKinematicsSolver) (t : ftensor) : Prop :=
  forall k wrist tip,
    k ∈ tip_indices self ->
    pose_position t 0 = Some wrist -> pose_position t k = Some tip ->
    isnan (linalg_norm (vsub tip wrist)) = false.

(** Sample inputs: pure translations; a hand 10 cm wide, and a hand whose
    wrist position was lost to NaN. *)
Definition translate (x y z : float) : fmatrix :=
  [ [1; 0; 0; x]; [0; 1; 0; y]; [0; 0; 1; z]; [0; 0; 0; 1] ]%float.

Definition stretched_hand : ftensor :=
  translate 0 0 0 :: replicate 24 (translate 0.06 0.08 0).

Definition nan_wrist_hand : ftensor :=
  translate nan 0 0 :: replicate 24 (translate 0.06 0.08 0).

End FloatSolver.

(** ** run_teleop_policy_loop.py on float64 *)

Module FloatLoop.
Import Floats.

(** A value of the action dict. *)
Inductive value : Type :=
| VFloat (x : float)
| VArray (a : list float).

Abbreviation action := (gmap string value).

(** [TeleopConfig.teleop_frequency: float = 20]. *)
Record TeleopConfig := mkConfig { teleop_frequency : float }.

(** Python's [a / b] on floats: ZeroDivisionError for a zero divisor of
    either sign. *)
Definition py_div (a b : float) : result float :=
  if (b =? 0)%float then Raise ZeroDivisionError else Ok (a / b)%float.

(** What one cycle reads from outside: the three readings of
    [time.monotonic()] and the dict [teleop_policy.get_action()] returned. *)
Record cycle_input := mkInput {
  t_start : float;
  data : action;
  t_now : float;
  end_time : float;
}.

(** The loop's variable [iteration], the actions published, the
    [time.sleep] durations, and the number of missed-deadline reports. *)
Record loop_state := mkLoop {
  iteration : nat;
  published : list action;
  slept : list float;
  missed : nat;
}.

(** The int [2], a float once added to [t_now]. *)
Definition time_to_get_to_initial_pose : float := 2.

Definition initial : loop_state :=
  {| iteration := 0; published := []; slept := []; missed := 0 |}.

(** One pass through the body of [while rclpy.ok()]: lines 70-97. *)
Definition cycle (config : TeleopConfig) (st : loop_state)
    (inp : cycle_input) : loop_state * option exn :=
  let data := <["timestamp" := VFloat (t_now inp)]> (data inp) in
  let target :=
    if Nat.eqb (iteration st) 0
    then Ok (t_now inp + time_to_get_to_initial_pose)%float
    else period ← py_div 1 (teleop_frequency config);
         Ok (t_now inp + period)%float in
  match target with
  | Raise e => (st, Some e)
  | Ok target_time =>
      let data := <["target_time" := VFloat target_time]> data in
      let st :=
        {| iteration := iteration st;
           published := published st ++ [data];
           slept := slept st; missed := missed st |} in
      let st :=
        if Nat.eqb (iteration st) 0
        then {| iteration := iteration st; published := published st;
                slept := slept st ++ [time_to_get_to_initial_pose];
                missed := missed st |}
        else st in
      let st :=
        {| iteration := iteration st + 1; published := published st;
           slept := slept st; missed := missed st |} in
      match py_div 1 (teleop_frequency config) with
      | Raise e => (st, Some e)
      | Ok period =>
          if (period <? end_time inp - t_start inp)%float
          then ({| iteration := iteration st; published := published st;
                   slept := slept st; missed := missed st + 1 |}, None)
          else (st, None)
      end
  end.

Fixpoint run (config : TeleopConfig) (st : loop_state)
    (inputs : list cycle_input) : loop_state * option exn :=
  match inputs with
  | [] => (st, None)
  | inp :: rest =>
      match cycle config st inp with
      | (st', None) => run config st' rest
      | (st', Some e) => (st', Some e)
      end
  end.

Definition main (config : TeleopConfig) (inputs : list cycle_input)
  : loop_state * option exn := run config initial inputs.

Definition float_at (a : action) (key : string) : option float :=
  match a !! key with
  | Some (VFloat x) => Some x
  | _ => None
  end.

(** The [k]-th published action: its target time is the float sum of its
    timestamp and the warm-up duration (first cycle) or the period. *)
Definition well_timed (config : TeleopConfig) (k : nat) (act : action)
  : Prop :=
  exists ts tt,
    float_at act "timestamp" = Some ts /\
    float_at act "target_time" = Some tt /\
    (k = 0 -> tt = (ts + 2)%float) /\
    (k <> 0 ->
       (teleop_frequency config =? 0)%float = false /\
       tt = (ts + 1 / teleop_frequency config)%float).

(** The loop's invariant: [iteration] counts the published actions, and
    each of them is well timed. *)
Definition loop_inv (config : TeleopConfig) (st : loop_state) : Prop :=
  iteration st = length (published st) /\
  forall k act, published st !! k = Some act -> well_timed config k act.

End FloatLoop.

(** * Proofs *)

(** ** The loop combinator *)

Lemma for_range_from_inv {St} (I : nat -> St -> Prop)
    (body : nat -> St -> result St) (n from : nat) (st : St) :
  I from st ->
  (forall i s, from <= i < from + n -> I i s ->
     exists s', body i s = Ok s' /\ I (S i) s') ->
  exists st', for_range_from from n body st = Ok st' /\ I (from + n) st'.
Proof.
  revert from st. induction n as [|n IH]; intros from st H0 Hstep.
  - exists st. rewrite Nat.add_0_r. done.
  - destruct (Hstep from st) as (s' & Hb & Hs'); [lia | done |].
    destruct (IH (S from) s') as (st' & Hr & Hst'); [done | |].
    + intros i s Hi. apply Hstep. lia.
    + exists st'. simpl. rewrite Hb. simpl.
      replace (from + S n) with (S from + n) by lia. done.
Qed.

Lemma for_range_inv {St} (I : nat -> St -> Prop)
    (body : nat -> St -> result St) (n : nat) (st : St) :
  I 0 st ->
  (forall i s, i < n -> I i s -> exists s', body i s = Ok s' /\ I (S i) s') ->
  exists st', for_range n body st = Ok st' /\ I n st'.
Proof.
  intros H0 Hstep.
  destruct (for_range_from_inv I body n 0 st H0) as (st' & Hr & Hst').
  - intros i s Hi. apply Hstep. lia.
  - exists st'. done.
Qed.

Lemma getitem_Ok {A} (a : list A) (i : nat) (v : A) :
  a !! i = Some v -> getitem a i = Ok v.
Proof. intros H. unfold getitem. by rewrite H. Qed.

Lemma setitem_Ok {A} (a : list A) (i : nat) (v : A) :
  i < length a -> setitem a i v = Ok (<[i:=v]> a).
Proof. intros H. unfold setitem. by rewrite decide_True. Qed.

(** ** inspire_driver.py *)

Module InspireDriverFacts.
Import InspireDriver.

Lemma written_0 d is_left q_cmd : written d is_left q_cmd 0 = cmd_q d.
Proof.
  unfold written. rewrite take_0, Nat.add_0_r. simpl. apply take_drop.
Qed.

Lemma written_S d is_left q_cmd k v :
  length (cmd_q d) = TOTAL_MOTORS -> k < 6 -> q_cmd !! k = Some v ->
  <[start_idx is_left + k := v]> (written d is_left q_cmd k)
  = written d is_left q_cmd (S k).
Proof.
  intros Hlen Hk Hv. unfold written.
  assert (Hs : start_idx is_left <= 6) by (destruct is_left; simpl; lia).
  assert (Hq : k < length q_cmd) by (eapply lookup_lt_Some; done).
  unfold TOTAL_MOTORS in Hlen.
  rewrite insert_app_r_alt by (rewrite length_take; lia).
  rewrite length_take.
  replace (start_idx is_left + k - start_idx is_left `min` length (cmd_q d))
    with k by lia.
  rewrite insert_app_r_alt by (rewrite length_take; lia).
  rewrite length_take. replace (k - k `min` length q_cmd) with 0 by lia.
  rewrite (take_S_r q_cmd k v Hv).
  destruct (lookup_lt_is_Some_2 (cmd_q d) (start_idx is_left + k)) as [x Hx];
    [lia|].
  rewrite (drop_S _ _ _ Hx). simpl. rewrite <- app_assoc. simpl.
  by replace (start_idx is_left + S k) with (S (start_idx is_left + k)) by lia.
Qed.

Lemma with_cmd_q_cmd_q d : with_cmd_q d (cmd_q d) = d.
Proof. by destruct d. Qed.

(** Closed form of [set_hand_cmd]: the call succeeds and the mirror becomes
    [written] at [limit]. *)
Lemma set_hand_cmd_written d is_left q_cmd :
  length (cmd_q d) = TOTAL_MOTORS ->
  set_hand_cmd d is_left q_cmd
  = Ok (with_cmd_q d (written d is_left q_cmd (length q_cmd `min` 6))).
Proof.
  intros Hlen. unfold set_hand_cmd.
  destruct (for_range_inv
    (fun k d' => d' = with_cmd_q d (written d is_left q_cmd k))
    (set_body (if is_left then 6 else 0) q_cmd)
    (length q_cmd `min` 6) d) as (d' & Hr & ->).
  - by rewrite written_0, with_cmd_q_cmd_q.
  - intros i s Hi ->.
    destruct (lookup_lt_is_Some_2 q_cmd i) as [v Hv]; [lia|].
    exists (with_cmd_q d (written d is_left q_cmd (S i))). split; [|done].
    unfold set_body. rewrite (getitem_Ok _ _ _ Hv). simpl.
    rewrite setitem_Ok.
    + simpl. fold (start_idx is_left).
      by rewrite (written_S d is_left q_cmd i v Hlen) by (done || lia).
    + simpl. unfold written. unfold TOTAL_MOTORS in Hlen.
      rewrite !length_app, !length_take, length_drop.
      unfold start_idx. destruct is_left; lia.
  - done.
Qed.

Lemma written_lookup_in d is_left q_cmd k i :
  length (cmd_q d) = TOTAL_MOTORS -> k <= length q_cmd -> i < k ->
  written d is_left q_cmd k !! (start_idx is_left + i) = q_cmd !! i.
Proof.
  intros Hlen Hk Hi. unfold written, TOTAL_MOTORS in *.
  assert (Hs : start_idx is_left <= 6) by (destruct is_left; simpl; lia).
  rewrite lookup_app_r by (rewrite length_take; lia).
  rewrite length_take.
  replace (start_idx is_left + i - start_idx is_left `min` length (cmd_q d))
    with i by lia.
  rewrite lookup_app_l by (rewrite length_take; lia).
  by apply lookup_take_lt.
Qed.

Lemma written_lookup_out d is_left q_cmd k j :
  length (cmd_q d) = TOTAL_MOTORS -> k <= length q_cmd ->
  j < start_idx is_left \/ start_idx is_left + k <= j ->
  written d is_left q_cmd k !! j = cmd_q d !! j.
Proof.
  intros Hlen Hk Hj. unfold written, TOTAL_MOTORS in *.
  assert (Hs : start_idx is_left <= 6) by (destruct is_left; simpl; lia).
  destruct Hj as [Hj|Hj].
  - rewrite lookup_app_l by (rewrite length_take; lia).
    by apply lookup_take_lt.
  - rewrite lookup_app_r by (rewrite length_take; lia).
    rewrite lookup_app_r by (rewrite !length_take; lia).
    rewrite lookup_drop, !length_take. f_equal. lia.
Qed.

(** C6.  [set_hand_cmd] never fails on the driver's 12-slot command mirror;
    it writes exactly the first [min(len(q_cmd), 6)] entries of [q_cmd] into
    the addressed hand's slots, and entries of [q_cmd] from index 6 on are
    ignored: the call has the result of the call on [q_cmd[:6]]. *)
Theorem set_hand_cmd_writes_prefix (d : InspireHandDriver) (is_left : bool)
    (q_cmd : list Q) :
  length (cmd_q d) = TOTAL_MOTORS ->
  exists d',
    set_hand_cmd d is_left q_cmd = Ok d' /\
    length (cmd_q d') = TOTAL_MOTORS /\
    (forall i, i < Nat.min (length q_cmd) 6 ->
       cmd_q d' !! (start_idx is_left + i) = q_cmd !! i) /\
    set_hand_cmd d is_left (take 6 q_cmd) = Ok d'.
Proof.
  intros Hlen. eexists. split; [by apply set_hand_cmd_written|].
  split; [|split].
  - simpl. unfold written, TOTAL_MOTORS in *.
    rewrite !length_app, !length_take, length_drop.
    unfold start_idx. destruct is_left; lia.
  - intros i Hi. simpl. apply written_lookup_in; [done|lia|done].
  - rewrite set_hand_cmd_written by done. do 2 f_equal.
    unfold written. rewrite length_take.
    replace ((6 `min` length q_cmd) `min` 6) with (length q_cmd `min` 6) by lia.
    rewrite take_take.
    by replace ((length q_cmd `min` 6) `min` 6) with (length q_cmd `min` 6)
      by lia.
Qed.

Lemma set_hand_cmd_writes_prefix_witness :
  exists d',
    set_hand_cmd init true [0.5; 0.25; 0; 0; 0; 0; 0.75; 0.125]%Q = Ok d' /\
    length (cmd_q d') = TOTAL_MOTORS /\
    (forall i, i < Nat.min 8 6 ->
       cmd_q d' !! (start_idx true + i)
       = [0.5; 0.25; 0; 0; 0; 0; 0.75; 0.125]%Q !! i) /\
    set_hand_cmd init true (take 6 [0.5; 0.25; 0; 0; 0; 0; 0.75; 0.125]%Q)
    = Ok d'.
Proof.
  apply (set_hand_cmd_writes_prefix init true
           [0.5; 0.25; 0; 0; 0; 0; 0.75; 0.125]%Q).
  reflexivity.
Defined.

(** C9.  [set_hand_cmd(is_left, q_cmd)] leaves unchanged the six command
    slots of the other hand and the addressed hand's slots at indices
    [>= len(q_cmd)]; the state mirror is not touched either. *)
Theorem set_hand_cmd_frame (d : InspireHandDriver) (is_left : bool)
    (q_cmd : list Q) :
  length (cmd_q d) = TOTAL_MOTORS ->
  exists d',
    set_hand_cmd d is_left q_cmd = Ok d' /\
    (forall j, j < 6 ->
       cmd_q d' !! (start_idx (negb is_left) + j)
       = cmd_q d !! (start_idx (negb is_left) + j)) /\
    (forall i, length q_cmd <= i -> i < 6 ->
       cmd_q d' !! (start_idx is_left + i)
       = cmd_q d !! (start_idx is_left + i)) /\
    joint_q d' = joint_q d /\ joint_dq d' = joint_dq d /\
    joint_tau d' = joint_tau d.
Proof.
  intros Hlen. eexists. split; [by apply set_hand_cmd_written|].
  split; [|split; [|done]].
  - intros j Hj. simpl. apply written_lookup_out; [done|lia|].
    unfold start_idx. destruct is_left; simpl; lia.
  - intros i Hi Hi6. simpl. apply written_lookup_out; [done|lia|]. lia.
Qed.

Lemma set_hand_cmd_frame_witness :
  exists d',
    set_hand_cmd init false [0.5; 0.25]%Q = Ok d' /\
    (forall j, j < 6 ->
       cmd_q d' !! (start_idx (negb false) + j)
       = cmd_q init !! (start_idx (negb false) + j)) /\
    (forall i, length [0.5; 0.25]%Q <= i -> i < 6 ->
       cmd_q d' !! (start_idx false + i)
       = cmd_q init !! (start_idx false + i)) /\
    joint_q d' = joint_q init /\ joint_dq d' = joint_dq init /\
    joint_tau d' = joint_tau init.
Proof.
  apply (set_hand_cmd_frame init false [0.5; 0.25]%Q). reflexivity.
Defined.

Lemma ingested_0 proj states old :
  length old = TOTAL_MOTORS -> ingested proj states old old 0.
Proof. intros H. split; [done|]. intros j. by rewrite decide_False by lia. Qed.

Lemma ingested_S proj states old new k s :
  k < TOTAL_MOTORS -> states !! k = Some s -> ingested proj states old new k ->
  ingested proj states old (<[k := proj s]> new) (S k).
Proof.
  intros Hk Hs [Hlen Hnew]. split; [by rewrite length_insert|].
  intros j. destruct (decide (j = k)) as [->|Hne].
  - rewrite list_lookup_insert_eq by lia.
    rewrite decide_True by lia. by rewrite Hs.
  - rewrite list_lookup_insert_ne by done. rewrite Hnew.
    destruct (decide (j < k)); [by rewrite decide_True by lia|].
    by rewrite decide_False by lia.
Qed.

(** Closed form of one turn of the ingestion loop on a frame. *)
Lemma recv_step_ingested d states :
  wf d ->
  exists d',
    recv_step d (Some states) = Ok d' /\
    let count := Nat.min (length states) TOTAL_MOTORS in
    ingested q states (joint_q d) (joint_q d') count /\
    ingested dq states (joint_dq d) (joint_dq d') count /\
    ingested tau_est states (joint_tau d) (joint_tau d') count /\
    cmd_q d' = cmd_q d.
Proof.
  intros (Hq & Hdq & Htau & Hcmd). unfold recv_step.
  apply (for_range_inv (fun k d' =>
    ingested q states (joint_q d) (joint_q d') k /\
    ingested dq states (joint_dq d) (joint_dq d') k /\
    ingested tau_est states (joint_tau d) (joint_tau d') k /\
    cmd_q d' = cmd_q d)).
  - repeat (split; [by apply ingested_0|]). done.
  - intros i s Hi (Iq & Idq & Itau & Ic).
    destruct (lookup_lt_is_Some_2 states i) as [st Hst]; [lia|].
    assert (Lq := proj1 Iq). assert (Ldq := proj1 Idq).
    assert (Ltau := proj1 Itau).
    assert (Hi' : i < TOTAL_MOTORS) by lia.
    unfold recv_body. rewrite (getitem_Ok _ _ _ Hst). simpl.
    rewrite (setitem_Ok (joint_q s)) by lia. simpl.
    rewrite (setitem_Ok (joint_dq s)) by lia. simpl.
    rewrite (setitem_Ok (joint_tau s)) by lia. simpl.
    eexists. split; [done|]. simpl.
    repeat (split; [apply ingested_S; (done || lia)|]). done.
Qed.

Lemma view_values_lookup d b s i :
  i < 6 -> view_values d (mkView b s (s + 6)) !! i = buffer_of d b !! (s + i).
Proof.
  intros Hi. unfold view_values, slice. simpl.
  replace (s + 6 - s) with 6 by lia.
  rewrite lookup_take_lt by done. apply lookup_drop.
Qed.

(** C1, as the code has it.  [get_hand_state] returns basic slices of the
    state arrays, which are views: slot [i] of each returned array is slot
    [start_idx + i] of the mirror when the call is made and still is after
    the ingestion loop has taken in a frame, so it then holds the frame's
    value for that motor (and its former value when the frame is too short
    to reach that motor). *)
Theorem get_hand_state_live_view (d : InspireHandDriver) (is_left : bool)
    (states : list MotorState) :
  wf d ->
  exists d',
    recv_step d (Some states) = Ok d' /\
    forall i, i < 6 ->
      let j := start_idx is_left + i in
      let '(vq, vdq, vtau) := get_hand_state is_left in
      (view_values d vq !! i = joint_q d !! j /\
       view_values d vdq !! i = joint_dq d !! j /\
       view_values d vtau !! i = joint_tau d !! j) /\
      (view_values d' vq !! i = joint_q d' !! j /\
       view_values d' vdq !! i = joint_dq d' !! j /\
       view_values d' vtau !! i = joint_tau d' !! j) /\
      (forall st, states !! j = Some st ->
         view_values d' vq !! i = Some (q st) /\
         view_values d' vdq !! i = Some (dq st) /\
         view_values d' vtau !! i = Some (tau_est st)) /\
      (states !! j = None ->
         view_values d' vq !! i = view_values d vq !! i /\
         view_values d' vdq !! i = view_values d vdq !! i /\
         view_values d' vtau !! i = view_values d vtau !! i).
Proof.
  intros Hwf.
  destruct (recv_step_ingested d states Hwf)
    as (d' & Hr & (_ & Iq) & (_ & Idq) & (_ & Itau) & _).
  exists d'. split; [done|]. intros i Hi j.
  unfold get_hand_state. fold (start_idx is_left).
  rewrite !view_values_lookup by done. fold j. simpl.
  assert (Hj : j < TOTAL_MOTORS)
    by (unfold j, start_idx, TOTAL_MOTORS; destruct is_left; lia).
  split; [done|]. split; [done|]. split.
  - intros st Hst. rewrite Iq, Idq, Itau.
    assert (j < length states) by (eapply lookup_lt_Some; done).
    rewrite !decide_True by lia. by rewrite Hst.
  - intros Hnone. rewrite Iq, Idq, Itau.
    apply lookup_ge_None_1 in Hnone.
    by rewrite !decide_False by lia.
Qed.

Lemma get_hand_state_live_view_witness :
  exists d',
    recv_step init (Some [mkMotorState 0.5 0.25 0.125]%Q) = Ok d' /\
    forall i, i < 6 ->
      let j := start_idx false + i in
      let '(vq, vdq, vtau) := get_hand_state false in
      (view_values init vq !! i = joint_q init !! j /\
       view_values init vdq !! i = joint_dq init !! j /\
       view_values init vtau !! i = joint_tau init !! j) /\
      (view_values d' vq !! i = joint_q d' !! j /\
       view_values d' vdq !! i = joint_dq d' !! j /\
       view_values d' vtau !! i = joint_tau d' !! j) /\
      (forall st, [mkMotorState 0.5 0.25 0.125]%Q !! j = Some st ->
         view_values d' vq !! i = Some (q st) /\
         view_values d' vdq !! i = Some (dq st) /\
         view_values d' vtau !! i = Some (tau_est st)) /\
      ([mkMotorState 0.5 0.25 0.125]%Q !! j = None ->
         view_values d' vq !! i = view_values init vq !! i /\
         view_values d' vdq !! i = view_values init vdq !! i /\
         view_values d' vtau !! i = view_values init vtau !! i).
Proof.
  apply (get_hand_state_live_view init false
           [mkMotorState 0.5 0.25 0.125]%Q).
  repeat split; reflexivity.
Defined.

(** C1, as the claim states it, fails: the right hand's arrays are fetched
    from the fresh driver, then the ingestion loop takes in one frame for
    motor 0; the arrays fetched earlier now read the frame's values. *)
Lemma get_hand_state_snapshot_counterexample :
  let '(vq, vdq, vtau) := get_hand_state false in
  exists d',
    recv_step init (Some [mkMotorState 0.5 0.25 0.125]%Q) = Ok d' /\
    view_values init vq = [0; 0; 0; 0; 0; 0]%Q /\
    view_values d' vq = [0.5; 0; 0; 0; 0; 0]%Q /\
    view_values d' vq <> view_values init vq /\
    view_values d' vdq <> view_values init vdq /\
    view_values d' vtau <> view_values init vtau.
Proof.
  simpl. eexists. split; [reflexivity|].
  repeat split; try reflexivity; discriminate.
Qed.

End InspireDriverFacts.

(** ** g1_gripper_ik_solver.py *)

Module GripperSolverFacts.
Import GripperSolver.

Lemma np_clip_bounds (x : Q) : (0 <= np_clip x 0 1 <= 1)%Q.
Proof.
  unfold np_clip. split.
  - apply Q.min_glb; [apply Q.le_max_r | discriminate].
  - apply Q.le_min_r.
Qed.

Lemma np_clip_mono (x y lo hi : Q) :
  (x <= y)%Q -> (np_clip x lo hi <= np_clip y lo hi)%Q.
Proof.
  intros H. unfold np_clip.
  apply Q.min_le_compat_r, Q.max_le_compat_r, H.
Qed.

(** The curl grows with the distance as soon as the open threshold is above
    the close threshold. *)
Lemma curl_of_dist_mono (self : G1GripperInverseKinematicsSolver)
    (is_thumb : bool) (d1 d2 : Q) :
  (threshold (close_thresholds self) is_thumb
   < threshold (open_thresholds self) is_thumb)%Q ->
  (d1 <= d2)%Q ->
  (curl_of_dist self is_thumb d1 <= curl_of_dist self is_thumb d2)%Q.
Proof.
  intros Hth Hd. unfold curl_of_dist. apply np_clip_mono.
  apply Qmult_le_compat_r; [|discriminate].
  unfold Qdiv. apply Qmult_le_compat_r; [lra|].
  apply Qlt_le_weak, Qinv_lt_0_compat. lra.
Qed.

Lemma init_thresholds (side : string) (is_thumb : bool) :
  (threshold (close_thresholds (__init__ side)) is_thumb
   < threshold (open_thresholds (__init__ side)) is_thumb)%Q.
Proof. destruct is_thumb; reflexivity. Qed.

(** C4.  For the solver as constructed, the curl of a digit is monotone in
    the fingertip-to-wrist distance [get_curl] computes: of two hand poses,
    the one with the larger distance gets the larger (or equal) curl. *)
Theorem get_curl_monotone (linalg_norm : vector -> Q) (side : string)
    (is_thumb : bool)
    (positions1 positions2 : list vector) (wrist1 wrist2 : vector)
    (tip_idx : nat) (d1 d2 : Q) :
  tip_dist linalg_norm positions1 wrist1 tip_idx = Ok d1 ->
  tip_dist linalg_norm positions2 wrist2 tip_idx = Ok d2 ->
  (d1 <= d2)%Q ->
  exists c1 c2,
    get_curl linalg_norm (__init__ side) positions1 wrist1 tip_idx is_thumb
    = Ok c1 /\
    get_curl linalg_norm (__init__ side) positions2 wrist2 tip_idx is_thumb
    = Ok c2 /\
    c1 = curl_of_dist (__init__ side) is_thumb d1 /\
    c2 = curl_of_dist (__init__ side) is_thumb d2 /\
    (c1 <= c2)%Q.
Proof.
  intros H1 H2 Hd. unfold get_curl. rewrite H1, H2. simpl.
  do 2 eexists. repeat (split; [reflexivity|]).
  apply curl_of_dist_mono; [apply init_thresholds | exact Hd].
Qed.

Lemma get_curl_monotone_witness :
  let positions1 := [[0; 0; 0]; [0.03; 0.04; 0]]%Q in
  let positions2 := [[0; 0; 0]; [0.06; 0.08; 0]]%Q in
  exists c1 c2,
    get_curl floor_norm (__init__ "left") positions1 [0; 0; 0]%Q 1 false
    = Ok c1 /\
    get_curl floor_norm (__init__ "left") positions2 [0; 0; 0]%Q 1 false
    = Ok c2 /\
    c1 = curl_of_dist (__init__ "left") false (1 # 20) /\
    c2 = curl_of_dist (__init__ "left") false (1 # 10) /\
    (c1 <= c2)%Q.
Proof.
  apply (get_curl_monotone floor_norm "left" false
           [[0; 0; 0]; [0.03; 0.04; 0]]%Q [[0; 0; 0]; [0.06; 0.08; 0]]%Q
           [0; 0; 0]%Q [0; 0; 0]%Q 1 (1 # 20) (1 # 10)).
  - reflexivity.
  - reflexivity.
  - discriminate.
Defined.

Example curl_closed : curl_of_dist (__init__ "left") false (1 # 20) = 0%Q.
Proof. reflexivity. Qed.

Example curl_open : curl_of_dist (__init__ "left") false (1 # 10) = 1%Q.
Proof. reflexivity. Qed.

Example curl_midway :
  (curl_of_dist (__init__ "left") false 0.08 == 0.55)%Q.
Proof. reflexivity. Qed.

Lemma mapM_Ok {A B} (f : A -> result B) (l : list A) :
  Forall (fun x => exists y, f x = Ok y) l ->
  exists k, mapM f l = Ok k /\ length k = length l.
Proof.
  induction 1 as [|x l [y Hy] _ (k & Hk & Hlen)].
  - by exists [].
  - exists (y :: k). simpl. rewrite Hy. simpl. rewrite Hk. simpl.
    by rewrite Hlen.
Qed.

Lemma translation_Ok (finger : matrix) :
  Forall (fun row => length row = 4) finger ->
  exists v, translation finger = Ok v.
Proof.
  intros Hrows. unfold translation.
  destruct (mapM_Ok (fun row : list Q => getitem row 3) (take 3 finger))
    as (v & Hv & _); [|by exists v].
  apply Forall_take. eapply Forall_impl; [exact Hrows|].
  intros row Hrow. simpl in Hrow.
  destruct (lookup_lt_is_Some_2 row 3) as [x Hx]; [lia|].
  exists x. by apply getitem_Ok.
Qed.

Lemma positions_Ok (t : tensor) :
  has_shape 25 4 4 t ->
  exists positions,
    mapM translation t = Ok positions /\ length positions = 25.
Proof.
  intros [Hlen Hall].
  destruct (mapM_Ok translation t) as (k & Hk & Hk').
  - eapply Forall_impl; [exact Hall|]. intros m [_ Hrows].
    by apply translation_Ok.
  - exists k. split; [done|lia].
Qed.

(** What [__call__] returns on a well-shaped tensor: the open command, or
    the five clipped curls followed by the two fixed channels. *)
Lemma call_cases (linalg_norm : vector -> Q) (side : string)
    (finger_data : gmap string tensor) (t : tensor) :
  finger_data !! "position" = Some t ->
  has_shape 25 4 4 t ->
  let self := __init__ side in
  (allclose3 t 0 = true /\
   __call__ linalg_norm self finger_data = Ok [1; 1; 1; 1; 1; 1; 0]%Q) \/
  (allclose3 t 0 = false /\
   exists d0 d1 d2 d3 d4,
     __call__ linalg_norm self finger_data
     = Ok [curl_of_dist self false d4; curl_of_dist self false d3;
           curl_of_dist self false d2; curl_of_dist self false d1;
           curl_of_dist self true d0; 1%Q; 0%Q]).
Proof.
  intros Hfd Hshape self. unfold __call__. rewrite Hfd. simpl.
  destruct (allclose3 t 0) eqn:Hz; [by left|right]. split; [done|].
  destruct (positions_Ok t Hshape) as (positions & Hpos & Hlen).
  rewrite Hpos. simpl.
  destruct (lookup_lt_is_Some_2 positions 0) as [w Hw]; [lia|].
  destruct (lookup_lt_is_Some_2 positions 4) as [p4 H4]; [lia|].
  destruct (lookup_lt_is_Some_2 positions 9) as [p9 H9]; [lia|].
  destruct (lookup_lt_is_Some_2 positions 14) as [p14 H14]; [lia|].
  destruct (lookup_lt_is_Some_2 positions 19) as [p19 H19]; [lia|].
  destruct (lookup_lt_is_Some_2 positions 24) as [p24 H24]; [lia|].
  rewrite (getitem_Ok _ _ _ Hw). simpl.
  unfold get_curl, tip_dist.
  rewrite (getitem_Ok _ _ _ H4), (getitem_Ok _ _ _ H9),
    (getitem_Ok _ _ _ H14), (getitem_Ok _ _ _ H19), (getitem_Ok _ _ _ H24).
  simpl. by do 5 eexists.
Qed.

Lemma stretched_hand_shape : has_shape 25 4 4 stretched_hand.
Proof. split; [reflexivity|]. repeat constructor. Qed.

(** C2.  On a fingertip tensor that is numerically all-zero
    ([np.allclose(fingertips, 0)]) the solver returns at once the command
    whose first five channels are 1.0, whatever the solver's thresholds and
    tip indices are. *)
Theorem call_all_zero_opens (linalg_norm : vector -> Q)
    (self : G1GripperInverseKinematicsSolver)
    (finger_data : gmap string tensor) (t : tensor) :
  finger_data !! "position" = Some t ->
  allclose3 t 0 = true ->
  exists q_desired,
    __call__ linalg_norm self finger_data = Ok q_desired /\
    take 5 q_desired = [1; 1; 1; 1; 1]%Q.
Proof.
  intros Hfd Hz. unfold __call__. rewrite Hfd. simpl. rewrite Hz.
  eexists. split; reflexivity.
Qed.

Lemma call_all_zero_opens_witness :
  exists q_desired,
    __call__ floor_norm (mkSolver "L" [] (mkThresholds 0 0) (mkThresholds 7 7))
      {["position" := np_zeros3 25 4 4]} = Ok q_desired /\
    take 5 q_desired = [1; 1; 1; 1; 1]%Q.
Proof.
  apply (call_all_zero_opens floor_norm _ _ (np_zeros3 25 4 4));
    reflexivity.
Defined.

(** C10.  On every fingertip tensor, all-zero or not, channel 5 (thumb
    rotation) of the solver's command is 1.0 and channel 6 is 0.0. *)
Theorem call_fixed_channels (linalg_norm : vector -> Q)
    (side : string) (finger_data : gmap string tensor) (t : tensor) :
  finger_data !! "position" = Some t ->
  has_shape 25 4 4 t ->
  exists q_desired,
    __call__ linalg_norm (__init__ side) finger_data = Ok q_desired /\
    q_desired !! 5 = Some 1%Q /\
    q_desired !! 6 = Some 0%Q.
Proof.
  intros Hfd Hshape.
  destruct (call_cases linalg_norm side finger_data t Hfd Hshape)
    as [[_ Hq] | [_ (d0 & d1 & d2 & d3 & d4 & Hq)]];
    rewrite Hq; eexists; repeat split; reflexivity.
Qed.

Lemma call_fixed_channels_witness :
  exists q_desired,
    __call__ floor_norm (__init__ "Left") {["position" := stretched_hand]}
    = Ok q_desired /\
    q_desired !! 5 = Some 1%Q /\
    q_desired !! 6 = Some 0%Q.
Proof.
  apply (call_fixed_channels floor_norm "Left" _ stretched_hand).
  - reflexivity.
  - exact stretched_hand_shape.
Defined.

Example call_stretched_hand :
  __call__ floor_norm (__init__ "Left") {["position" := stretched_hand]}
  = Ok [1; 1; 1; 1; 1; 1; 0]%Q.
Proof. vm_compute. reflexivity. Qed.

Example init_side_left : side (__init__ "Left") = "L".
Proof. reflexivity. Qed.

Example init_side_other : side (__init__ "rechts") = "R".
Proof. reflexivity. Qed.

End GripperSolverFacts.

(** ** float64: where NaN can and cannot come from *)

Module F64Facts.
Import Floats F64.

Lemma Prim2SF_nan (x : float) : Prim2SF x = S754_nan <-> is_nan x = true.
Proof.
  unfold Prim2SF. destruct (is_nan x); [tauto|].
  destruct (is_zero x); [split; discriminate|].
  destruct (is_infinity x); [split; discriminate|].
  destruct (Z.frexp x) as [r e].
  destruct (shr_fexp _ _ _ _ _) as [s e'].
  destruct (shr_m s); split; discriminate.
Qed.

Lemma isnan_false (x : float) : Prim2SF x <> S754_nan -> isnan x = false.
Proof.
  intros H. unfold isnan. destruct (is_nan x) eqn:E; [|done].
  by apply Prim2SF_nan in E.
Qed.

Lemma isnan_false_inv (x : float) : isnan x = false -> Prim2SF x <> S754_nan.
Proof. unfold isnan. intros H E. apply Prim2SF_nan in E. congruence. Qed.

Lemma isnan_true (x : float) : Prim2SF x = S754_nan -> isnan x = true.
Proof. apply Prim2SF_nan. Qed.

Lemma isnan_true_inv (x : float) : isnan x = true -> Prim2SF x = S754_nan.
Proof. apply Prim2SF_nan. Qed.

(** Rounding a non-negative mantissa never produces NaN. *)
Lemma shr_1_nonneg mrs : (0 <= shr_m mrs)%Z -> (0 <= shr_m (shr_1 mrs))%Z.
Proof.
  destruct mrs as [m r s]. simpl.
  destruct m as [|[p|p|]|[p|p|]]; simpl; lia.
Qed.

Lemma iter_pos_nonneg p mrs :
  (0 <= shr_m mrs)%Z -> (0 <= shr_m (iter_pos shr_1 p mrs))%Z.
Proof.
  revert mrs. induction p as [p IH|p IH|]; intros mrs H; simpl.
  - apply IH, IH, shr_1_nonneg, H.
  - apply IH, IH, H.
  - apply shr_1_nonneg, H.
Qed.

Lemma shr_fexp_nonneg m e l :
  (0 <= m)%Z -> (0 <= shr_m (fst (shr_fexp prec emax m e l)))%Z.
Proof.
  intros H. unfold shr_fexp, shr.
  assert (H0 : (0 <= shr_m (shr_record_of_loc m l))%Z)
    by (destruct l as [|[]]; exact H).
  destruct (_ - e)%Z; simpl; try exact H0. apply iter_pos_nonneg, H0.
Qed.

Lemma round_nearest_even_nonneg m l :
  (0 <= m)%Z -> (0 <= round_nearest_even m l)%Z.
Proof.
  intros H. destruct l as [|[]]; simpl; try lia. destruct (Z.even m); lia.
Qed.

Lemma binary_round_aux_not_nan sx mx ex lx :
  (0 <= mx)%Z -> binary_round_aux prec emax sx mx ex lx <> S754_nan.
Proof.
  intros H. unfold binary_round_aux.
  pose proof (shr_fexp_nonneg mx ex lx H) as H1.
  destruct (shr_fexp prec emax mx ex lx) as [mrs' e']. simpl in H1.
  pose proof (shr_fexp_nonneg _ e' loc_Exact
                (round_nearest_even_nonneg _ (loc_of_shr_record mrs') H1))
    as H2.
  destruct (shr_fexp prec emax _ e' loc_Exact) as [mrs'' e'']. simpl in H2.
  destruct (shr_m mrs''); try discriminate; [|lia].
  destruct (_ <=? _)%Z; discriminate.
Qed.

Lemma binary_round_not_nan sx mx ex :
  binary_round prec emax sx mx ex <> S754_nan.
Proof.
  unfold binary_round. destruct (shl_align _ _ _) as [mz ez].
  apply binary_round_aux_not_nan. lia.
Qed.

Lemma binary_normalize_not_nan m e sz :
  binary_normalize prec emax m e sz <> S754_nan.
Proof. destruct m; simpl; [discriminate | apply binary_round_not_nan ..]. Qed.

Lemma SFsub_finite_not_nan x s m e :
  x <> S754_nan -> SF64sub x (S754_finite s m e) <> S754_nan.
Proof.
  intros Hx. unfold SF64sub, SFsub.
  destruct x as [sx|sx| |sx mx ex]; try discriminate; [congruence|].
  apply binary_normalize_not_nan.
Qed.

Lemma SFmul_finite_not_nan x s m e :
  x <> S754_nan -> SF64mul x (S754_finite s m e) <> S754_nan.
Proof.
  intros Hx. unfold SF64mul, SFmul.
  destruct x as [sx|sx| |sx mx ex]; try discriminate; [congruence|].
  apply binary_round_aux_not_nan. lia.
Qed.

Lemma SFdiv_finite_not_nan x s m e :
  x <> S754_nan -> SF64div x (S754_finite s m e) <> S754_nan.
Proof.
  intros Hx. unfold SF64div, SFdiv.
  destruct x as [sx|sx| |sx mx ex]; try discriminate; [congruence|].
  destruct (SFdiv_core_binary _ _ _ _ _ _) as [[mz ez] lz] eqn:Hc.
  apply binary_round_aux_not_nan. unfold SFdiv_core_binary in Hc.
  set (s' := (ex - e - _)%Z) in Hc.
  set (m' := match s' with
             | Zpos _ => Z.shiftl (Zpos mx) s'
             | Z0 => Zpos mx
             | Zneg _ => 0%Z
             end) in Hc.
  assert (Hm : (0 <= m')%Z).
  { unfold m'. destruct s'; try lia. apply Z.shiftl_nonneg. lia. }
  pose proof (Z_div_mod m' (Zpos m) eq_refl) as Hdm.
  destruct (Z.div_eucl m' (Zpos m)) as [q r]. injection Hc as <- _ _.
  destruct Hdm as [Heq Hr]. nia.
Qed.

Lemma sub_not_nan (x c : float) :
  finite_nonzero c -> isnan x = false -> isnan (x - c) = false.
Proof.
  intros (s & m & e & Hc) Hx. apply isnan_false. rewrite sub_spec, Hc.
  apply SFsub_finite_not_nan, isnan_false_inv, Hx.
Qed.

Lemma mul_not_nan (x c : float) :
  finite_nonzero c -> isnan x = false -> isnan (x * c) = false.
Proof.
  intros (s & m & e & Hc) Hx. apply isnan_false. rewrite mul_spec, Hc.
  apply SFmul_finite_not_nan, isnan_false_inv, Hx.
Qed.

Lemma div_not_nan (x c : float) :
  finite_nonzero c -> isnan x = false -> isnan (x / c) = false.
Proof.
  intros (s & m & e & Hc) Hx. apply isnan_false. rewrite div_spec, Hc.
  apply SFdiv_finite_not_nan, isnan_false_inv, Hx.
Qed.

(** NaN is passed on by the arithmetic. *)
Lemma sub_nan (x c : float) : isnan x = true -> isnan (x - c) = true.
Proof.
  intros Hx. apply isnan_true. rewrite sub_spec, (isnan_true_inv x Hx).
  reflexivity.
Qed.

Lemma mul_nan (x c : float) : isnan x = true -> isnan (x * c) = true.
Proof.
  intros Hx. apply isnan_true. rewrite mul_spec, (isnan_true_inv x Hx).
  reflexivity.
Qed.

Lemma div_nan (x c : float) : isnan x = true -> isnan (x / c) = true.
Proof.
  intros Hx. apply isnan_true. rewrite div_spec, (isnan_true_inv x Hx).
  reflexivity.
Qed.

Lemma ltb_leb (x y : float) : (x <? y)%float = true -> (x <=? y)%float = true.
Proof.
  rewrite ltb_spec, leb_spec. unfold SFltb, SFleb.
  destruct (SFcompare _ _) as [[]|]; congruence.
Qed.

Lemma nan_not_in_unit_interval (x : float) :
  isnan x = true -> in_unit_interval x = false.
Proof.
  intros Hx. unfold in_unit_interval.
  rewrite (leb_spec 0 x), (isnan_true_inv x Hx). reflexivity.
Qed.

(** [np.clip(x, 0, 1)] is NaN on NaN, and a number of [0, 1] otherwise. *)
Lemma np_clip_nan (x lo hi : float) :
  isnan x = true -> np_clip x lo hi = x.
Proof.
  intros Hx. unfold np_clip, clip_min, clip_max. by rewrite Hx, Hx.
Qed.

Lemma clip_in_unit_interval (x : float) :
  isnan x = false -> in_unit_interval (np_clip x 0 1) = true.
Proof.
  intros Hx. unfold np_clip, clip_max. rewrite Hx.
  destruct (0 <? x)%float eqn:E0; unfold clip_min.
  - rewrite Hx. destruct (x <? 1)%float eqn:E1; [|reflexivity].
    unfold in_unit_interval. by rewrite (ltb_leb _ _ E0), (ltb_leb _ _ E1).
  - reflexivity.
Qed.

End F64Facts.

(** ** g1_gripper_ik_solver.py on float64 *)

Module FloatSolverFacts.
Import Floats F64 F64Facts FloatSolver.

Lemma init_thresholds_finite (side : string) (is_thumb : bool) :
  let self := __init__ side in
  finite_nonzero (threshold (close_thresholds self) is_thumb) /\
  finite_nonzero (threshold (open_thresholds self) is_thumb
                  - threshold (close_thresholds self) is_thumb).
Proof.
  destruct is_thumb; split; do 3 eexists; vm_compute; reflexivity.
Qed.

Lemma gain_finite : finite_nonzero 1.1.
Proof. do 3 eexists. vm_compute. reflexivity. Qed.

(** The curl of a distance that is a number lies in [0, 1]; the curl of NaN
    is NaN. *)
Lemma curl_of_dist_bounds (side : string) (is_thumb : bool) (dist : float) :
  isnan dist = false ->
  in_unit_interval (curl_of_dist (__init__ side) is_thumb dist) = true.
Proof.
  intros Hd. unfold curl_of_dist. cbv zeta.
  destruct (init_thresholds_finite side is_thumb) as [Hc Hoc].
  apply clip_in_unit_interval, mul_not_nan; [apply gain_finite|].
  apply div_not_nan; [exact Hoc|]. by apply sub_not_nan.
Qed.

Lemma curl_of_dist_nan (self : G1GripperInverseKinematicsSolver)
    (is_thumb : bool) (dist : float) :
  isnan dist = true -> isnan (curl_of_dist self is_thumb dist) = true.
Proof.
  intros Hd. unfold curl_of_dist. cbv zeta.
  assert (H : isnan ((dist - threshold (close_thresholds self) is_thumb)
                     / (threshold (open_thresholds self) is_thumb
                        - threshold (close_thresholds self) is_thumb)
                     * 1.1) = true)
    by (by apply mul_nan, div_nan, sub_nan).
  by rewrite (np_clip_nan _ _ _ H).
Qed.

Lemma translation_Ok_f64 (finger : fmatrix) :
  Forall (fun row => length row = 4) finger ->
  exists v, translation finger = Ok v.
Proof.
  intros Hrows. unfold translation.
  destruct (GripperSolverFacts.mapM_Ok
              (fun row : list float => getitem row 3) (take 3 finger))
    as (v & Hv & _); [|by exists v].
  apply Forall_take. eapply Forall_impl; [exact Hrows|].
  intros row Hrow. simpl in Hrow.
  destruct (lookup_lt_is_Some_2 row 3) as [x Hx]; [lia|].
  exists x. by apply getitem_Ok.
Qed.

Lemma mapM_Ok_lookup {A B} (f : A -> result B) (l : list A) (k : list B)
    (i : nat) (y : B) :
  mapM f l = Ok k -> k !! i = Some y ->
  exists x, l !! i = Some x /\ f x = Ok y.
Proof.
  revert k i. induction l as [|x l IH]; intros k i; simpl.
  - intros [= <-]. done.
  - destruct (f x) as [y'|e] eqn:Hy; simpl; [|done].
    destruct (mapM f l) as [k'|e] eqn:Hk; simpl; [|done].
    intros [= <-]. destruct i as [|i]; simpl.
    + intros [= <-]. by exists x.
    + intros Hi. by apply (IH k').
Qed.

Lemma positions_Ok_f64 (t : ftensor) :
  has_shape 25 4 4 t ->
  exists positions,
    mapM translation t = Ok positions /\ length positions = 25 /\
    forall k v, positions !! k = Some v -> pose_position t k = Some v.
Proof.
  intros [Hlen Hall].
  destruct (GripperSolverFacts.mapM_Ok translation t) as (k & Hk & Hk').
  - eapply Forall_impl; [exact Hall|]. intros m [_ Hrows].
    by apply translation_Ok_f64.
  - exists k. split; [done|]. split; [lia|].
    intros i v Hi. destruct (mapM_Ok_lookup _ _ _ _ _ Hk Hi) as (m & Hm & Hv).
    unfold pose_position.
    pose proof (Hm : @lookup _ _ ftensor _ i t = Some m) as Hm'.
    by rewrite Hm', Hv.
Qed.

(** What [__call__] returns on a well-shaped tensor: the open command, or
    the five clipped curls followed by the two fixed channels. *)
Lemma call_cases_f64 (linalg_norm : fvector -> float) (side : string)
    (finger_data : gmap string ftensor) (t : ftensor) :
  finger_data !! "position" = Some t ->
  has_shape 25 4 4 t ->
  let self := __init__ side in
  (allclose3 t 0 = true /\
   __call__ linalg_norm self finger_data = Ok [1; 1; 1; 1; 1; 1; 0]%float) \/
  (allclose3 t 0 = false /\
   exists wrist p4 p9 p14 p19 p24,
     pose_position t 0 = Some wrist /\
     pose_position t 4 = Some p4 /\ pose_position t 9 = Some p9 /\
     pose_position t 14 = Some p14 /\ pose_position t 19 = Some p19 /\
     pose_position t 24 = Some p24 /\
     __call__ linalg_norm self finger_data
     = Ok [curl_of_dist self false (linalg_norm (vsub p24 wrist));
           curl_of_dist self false (linalg_norm (vsub p19 wrist));
           curl_of_dist self false (linalg_norm (vsub p14 wrist));
           curl_of_dist self false (linalg_norm (vsub p9 wrist));
           curl_of_dist self true (linalg_norm (vsub p4 wrist));
           1%float; 0%float]).
Proof.
  intros Hfd Hshape self. unfold __call__. rewrite Hfd. simpl.
  destruct (allclose3 t 0) eqn:Hz; [by left|right]. split; [done|].
  destruct (positions_Ok_f64 t Hshape) as (positions & Hpos & Hlen & Hpp).
  rewrite Hpos. simpl.
  destruct (lookup_lt_is_Some_2 positions 0) as [w Hw]; [lia|].
  destruct (lookup_lt_is_Some_2 positions 4) as [p4 H4]; [lia|].
  destruct (lookup_lt_is_Some_2 positions 9) as [p9 H9]; [lia|].
  destruct (lookup_lt_is_Some_2 positions 14) as [p14 H14]; [lia|].
  destruct (lookup_lt_is_Some_2 positions 19) as [p19 H19]; [lia|].
  destruct (lookup_lt_is_Some_2 positions 24) as [p24 H24]; [lia|].
  exists w, p4, p9, p14, p19, p24.
  repeat (split; [by apply Hpp|]).
  rewrite (getitem_Ok _ _ _ Hw). simpl.
  unfold get_curl, tip_dist.
  rewrite (getitem_Ok _ _ _ H4), (getitem_Ok _ _ _ H9),
    (getitem_Ok _ _ _ H14), (getitem_Ok _ _ _ H19), (getitem_Ok _ _ _ H24).
  reflexivity.
Qed.

Lemma stretched_hand_shape_f64 : has_shape 25 4 4 stretched_hand.
Proof. split; [reflexivity|]. repeat constructor. Qed.

Lemma nan_wrist_hand_shape : has_shape 25 4 4 nan_wrist_hand.
Proof. split; [reflexivity|]. repeat constructor. Qed.

(** C3, amended.  On a fingertip tensor (25 poses of 4x4) whose
    fingertip-to-wrist distances, as the call computes them, are not NaN,
    the solver returns a command of 7 channels, each a float64 number of the
    closed interval [0, 1]. *)
Theorem call_channels_in_unit_interval (linalg_norm : fvector -> float)
    (side : string) (finger_data : gmap string ftensor) (t : ftensor) :
  finger_data !! "position" = Some t ->
  has_shape 25 4 4 t ->
  distances_are_numbers linalg_norm (__init__ side) t ->
  exists q_desired,
    __call__ linalg_norm (__init__ side) finger_data = Ok q_desired /\
    length q_desired = 7 /\
    Forall (fun x => in_unit_interval x = true) q_desired.
Proof.
  intros Hfd Hshape Hnum.
  destruct (call_cases_f64 linalg_norm side finger_data t Hfd Hshape)
    as [[_ Hq] | [_ (w & p4 & p9 & p14 & p19 & p24 & Hw & H4 & H9 & H14
                       & H19 & H24 & Hq)]];
    rewrite Hq; eexists; (split; [reflexivity|]); (split; [reflexivity|]).
  - repeat constructor.
  - assert (Hin : forall k, k ∈ tip_indices (__init__ side) ->
                    forall tip, pose_position t k = Some tip ->
                    isnan (linalg_norm (vsub tip w)) = false)
      by (intros k Hk tip Htip; by apply (Hnum k w tip)).
    repeat (constructor;
            [first [ apply curl_of_dist_bounds; eapply Hin; [|eassumption];
                     simpl; set_solver
                   | reflexivity ]|]).
    constructor.
Qed.

Lemma call_channels_in_unit_interval_witness :
  exists q_desired,
    __call__ euclid_norm (__init__ "right") {["position" := stretched_hand]}
    = Ok q_desired /\
    length q_desired = 7 /\
    Forall (fun x => in_unit_interval x = true) q_desired.
Proof.
  apply (call_channels_in_unit_interval euclid_norm "right" _ stretched_hand).
  - reflexivity.
  - exact stretched_hand_shape_f64.
  - intros k wrist tip Hk Hw Htip.
    assert (Hwrist : wrist = [0; 0; 0]%float) by (vm_compute in Hw; congruence).
    subst wrist. simpl in Hk.
    repeat (apply elem_of_cons in Hk as [-> | Hk];
            [vm_compute in Htip; injection Htip as <-; vm_compute; reflexivity|]).
    by apply elem_of_nil in Hk.
Defined.

(** A NaN distance is not caught anywhere: on a tensor that is not all-zero
    and whose pinky-to-wrist distance is NaN, channel 0 of the command is
    NaN, whatever [np.linalg.norm] does elsewhere. *)
Lemma call_nan_distance (linalg_norm : fvector -> float) (side : string)
    (finger_data : gmap string ftensor) (t : ftensor) :
  finger_data !! "position" = Some t ->
  has_shape 25 4 4 t ->
  allclose3 t 0 = false ->
  (forall wrist tip,
     pose_position t 0 = Some wrist -> pose_position t 24 = Some tip ->
     isnan (linalg_norm (vsub tip wrist)) = true) ->
  exists q_desired c,
    __call__ linalg_norm (__init__ side) finger_data = Ok q_desired /\
    q_desired !! 0 = Some c /\
    isnan c = true /\ in_unit_interval c = false.
Proof.
  intros Hfd Hshape Hz Hnan.
  destruct (call_cases_f64 linalg_norm side finger_data t Hfd Hshape)
    as [[Hz' _] | [_ (w & p4 & p9 & p14 & p19 & p24 & Hw & H4 & H9 & H14
                        & H19 & H24 & Hq)]]; [congruence|].
  rewrite Hq. do 2 eexists. split; [reflexivity|]. split; [reflexivity|].
  assert (Hc : isnan (curl_of_dist (__init__ side) false
                        (linalg_norm (vsub p24 w))) = true)
    by (apply curl_of_dist_nan; by apply Hnan).
  split; [exact Hc|]. by apply nan_not_in_unit_interval.
Qed.

(** C3, as the claim states it, fails on float64: with the wrist's x lost
    to NaN every distance is NaN, [np.clip] passes NaN on, and the five
    finger channels of the command are NaN, which is in no interval. *)
Lemma call_nan_channel_counterexample :
  has_shape 25 4 4 nan_wrist_hand /\
  exists q_desired,
    __call__ euclid_norm (__init__ "left") {["position" := nan_wrist_hand]}
    = Ok q_desired /\
    isnan <$> q_desired = [true; true; true; true; true; false; false] /\
    in_unit_interval <$> q_desired
    = [false; false; false; false; false; true; true].
Proof.
  split; [exact nan_wrist_hand_shape|].
  eexists. split; [vm_compute; reflexivity|]. split; vm_compute; reflexivity.
Qed.

End FloatSolverFacts.

(** ** pico_hand_tracking_client_streamer.py *)

Module PicoClientFacts.
Import PicoClient.

Section Facts.

Variable pickle_loads : list Byte.byte -> result server_reply.
Variable quat_as_matrix : vector -> result matrix.
Variable matrix_as_euler_xyz : matrix -> result vector.
Variable euler_z_as_matrix : Q -> matrix.

(** When the exchange fails, [_request_data] swallows the exception and
    answers [None]. *)
Lemma request_data_failure (self : PicoHandTrackingClientStreamer)
    (net : exchange) :
  is_Some (socket self) ->
  exchange_fails pickle_loads net ->
  _request_data pickle_loads self net = Ok None.
Proof.
  intros [sock Hsock] Hfail. unfold _request_data. rewrite Hsock.
  destruct Hfail as [e Hs | e Hs Hr | message e Hs Hr Hl].
  - rewrite Hs. simpl. by destruct e.
  - rewrite Hs, Hr. simpl. by destruct e.
  - rewrite Hs, Hr. simpl. rewrite Hl. simpl. by destruct e.
Qed.

(** An error payload from the server is answered the same way. *)
Lemma request_data_error_payload (self : PicoHandTrackingClientStreamer)
    (net : exchange) (message : list Byte.byte) (data : server_reply) :
  is_Some (socket self) ->
  send_result net = Ok tt -> recv_result net = Ok message ->
  pickle_loads message = Ok data -> is_Some (error data) ->
  _request_data pickle_loads self net = Ok None.
Proof.
  intros [sock Hsock] Hs Hr Hl [msg He]. unfold _request_data.
  rewrite Hsock, Hs, Hr. simpl. rewrite Hl. simpl. by rewrite He.
Qed.

(** Before [start_streaming] the request raises, and so does [get]. *)
Lemma get_not_started (self : PicoHandTrackingClientStreamer)
    (net : exchange) :
  socket self = None ->
  get pickle_loads quat_as_matrix matrix_as_euler_xyz euler_z_as_matrix
    self net = Raise RuntimeError.
Proof. intros H. unfold get, _request_data. by rewrite H. Qed.

End Facts.

(** C5.  Whenever the request/response exchange fails -- the send raises,
    the receive times out or raises, or the reply does not unpickle --
    [get()] on a started client does not raise and returns a result whose
    left-hand and right-hand fingertip tensors are both the all-zero
    25 x 4 x 4 tensor. *)
Theorem get_on_failure_returns_zeros
    (pickle_loads : list Byte.byte -> result server_reply)
    (quat_as_matrix : vector -> result matrix)
    (matrix_as_euler_xyz : matrix -> result vector)
    (euler_z_as_matrix : Q -> matrix)
    (self : PicoHandTrackingClientStreamer) (net : exchange) :
  is_Some (socket self) ->
  exchange_fails pickle_loads net ->
  exists out,
    get pickle_loads quat_as_matrix matrix_as_euler_xyz euler_z_as_matrix
      self net = Ok out /\
    ik_data out !! "left_fingers" = Some {["position" := np_zeros3 25 4 4]} /\
    ik_data out !! "right_fingers" = Some {["position" := np_zeros3 25 4 4]}.
Proof.
  intros Hsock Hfail. unfold get.
  rewrite (request_data_failure pickle_loads self net Hsock Hfail). simpl.
  eexists. split; [reflexivity|]. split.
  - unfold fingers_output. simpl. by rewrite lookup_insert_eq.
  - unfold fingers_output. simpl.
    rewrite lookup_insert_ne by done. by rewrite lookup_singleton_eq.
Qed.

Lemma get_on_failure_returns_zeros_witness :
  let self := start_streaming (new "localhost" 5557) in
  let net := mkExchange (Ok tt) (Raise ZmqAgain) in
  exists out,
    get (fun _ => Raise UnpicklingError) (fun _ => Raise ValueError)
      (fun _ => Raise ValueError) (fun _ => []) self net = Ok out /\
    ik_data out !! "left_fingers" = Some {["position" := np_zeros3 25 4 4]} /\
    ik_data out !! "right_fingers" = Some {["position" := np_zeros3 25 4 4]}.
Proof.
  apply (get_on_failure_returns_zeros
           (fun _ => Raise UnpicklingError) (fun _ => Raise ValueError)
           (fun _ => Raise ValueError) (fun _ => [])
           (start_streaming (new "localhost" 5557))
           (mkExchange (Ok tt) (Raise ZmqAgain))).
  - by eexists.
  - by apply (recv_fails _ _ ZmqAgain).
Defined.

(** C8.  For a hand-joint input that is [None] or has fewer than 25 joints,
    [_generate_finger_data] returns the all-zero 25 x 4 x 4 tensor. *)
Theorem generate_finger_data_no_tracking
    (quat_as_matrix : vector -> result matrix)
    (matrix_as_euler_xyz : matrix -> result vector)
    (euler_z_as_matrix : Q -> matrix)
    (hand_joints : option (list vector)) (headset_pose : option vector)
    (hand_side : string) :
  fewer_than_25 hand_joints ->
  _generate_finger_data quat_as_matrix matrix_as_euler_xyz euler_z_as_matrix
    hand_joints headset_pose hand_side = Ok (np_zeros3 25 4 4).
Proof.
  intros Hfew. unfold _generate_finger_data.
  destruct hand_joints as [joints|]; [|done].
  simpl in Hfew. by rewrite decide_True.
Qed.

Lemma generate_finger_data_no_tracking_witness :
  _generate_finger_data (fun _ => Raise ValueError)
    (fun _ => Raise ValueError) (fun _ => [])
    (Some [[0.1; 0.2; 0.3; 0; 0; 0; 1]%Q]) None "left"
  = Ok (np_zeros3 25 4 4).
Proof.
  apply (generate_finger_data_no_tracking (fun _ => Raise ValueError)
           (fun _ => Raise ValueError) (fun _ => [])
           (Some [[0.1; 0.2; 0.3; 0; 0; 0; 1]%Q]) None "left").
  simpl. lia.
Defined.

Example zeros_tensor_is_all_zero :
  np_zeros3 25 4 4 = replicate 25 (replicate 4 [0; 0; 0; 0]%Q)
  /\ allclose3 (np_zeros3 25 4 4) 0 = true.
Proof. split; reflexivity. Qed.

(** A tracked hand: 25 joints at [(x, y, z) = (0.1, 0.2, 0.3)] in the
    device frame, seen from a headset at the origin that looks straight
    ahead.  Every pose comes out as the translation by [(-z, -x, y)]. *)
Example generate_finger_data_tracked :
  (fun t => map (map (map Qred)) t) <$>
    (match _generate_finger_data unit_quat_matrix level_euler level_yaw_matrix
       (Some (replicate 25 [0.1; 0.2; 0.3; 0; 0; 0; 0]%Q))
       (Some [0; 0; 0; 0; 0; 0; 1]%Q) "left"
     with Ok t => Some t | Raise _ => None end)
  = Some (replicate 25
      [ [1; 0; 0; -(3 # 10)]; [0; 1; 0; -(1 # 10)]; [0; 0; 1; 1 # 5];
        [0; 0; 0; 1] ]%Q).
Proof. vm_compute. reflexivity. Qed.

End PicoClientFacts.

(** ** run_teleop_policy_loop.py *)

Module TeleopLoopFacts.
Import TeleopLoop.

Lemma py_div_Ok (a b : Q) : ~ (b == 0)%Q -> py_div a b = Ok (a / b)%Q.
Proof.
  intros Hb. unfold py_div.
  destruct (Qeq_bool b 0) eqn:E; [|done].
  by apply Qeq_bool_eq in E.
Qed.


Lemma py_div_inv (a b c : Q) :
  py_div a b = Ok c -> ~ (b == 0)%Q /\ c = (a / b)%Q.
Proof.
  unfold py_div. destruct (Qeq_bool b 0) eqn:E; [done|].
  intros [= <-]. split; [|done]. by apply Qeq_bool_neq.
Qed.

Lemma float_at_stamped (act : action) (ts tt : Q) :
  let act' := <["target_time" := VFloat tt]>
                (<["timestamp" := VFloat ts]> act) in
  float_at act' "timestamp" = Some ts /\ float_at act' "target_time" = Some tt.
Proof.
  cbv zeta. unfold float_at. split.
  - rewrite lookup_insert_ne by done. by rewrite lookup_insert_eq.
  - by rewrite lookup_insert_eq.
Qed.

Lemma cycle_live config st inp :
  ~ (teleop_frequency config == 0)%Q ->
  (cycle config st inp).2 = None /\
  length (published (cycle config st inp).1) = S (length (published st)).
Proof.
  intros Hf. unfold cycle. rewrite (py_div_Ok _ _ Hf). simpl.
  destruct (iteration st =? 0); simpl;
    destruct (Qlt_le_dec _ _); simpl; rewrite length_app; simpl;
    (split; [done|lia]).
Qed.

Lemma run_live config inputs st :
  ~ (teleop_frequency config == 0)%Q ->
  (run config st inputs).2 = None /\
  length (published (run config st inputs).1)
  = length (published st) + length inputs.
Proof.
  intros Hf. revert st.
  induction inputs as [|inp rest IH]; intros st; simpl; [split; [done|lia]|].
  destruct (cycle_live config st inp Hf) as [Hnone Hlen].
  destruct (cycle config st inp) as [st' [e|]]; [done|].
  destruct (IH st') as [Hn Hl]. split; [done|]. simpl in Hlen. lia.
Qed.

Example first_cycle_target :
  let config := mkConfig 20 in
  let inputs := [mkInput 0 ∅ 0.01 0.02] in
  (fun act => float_at act "target_time") <$> published (main config inputs).1
  = [Some (0.01 + 2)%Q]
  /\ slept (main config inputs).1 = [2%Q].
Proof. split; reflexivity. Qed.

(** With a zero frequency the warm-up action goes out and the deadline test
    of the same cycle raises. *)
Example zero_frequency :
  main (mkConfig 0) [mkInput 0 ∅ 0.01 0.02; mkInput 2.05 ∅ 2.06 2.07]
  = ({| iteration := 1;
        published := [<["target_time" := VFloat (0.01 + 2)]>
                        (<["timestamp" := VFloat 0.01]> ∅)];
        slept := [2%Q]; missed := 0 |}, Some ZeroDivisionError).
Proof. reflexivity. Qed.

End TeleopLoopFacts.

(** ** run_teleop_policy_loop.py on float64 *)

Module FloatLoopFacts.
Import Floats FloatLoop.

Lemma py_div_Ok_f64 (a b : float) :
  (b =? 0)%float = false -> py_div a b = Ok (a / b)%float.
Proof. intros Hb. unfold py_div. by rewrite Hb. Qed.

Lemma py_div_Raise_f64 (a b : float) :
  (b =? 0)%float = true -> py_div a b = Raise ZeroDivisionError.
Proof. intros Hb. unfold py_div. by rewrite Hb. Qed.

Lemma py_div_inv_f64 (a b c : float) :
  py_div a b = Ok c -> (b =? 0)%float = false /\ c = (a / b)%float.
Proof.
  unfold py_div. destruct (b =? 0)%float; [done|]. by intros [= <-].
Qed.

Lemma float_at_stamped_f64 (act : action) (ts tt : float) :
  let act' := <["target_time" := VFloat tt]>
                (<["timestamp" := VFloat ts]> act) in
  float_at act' "timestamp" = Some ts /\ float_at act' "target_time" = Some tt.
Proof.
  cbv zeta. unfold float_at. split.
  - rewrite lookup_insert_ne by done. by rewrite lookup_insert_eq.
  - by rewrite lookup_insert_eq.
Qed.

Lemma loop_inv_publish config st act :
  loop_inv config st -> well_timed config (iteration st) act ->
  forall k a, (published st ++ [act]) !! k = Some a -> well_timed config k a.
Proof.
  intros [Hit Hall] Hact k a Hk.
  apply lookup_app_Some in Hk as [Hk | [Hge Hk]]; [by apply Hall|].
  apply list_lookup_singleton_Some in Hk as [Hk <-].
  by replace k with (iteration st) by lia.
Qed.

(** Closes [loop_inv] for a state that has published one more action. *)
Ltac published_one Hinv Hact :=
  split;
  [ simpl; rewrite length_app; simpl; pose proof (proj1 Hinv); lia
  | simpl; by apply loop_inv_publish ].

Lemma cycle_inv config st inp :
  loop_inv config st -> loop_inv config (cycle config st inp).1.
Proof.
  intros Hinv. assert (Hit := proj1 Hinv). unfold cycle.
  destruct (iteration st =? 0) eqn:E0.
  - apply Nat.eqb_eq in E0.
    assert (Hact : well_timed config (iteration st)
              (<["target_time" :=
                   VFloat (t_now inp + time_to_get_to_initial_pose)]>
                 (<["timestamp" := VFloat (t_now inp)]> (data inp)))).
    { destruct (float_at_stamped_f64 (data inp) (t_now inp)
                  (t_now inp + time_to_get_to_initial_pose)) as [Hts Htt].
      exists (t_now inp), (t_now inp + time_to_get_to_initial_pose)%float.
      split; [done|]. split; [done|]. split; [|done].
      intros _. reflexivity. }
    simpl. rewrite E0. simpl.
    destruct (py_div 1 (teleop_frequency config)) as [period|e]; simpl;
      [destruct (_ <? _)%float; simpl|]; published_one Hinv Hact.
  - apply Nat.eqb_neq in E0.
    destruct (py_div 1 (teleop_frequency config)) as [period|e] eqn:Ediv;
      simpl; [|done].
    apply py_div_inv_f64 in Ediv as [Hf ->].
    assert (Hact : well_timed config (iteration st)
              (<["target_time" :=
                   VFloat (t_now inp + 1 / teleop_frequency config)]>
                 (<["timestamp" := VFloat (t_now inp)]> (data inp)))).
    { destruct (float_at_stamped_f64 (data inp) (t_now inp)
                  (t_now inp + 1 / teleop_frequency config)) as [Hts Htt].
      exists (t_now inp), (t_now inp + 1 / teleop_frequency config)%float.
      split; [done|]. split; [done|]. split; [done|].
      intros _. by split. }
    rewrite (proj2 (Nat.eqb_neq _ _) E0).
    destruct (_ <? _)%float; simpl; published_one Hinv Hact.
Qed.

Lemma run_inv config inputs st :
  loop_inv config st -> loop_inv config (run config st inputs).1.
Proof.
  revert st. induction inputs as [|inp rest IH]; intros st Hinv; [done|].
  simpl. pose proof (cycle_inv config st inp Hinv) as Hc.
  destruct (cycle config st inp) as [st' [e|]]; [done|]. by apply IH.
Qed.

Lemma initial_inv config : loop_inv config initial.
Proof. split; [done|]. intros k act Hk. done. Qed.

Lemma cycle_live_f64 config st inp :
  (teleop_frequency config =? 0)%float = false ->
  (cycle config st inp).2 = None /\
  length (published (cycle config st inp).1) = S (length (published st)).
Proof.
  intros Hf. unfold cycle. rewrite (py_div_Ok_f64 _ _ Hf). simpl.
  destruct (iteration st =? 0); simpl;
    destruct (_ <? _)%float; simpl; rewrite length_app; simpl;
    (split; [done|lia]).
Qed.

Lemma run_live_f64 config inputs st :
  (teleop_frequency config =? 0)%float = false ->
  (run config st inputs).2 = None /\
  length (published (run config st inputs).1)
  = length (published st) + length inputs.
Proof.
  intros Hf. revert st.
  induction inputs as [|inp rest IH]; intros st; simpl; [split; [done|lia]|].
  destruct (cycle_live_f64 config st inp Hf) as [Hnone Hlen].
  destruct (cycle config st inp) as [st' [e|]]; [done|].
  destruct (IH st') as [Hn Hl]. split; [done|]. simpl in Hlen. lia.
Qed.

(** The warm-up cycle publishes whatever the frequency is. *)
Lemma run_first_published config inp rest :
  is_Some (published (run config initial (inp :: rest)).1 !! 0).
Proof.
  simpl. destruct (teleop_frequency config =? 0)%float eqn:E.
  - unfold cycle. simpl. rewrite (py_div_Raise_f64 _ _ E). simpl. by eexists.
  - destruct (cycle_live_f64 config initial inp E) as [Hnone Hlen].
    destruct (cycle config initial inp) as [st' [e|]]; [done|].
    destruct (run_live_f64 config rest st' E) as [_ Hl].
    apply lookup_lt_is_Some_2. simpl in Hlen. lia.
Qed.

(** C7, amended.  In the actions the loop publishes, [target_time] is the
    float64 sum [timestamp + 2] on the first cycle and
    [timestamp + 1 / teleop_frequency] on every later cycle.  The warm-up
    action is published whenever the loop is entered, and with a non-zero
    frequency every cycle publishes. *)
Theorem main_target_time (config : TeleopConfig)
    (inputs : list cycle_input) :
  (inputs <> [] -> is_Some (published (main config inputs).1 !! 0)) /\
  ((teleop_frequency config =? 0)%float = false ->
     (main config inputs).2 = None /\
     length (published (main config inputs).1) = length inputs) /\
  forall k act,
    published (main config inputs).1 !! k = Some act ->
    exists ts tt,
      float_at act "timestamp" = Some ts /\
      float_at act "target_time" = Some tt /\
      (k = 0 -> tt = (ts + 2)%float) /\
      (k <> 0 -> tt = (ts + 1 / teleop_frequency config)%float).
Proof.
  split; [|split].
  - destruct inputs as [|inp rest]; [done|]. intros _.
    apply run_first_published.
  - intros Hf. apply (run_live_f64 config inputs initial Hf).
  - intros k act Hk.
    destruct (run_inv config inputs initial (initial_inv config))
      as [_ Hall].
    destruct (Hall k act Hk) as (ts & tt & Hts & Htt & H0 & Hn).
    exists ts, tt. repeat (split; [done|]). intros Hne. by apply Hn.
Qed.

Lemma main_target_time_witness :
  let config := mkConfig 20 in
  let inputs :=
    [ mkInput 0 {["left_hand" := VArray [1; 1; 1; 1; 1; 1; 0]%float]}
        0.01 0.02;
      mkInput 2.05 {["left_hand" := VArray [0; 0; 0; 0; 0; 1; 0]%float]}
        2.06 2.07 ] in
  exists act,
    published (main config inputs).1 !! 1 = Some act /\
    exists ts tt,
      float_at act "timestamp" = Some ts /\
      float_at act "target_time" = Some tt /\
      (1 = 0 -> tt = (ts + 2)%float) /\
      (1 <> 0 -> tt = (ts + 1 / teleop_frequency config)%float).
Proof.
  intros config inputs. eexists. split; [reflexivity|].
  apply (proj2 (proj2 (main_target_time config inputs)) 1). reflexivity.
Defined.

(** C7, as the claim states it, fails on float64: the sum is rounded, so
    taking the timestamp off the target time does not give the duration
    back.  With the loop entered at 0.01 s the first action has
    [target_time - timestamp = 1.9999999999999998], and the second, stamped
    2.06 s at 20 Hz, has [0.04999999999999982], not [1 / 20]. *)
Lemma main_target_time_rounding_counterexample :
  let config := mkConfig 20 in
  let inputs :=
    [ mkInput 0 {["left_hand" := VArray [1; 1; 1; 1; 1; 1; 0]%float]}
        0.01 0.02;
      mkInput 2.05 {["left_hand" := VArray [0; 0; 0; 0; 0; 1; 0]%float]}
        2.06 2.07 ] in
  exists a0 a1 ts0 tt0 ts1 tt1,
    published (main config inputs).1 = [a0; a1] /\
    float_at a0 "timestamp" = Some ts0 /\
    float_at a0 "target_time" = Some tt0 /\
    float_at a1 "timestamp" = Some ts1 /\
    float_at a1 "target_time" = Some tt1 /\
    (tt0 - ts0 =? 2)%float = false /\
    (tt0 - ts0 <? 2)%float = true /\
    (tt1 - ts1 =? 1 / teleop_frequency config)%float = false /\
    (tt1 - ts1 <? 1 / teleop_frequency config)%float = true.
Proof.
  intros config inputs. do 6 eexists.
  split; [reflexivity|]. do 4 (split; [reflexivity|]).
  repeat split; vm_compute; reflexivity.
Qed.

Example first_cycle_difference :
  ((0.01 + 2) - 0.01 =? 1.9999999999999998)%float = true.
Proof. reflexivity. Qed.

Example second_cycle_difference :
  ((2.06 + 1 / 20) - 2.06 =? 0.04999999999999982)%float = true.
Proof. reflexivity. Qed.

End FloatLoopFacts.

(** * Further properties *)

Lemma for_range_from_ext {St} (body1 body2 : nat -> St -> result St)
    (n from : nat) (st : St) :
  (forall i s, from <= i < from + n -> body1 i s = body2 i s) ->
  for_range_from from n body1 st = for_range_from from n body2 st.
Proof.
  revert from st. induction n as [|n IH]; intros from st Hext; [done|].
  simpl. rewrite (Hext from st) by lia.
  destruct (body2 from st) as [s'|e]; simpl; [|done].
  apply IH. intros i s Hi. apply Hext. lia.
Qed.

Lemma for_range_ext {St} (body1 body2 : nat -> St -> result St)
    (n : nat) (st : St) :
  (forall i s, i < n -> body1 i s = body2 i s) ->
  for_range n body1 st = for_range n body2 st.
Proof.
  intros Hext. apply for_range_from_ext. intros i s Hi. apply Hext. lia.
Qed.

Lemma bind_ext {A B} (r : result A) (k1 k2 : A -> result B) :
  (forall a, k1 a = k2 a) -> (r ≫= k1) = (r ≫= k2).
Proof. intros H. destruct r as [a|e]; simpl; [apply H | done]. Qed.

Lemma bind_Ok_inv {A B} (r : result A) (k : A -> result B) (b : B) :
  (r ≫= k) = Ok b -> exists a, r = Ok a /\ k a = Ok b.
Proof. destruct r as [a|e]; simpl; [eauto | done]. Qed.

(** What a loop keeps true when it ends without exception. *)
Lemma for_range_from_pres {St} (P : St -> Prop)
    (body : nat -> St -> result St) (n from : nat) (st st' : St) :
  (forall i s s', body i s = Ok s' -> P s -> P s') ->
  P st -> for_range_from from n body st = Ok st' -> P st'.
Proof.
  intros Hbody. revert from st.
  induction n as [|n IH]; intros from st HP Hrun; simpl in Hrun.
  - by injection Hrun as <-.
  - apply bind_Ok_inv in Hrun as (s1 & Hb & Hrest).
    eapply IH; [|exact Hrest]. by eapply Hbody.
Qed.

(** ** inspire_driver.py: ingestion, emission, command writes *)

Module InspireDriverMore.
Import InspireDriver InspireFrames InspireDriverFacts.

(** X1.  One turn of the ingestion loop on a frame never fails on the
    12-slot mirrors; motor [j] of the frame lands in slot [j] of the three
    state arrays, the slots the frame does not reach keep their values, and
    the command mirror is not touched. *)
Theorem recv_step_frame (d : InspireHandDriver) (states : list MotorState) :
  wf d ->
  exists d',
    recv_step d (Some states) = Ok d' /\
    wf d' /\
    cmd_q d' = cmd_q d /\
    (forall j st, j < TOTAL_MOTORS -> states !! j = Some st ->
       joint_q d' !! j = Some (q st) /\
       joint_dq d' !! j = Some (dq st) /\
       joint_tau d' !! j = Some (tau_est st)) /\
    (forall j, length states <= j ->
       joint_q d' !! j = joint_q d !! j /\
       joint_dq d' !! j = joint_dq d !! j /\
       joint_tau d' !! j = joint_tau d !! j).
Proof.
  intros Hwf.
  destruct (recv_step_ingested d states Hwf)
    as (d' & Hr & (Lq & Iq) & (Ldq & Idq) & (Ltau & Itau) & Hc).
  exists d'. split; [done|]. split.
  { repeat split; try done. rewrite Hc. apply Hwf. }
  split; [done|]. split.
  - intros j st Hj Hst. rewrite Iq, Idq, Itau.
    assert (j < length states) by (eapply lookup_lt_Some; done).
    rewrite !decide_True by lia. by rewrite Hst.
  - intros j Hj. rewrite Iq, Idq, Itau. by rewrite !decide_False by lia.
Qed.

Lemma recv_step_frame_witness :
  exists d',
    recv_step init (Some [mkMotorState 0.5 0.25 0.125]%Q) = Ok d' /\
    wf d' /\
    cmd_q d' = cmd_q init /\
    (forall j st, j < TOTAL_MOTORS ->
       [mkMotorState 0.5 0.25 0.125]%Q !! j = Some st ->
       joint_q d' !! j = Some (q st) /\
       joint_dq d' !! j = Some (dq st) /\
       joint_tau d' !! j = Some (tau_est st)) /\
    (forall j, length [mkMotorState 0.5 0.25 0.125]%Q <= j ->
       joint_q d' !! j = joint_q init !! j /\
       joint_dq d' !! j = joint_dq init !! j /\
       joint_tau d' !! j = joint_tau init !! j).
Proof.
  apply (recv_step_frame init [mkMotorState 0.5 0.25 0.125]%Q).
  repeat split; reflexivity.
Defined.

(** X2.  A frame with more than 12 motor states is cut at 12: the turn has
    the result of the turn on the first 12 states. *)
Theorem recv_step_truncates (d : InspireHandDriver)
    (states : list MotorState) :
  recv_step d (Some states) = recv_step d (Some (take TOTAL_MOTORS states)).
Proof.
  unfold recv_step. rewrite length_take.
  replace ((TOTAL_MOTORS `min` length states) `min` TOTAL_MOTORS)
    with (length states `min` TOTAL_MOTORS) by lia.
  apply for_range_ext. intros i s Hi. unfold recv_body, getitem.
  by rewrite lookup_take_lt by lia.
Qed.

Lemma written_lookup d is_left q_cmd j :
  length (cmd_q d) = TOTAL_MOTORS ->
  written d is_left q_cmd (length q_cmd `min` 6) !! j
  = if in_window is_left q_cmd j then q_cmd !! (j - start_idx is_left)
    else cmd_q d !! j.
Proof.
  intros Hlen. unfold in_window.
  destruct (start_idx is_left <=? j) eqn:E1; simpl.
  - apply Nat.leb_le in E1.
    destruct (j <? start_idx is_left + length q_cmd `min` 6) eqn:E2.
    + apply Nat.ltb_lt in E2.
      replace j with (start_idx is_left + (j - start_idx is_left)) at 1
        by lia.
      apply written_lookup_in; [done|lia|lia].
    + apply Nat.ltb_ge in E2. apply written_lookup_out; [done|lia|lia].
  - apply Nat.leb_gt in E1. apply written_lookup_out; [done|lia|lia].
Qed.

Lemma written_length d is_left q_cmd :
  length (cmd_q d) = TOTAL_MOTORS ->
  length (written d is_left q_cmd (length q_cmd `min` 6)) = TOTAL_MOTORS.
Proof.
  intros Hlen. unfold written, TOTAL_MOTORS in *.
  rewrite !length_app, !length_take, length_drop.
  unfold start_idx. destruct is_left; lia.
Qed.

(** Closed form of one turn of the emission loop. *)
Lemma send_step_frame d cmds :
  length (cmd_q d) = TOTAL_MOTORS -> length cmds = TOTAL_MOTORS ->
  send_step d cmds = Ok (servo_cmd <$> cmd_q d).
Proof.
  intros Hc Hm. unfold send_step, TOTAL_MOTORS in *.
  destruct (for_range_inv
    (fun k st => st = (d, (servo_cmd <$> take k (cmd_q d)) ++ drop k cmds))
    send_body 12 (d, cmds)) as (st & Hr & ->).
  - by rewrite take_0, drop_0.
  - intros i s Hi ->.
    destruct (lookup_lt_is_Some_2 (cmd_q d) i) as [c Hci]; [lia|].
    destruct (lookup_lt_is_Some_2 cmds i) as [m Hmi]; [lia|].
    eexists. split; [|reflexivity]. unfold send_body.
    rewrite (getitem_Ok _ _ _ Hci). simpl.
    rewrite setitem_Ok
      by (rewrite length_app, length_fmap, length_take, length_drop; lia).
    simpl. do 2 f_equal.
    rewrite insert_app_r_alt by (rewrite length_fmap, length_take; lia).
    rewrite length_fmap, length_take. replace (i - i `min` length (cmd_q d))
      with 0 by lia.
    rewrite (drop_S _ _ _ Hmi). simpl.
    rewrite (take_S_r _ _ _ Hci), fmap_app. simpl.
    by rewrite <- app_assoc.
  - rewrite Hr. simpl. f_equal.
    rewrite take_ge by lia. rewrite drop_ge by lia. by rewrite app_nil_r.
Qed.

(** X3.  Every turn of the emission loop sends the whole command mirror:
    one command per motor with mode 1, the mirror's target and zero gains,
    whatever the message held before. *)
Theorem send_step_heartbeat (d : InspireHandDriver) (cmds : list MotorCmd) :
  length (cmd_q d) = TOTAL_MOTORS -> length cmds = TOTAL_MOTORS ->
  exists frame,
    send_step d cmds = Ok frame /\
    length frame = TOTAL_MOTORS /\
    forall i c, frame !! i = Some c ->
      mode c = 1%Z /\ kp c = 0%Q /\ kd c = 0%Q /\
      cmd_q d !! i = Some (cmd_target c).
Proof.
  intros Hc Hm. exists (servo_cmd <$> cmd_q d).
  split; [by apply send_step_frame|]. split; [by rewrite length_fmap|].
  intros i c Hi. rewrite list_lookup_fmap in Hi.
  destruct (cmd_q d !! i) as [t|]; [|done].
  by injection Hi as <-.
Qed.

Lemma send_step_heartbeat_witness :
  exists frame,
    send_step init (replicate 12 (mkMotorCmd 0 0.3 5 7)) = Ok frame /\
    length frame = TOTAL_MOTORS /\
    forall i c, frame !! i = Some c ->
      mode c = 1%Z /\ kp c = 0%Q /\ kd c = 0%Q /\
      cmd_q init !! i = Some (cmd_target c).
Proof.
  apply (send_step_heartbeat init (replicate 12 (mkMotorCmd 0 0.3 5 7)));
    reflexivity.
Defined.

(** X4.  A command written with [set_hand_cmd] is what the next emitted
    frame carries for that hand: motor [start_idx + i] gets target
    [q_cmd[i]] for [i < min(len(q_cmd), 6)], every other motor the target
    the mirror held before the call. *)
Theorem set_then_send (d : InspireHandDriver) (is_left : bool)
    (q_cmd : list Q) (cmds : list MotorCmd) :
  length (cmd_q d) = TOTAL_MOTORS -> length cmds = TOTAL_MOTORS ->
  exists d' frame,
    set_hand_cmd d is_left q_cmd = Ok d' /\
    send_step d' cmds = Ok frame /\
    (forall i, i < Nat.min (length q_cmd) 6 ->
       frame !! (start_idx is_left + i) = servo_cmd <$> q_cmd !! i) /\
    (forall j, in_window is_left q_cmd j = false ->
       frame !! j = servo_cmd <$> cmd_q d !! j).
Proof.
  intros Hc Hm. do 2 eexists.
  split; [by apply set_hand_cmd_written|].
  split; [apply send_step_frame; [by apply written_length|done]|].
  simpl. split.
  - intros i Hi. rewrite list_lookup_fmap.
    by rewrite written_lookup_in by (done || lia).
  - intros j Hj. rewrite list_lookup_fmap, written_lookup by done.
    by rewrite Hj.
Qed.

Lemma set_then_send_witness :
  exists d' frame,
    set_hand_cmd init true [0.5; 0.25]%Q = Ok d' /\
    send_step d' (replicate 12 (mkMotorCmd 0 0 0 0)) = Ok frame /\
    (forall i, i < Nat.min (length [0.5; 0.25]%Q) 6 ->
       frame !! (start_idx true + i) = servo_cmd <$> [0.5; 0.25]%Q !! i) /\
    (forall j, in_window true [0.5; 0.25]%Q j = false ->
       frame !! j = servo_cmd <$> cmd_q init !! j).
Proof.
  apply (set_then_send init true [0.5; 0.25]%Q
           (replicate 12 (mkMotorCmd 0 0 0 0))); reflexivity.
Defined.

Lemma in_window_other is_left q1 q2 j :
  in_window is_left q1 j = true -> in_window (negb is_left) q2 j = false.
Proof.
  unfold in_window. intros H. apply andb_true_iff in H as [H1 H2].
  apply Nat.leb_le in H1. apply Nat.ltb_lt in H2.
  apply andb_false_iff.
  destruct is_left; unfold negb, start_idx in *;
    [right; apply Nat.ltb_ge | left; apply Nat.leb_gt]; lia.
Qed.

(** X5.  Commands for the two hands do not interfere: writing the left hand
    then the right hand gives the same driver as writing the right hand then
    the left. *)
Theorem set_hand_cmd_hands_commute (d : InspireHandDriver)
    (q_left q_right : list Q) :
  length (cmd_q d) = TOTAL_MOTORS ->
  exists d',
    (d1 ← set_hand_cmd d true q_left; set_hand_cmd d1 false q_right) = Ok d' /\
    (d2 ← set_hand_cmd d false q_right; set_hand_cmd d2 true q_left) = Ok d'.
Proof.
  intros Hc.
  rewrite (set_hand_cmd_written d true q_left Hc),
    (set_hand_cmd_written d false q_right Hc). simpl.
  rewrite !set_hand_cmd_written by (simpl; by apply written_length).
  eexists. split; [reflexivity|]. do 2 f_equal.
  apply list_eq. intros j.
  rewrite !written_lookup by (simpl; (done || by apply written_length)).
  simpl. rewrite !written_lookup by done.
  destruct (in_window true q_left j) eqn:El;
    destruct (in_window false q_right j) eqn:Er; try done.
  pose proof (in_window_other true q_left q_right j El) as Hno.
  simpl in Hno. congruence.
Qed.

Lemma set_hand_cmd_hands_commute_witness :
  exists d',
    (d1 ← set_hand_cmd init true [0.5]%Q; set_hand_cmd d1 false [0.25]%Q)
    = Ok d' /\
    (d2 ← set_hand_cmd init false [0.25]%Q; set_hand_cmd d2 true [0.5]%Q)
    = Ok d'.
Proof.
  apply (set_hand_cmd_hands_commute init [0.5]%Q [0.25]%Q). reflexivity.
Defined.

(** X6.  The last write wins: after a command for a hand, a second command
    for the same hand that is at least as long leaves the driver as if only
    the second had been written. *)
Theorem set_hand_cmd_overwrites (d : InspireHandDriver) (is_left : bool)
    (q1 q2 : list Q) :
  length (cmd_q d) = TOTAL_MOTORS ->
  length q1 <= length q2 ->
  (d1 ← set_hand_cmd d is_left q1; set_hand_cmd d1 is_left q2)
  = set_hand_cmd d is_left q2.
Proof.
  intros Hc Hlen.
  rewrite (set_hand_cmd_written d is_left q1 Hc). simpl.
  rewrite !set_hand_cmd_written by (simpl; (done || by apply written_length)).
  do 2 f_equal. apply list_eq. intros j.
  rewrite !written_lookup by (simpl; (done || by apply written_length)).
  simpl. rewrite written_lookup by done.
  destruct (in_window is_left q2 j) eqn:E2; [done|].
  destruct (in_window is_left q1 j) eqn:E1; [|done].
  unfold in_window in *. apply andb_true_iff in E1 as [A B].
  apply andb_false_iff in E2.
  apply Nat.leb_le in A. apply Nat.ltb_lt in B.
  destruct E2 as [E2|E2];
    [apply Nat.leb_gt in E2 | apply Nat.ltb_ge in E2]; lia.
Qed.

Lemma set_hand_cmd_overwrites_witness :
  (d1 ← set_hand_cmd init false [0.5]%Q;
   set_hand_cmd d1 false [0.25; 0.75]%Q)
  = set_hand_cmd init false [0.25; 0.75]%Q.
Proof.
  apply (set_hand_cmd_overwrites init false [0.5]%Q [0.25; 0.75]%Q).
  - reflexivity.
  - simpl. lia.
Defined.

End InspireDriverMore.

(** ** inspire_driver.py: the singleton *)

Module InspireSingletonFacts.
Import InspireDriver InspireSingleton.

(** X7.  Once the driver is initialised, constructing it again returns the
    existing object as it is -- mirrors and pending commands kept, no thread
    started -- and does not raise, whatever the DDS layer would answer. *)
Theorem construct_existing (self : instance) (env : dds_env) :
  _initialized self = true ->
  construct (Some self) env = (Some self, None).
Proof. intros H. unfold construct, __init__. simpl. by rewrite H. Qed.

Lemma construct_existing_witness :
  construct
    (Some (mkInstance true (Some (with_cmd_q init (np_zeros 12))) true 1))
    (mkDds (Raise RuntimeError) (Raise RuntimeError) (Raise RuntimeError))
  = (Some (mkInstance true (Some (with_cmd_q init (np_zeros 12))) true 1),
     None).
Proof.
  apply (construct_existing
    (mkInstance true (Some (with_cmd_q init (np_zeros 12))) true 1)).
  reflexivity.
Defined.

(** X8.  The first construction succeeds even when
    [ChannelFactoryInitialize] raises, provided the publisher and the
    subscriber come up: the instance is initialised with zeroed state
    mirrors, the command mirror at 1.0 and one pair of threads. *)
Theorem construct_first (env : dds_env) :
  pub_init env = Ok tt -> sub_init env = Ok tt ->
  construct None env
  = (Some {| _initialized := true; arrays := Some init; running := true;
             threads := 1 |}, None).
Proof.
  intros Hp Hs. unfold construct, __init__. simpl.
  destruct (factory_init env) as [[]|e]; simpl; by rewrite Hp, Hs.
Qed.

Lemma construct_first_witness :
  construct None (mkDds (Raise RuntimeError) (Ok tt) (Ok tt))
  = (Some {| _initialized := true; arrays := Some init; running := true;
             threads := 1 |}, None).
Proof.
  apply (construct_first (mkDds (Raise RuntimeError) (Ok tt) (Ok tt)));
    reflexivity.
Defined.

Lemma init_keeps_inv self env :
  singleton_inv self -> singleton_inv (__init__ self env).1.
Proof.
  intros Hinv. unfold __init__.
  destruct (_initialized self) eqn:Hi; [done|].
  destruct Hinv as (Hle & Hiff & Hrun).
  assert (Ht : threads self = 0).
  { destruct (threads self) as [|[|n]]; [done| |lia].
    destruct Hiff as [_ Hiff]. specialize (Hiff eq_refl). congruence. }
  destruct (factory_init env) as [[]|e]; simpl;
    (destruct (pub_init env) as [[]|e1]; simpl;
     [destruct (sub_init env) as [[]|e2]; simpl|]);
    unfold singleton_inv; simpl; rewrite ?Hi, ?Ht;
    (split; [lia|]); (split; [split; (done || lia)|]);
    (done || by eauto).
Qed.

(** X9.  Whatever the answers of the DDS layer over any number of
    constructor calls, the background threads are started at most once,
    and exactly once when the instance is initialised, which then has its
    mirrors and [running] set. *)
Theorem constructs_start_threads_once (envs : list dds_env) :
  match constructs None envs with
  | None => envs = []
  | Some self => singleton_inv self
  end.
Proof.
  assert (Hgen : forall envs o,
    match o with None => True | Some self => singleton_inv self end ->
    match constructs o envs with
    | None => envs = [] /\ o = None
    | Some self => singleton_inv self
    end).
  { clear envs. induction envs as [|env rest IH]; intros o Ho.
    - simpl. by destruct o.
    - simpl. unfold construct.
      destruct (__init__ (__new__ o) env) as [self e] eqn:E. simpl.
      assert (Hs : singleton_inv self).
      { change self with (self, e).1. rewrite <- E. apply init_keeps_inv.
        destruct o as [s|]; [done|]. simpl.
        unfold singleton_inv. simpl. repeat split; (done || lia). }
      specialize (IH (Some self) Hs).
      destruct (constructs (Some self) rest); [done|]. by destruct IH. }
  specialize (Hgen envs None I).
  destruct (constructs None envs); [done|]. by destruct Hgen.
Qed.

End InspireSingletonFacts.

(** ** g1_gripper_ik_solver.py: response curve, channel layout, errors *)

Module GripperSolverMore.
Import GripperSolver GripperSolverFacts.

Lemma np_clip_cases (val : Q) :
  ((val <= 0 -> np_clip val 0 1 == 0) /\
   (1 <= val -> np_clip val 0 1 == 1) /\
   (0 <= val <= 1 -> np_clip val 0 1 == val))%Q.
Proof.
  unfold np_clip.
  destruct (Q.max_spec val 0) as [[A B]|[A B]];
    destruct (Q.min_spec (Qmax val 0) 1) as [[C D]|[C D]];
    repeat split; intros; lra.
Qed.

(** X10.  The response curve of a digit, with the thresholds of
    [__init__]: the curl is 0 up to the close threshold, then linear with
    gain 1.1, and it reaches 1 at [knee], ten elevenths of the way from the
    close to the open threshold, so strictly before the open threshold. *)
Theorem curl_of_dist_profile (side : string) (is_thumb : bool) (dist : Q) :
  let self := __init__ side in
  let t_close := threshold (close_thresholds self) is_thumb in
  let t_open := threshold (open_thresholds self) is_thumb in
  let knee := (t_close + (t_open - t_close) * (10 # 11))%Q in
  ((dist <= t_close -> curl_of_dist self is_thumb dist == 0) /\
   (knee <= dist -> curl_of_dist self is_thumb dist == 1) /\
   (t_close <= dist <= knee ->
      curl_of_dist self is_thumb dist
      == (dist - t_close) / (t_open - t_close) * 1.1) /\
   knee < t_open)%Q.
Proof.
  intros self t_close t_open knee. unfold curl_of_dist.
  fold self. fold t_close. fold t_open.
  set (val := ((dist - t_close) / (t_open - t_close) * 1.1)%Q).
  destruct (np_clip_cases val) as (H0 & H1 & Hmid).
  assert (Hval : (val == (dist - t_close) * 25 * 1.1)%Q).
  { unfold val, Qdiv.
    assert (Hinv : (/ (t_open - t_close) == 25)%Q)
      by (unfold t_open, t_close; destruct is_thumb; reflexivity).
    by rewrite Hinv. }
  assert (Hknee : (knee == t_close + (4 # 110))%Q)
    by (unfold knee, t_open, t_close; destruct is_thumb; reflexivity).
  assert (Hopen : (t_open == t_close + (4 # 100))%Q)
    by (unfold t_open, t_close; destruct is_thumb; reflexivity).
  repeat split.
  - intros Hd. apply H0. lra.
  - intros Hd. apply H1. lra.
  - intros [Hd1 Hd2]. apply Hmid. lra.
  - lra.
Qed.

Lemma curl_of_dist_profile_witness :
  (curl_of_dist (__init__ "left") false 0.08
   == (0.08 - 0.06) / (0.10 - 0.06) * 1.1)%Q.
Proof.
  apply (curl_of_dist_profile "left" false 0.08%Q). split; discriminate.
Defined.

Lemma mapM_lookup {A B} (f : A -> result B) (l : list A) (k : list B)
    (i : nat) (x : A) :
  mapM f l = Ok k -> l !! i = Some x ->
  exists y, f x = Ok y /\ k !! i = Some y.
Proof.
  revert k i. induction l as [|a l IH]; intros k i Hk Hx; [done|].
  simpl in Hk. destruct (f a) as [b|e] eqn:Hb; simpl in Hk; [|done].
  destruct (mapM f l) as [k'|e] eqn:Hk'; simpl in Hk; [|done].
  injection Hk as <-. destruct i as [|i]; simpl in *.
  - injection Hx as <-. by exists b.
  - by apply (IH k' i).
Qed.

Lemma positions_lookup (t : tensor) (positions : list vector) (k : nat) :
  mapM translation t = Ok positions -> k < length t ->
  exists p, pose_position t k = Some p /\ positions !! k = Some p.
Proof.
  intros Hmap Hk. destruct (lookup_lt_is_Some_2 t k Hk) as [m Hm].
  destruct (mapM_lookup _ _ _ _ _ Hmap Hm) as (p & Hp & Hpk).
  exists p. unfold pose_position.
  pose proof (Hm : t !! k = Some m) as Hm'. by rewrite Hm', Hp.
Qed.

(** X11.  The channel layout on a tracked hand (tensor not all-zero):
    channels 0..4 carry the curls of pinky, ring, middle, index and thumb,
    computed from the distance of the translations of poses 24, 19, 14, 9
    and 4 to the translation of pose 0 (the wrist); the thumb uses the thumb
    thresholds; channels 5 and 6 are 1 and 0. *)
Theorem call_channel_layout (linalg_norm : vector -> Q) (side : string)
    (finger_data : gmap string tensor) (t : tensor) :
  finger_data !! "position" = Some t ->
  has_shape 25 4 4 t ->
  allclose3 t 0 = false ->
  exists wrist thumb_tip index_tip middle_tip ring_tip pinky_tip,
    pose_position t 0 = Some wrist /\
    pose_position t 4 = Some thumb_tip /\
    pose_position t 9 = Some index_tip /\
    pose_position t 14 = Some middle_tip /\
    pose_position t 19 = Some ring_tip /\
    pose_position t 24 = Some pinky_tip /\
    let self := __init__ side in
    let curl is_thumb tip :=
      curl_of_dist self is_thumb (linalg_norm (vsub tip wrist)) in
    __call__ linalg_norm self finger_data
    = Ok [curl false pinky_tip; curl false ring_tip; curl false middle_tip;
          curl false index_tip; curl true thumb_tip; 1%Q; 0%Q].
Proof.
  intros Hfd Hshape Hz.
  destruct (positions_Ok t Hshape) as (positions & Hpos & Hlen).
  destruct Hshape as [Hn _].
  destruct (positions_lookup t positions 0 Hpos) as (w & Hw & Lw); [lia|].
  destruct (positions_lookup t positions 4 Hpos) as (p4 & H4 & L4); [lia|].
  destruct (positions_lookup t positions 9 Hpos) as (p9 & H9 & L9); [lia|].
  destruct (positions_lookup t positions 14 Hpos) as (p14 & H14 & L14);
    [lia|].
  destruct (positions_lookup t positions 19 Hpos) as (p19 & H19 & L19);
    [lia|].
  destruct (positions_lookup t positions 24 Hpos) as (p24 & H24 & L24);
    [lia|].
  exists w, p4, p9, p14, p19, p24. repeat (split; [done|]).
  unfold __call__. rewrite Hfd. simpl. rewrite Hz, Hpos. simpl.
  rewrite (getitem_Ok _ _ _ Lw). simpl. unfold get_curl, tip_dist.
  by rewrite (getitem_Ok _ _ _ L4), (getitem_Ok _ _ _ L9),
    (getitem_Ok _ _ _ L14), (getitem_Ok _ _ _ L19), (getitem_Ok _ _ _ L24).
Qed.

Lemma call_channel_layout_witness :
  exists wrist thumb_tip index_tip middle_tip ring_tip pinky_tip,
    pose_position stretched_hand 0 = Some wrist /\
    pose_position stretched_hand 4 = Some thumb_tip /\
    pose_position stretched_hand 9 = Some index_tip /\
    pose_position stretched_hand 14 = Some middle_tip /\
    pose_position stretched_hand 19 = Some ring_tip /\
    pose_position stretched_hand 24 = Some pinky_tip /\
    let self := __init__ "left" in
    let curl is_thumb tip :=
      curl_of_dist self is_thumb (floor_norm (vsub tip wrist)) in
    __call__ floor_norm self {["position" := stretched_hand]}
    = Ok [curl false pinky_tip; curl false ring_tip; curl false middle_tip;
          curl false index_tip; curl true thumb_tip; 1%Q; 0%Q].
Proof.
  apply (call_channel_layout floor_norm "left" _ stretched_hand).
  - reflexivity.
  - exact stretched_hand_shape.
  - reflexivity.
Defined.

(** X12.  A tensor that is not all-zero but holds fewer than 25 poses makes
    the solver raise IndexError: some fingertip index is out of range. *)
Theorem call_short_tensor (linalg_norm : vector -> Q) (side : string)
    (finger_data : gmap string tensor) (t : tensor) :
  finger_data !! "position" = Some t ->
  length t < 25 ->
  Forall (fun m => length m = 4 /\ Forall (fun row => length row = 4) m) t ->
  allclose3 t 0 = false ->
  __call__ linalg_norm (__init__ side) finger_data = Raise IndexError.
Proof.
  intros Hfd Hlen Hall Hz.
  destruct (mapM_Ok translation t) as (positions & Hpos & Hplen).
  { eapply Forall_impl; [exact Hall|]. intros m [_ Hrows].
    by apply translation_Ok. }
  unfold __call__. rewrite Hfd. simpl. rewrite Hz, Hpos. simpl.
  unfold get_curl, tip_dist, getitem. simpl.
  destruct (positions !! 0); simpl; [|done].
  destruct (positions !! 4); simpl; [|done].
  destruct (positions !! 9); simpl; [|done].
  destruct (positions !! 14); simpl; [|done].
  destruct (positions !! 19); simpl; [|done].
  by rewrite (lookup_ge_None_2 positions 24) by lia.
Qed.

Lemma call_short_tensor_witness :
  __call__ floor_norm (__init__ "right")
    {["position" := replicate 21 (translate 0.06 0.08 0)]}
  = Raise IndexError.
Proof.
  apply (call_short_tensor floor_norm "right" _
           (replicate 21 (translate 0.06 0.08 0))).
  - reflexivity.
  - simpl. lia.
  - repeat constructor.
  - reflexivity.
Defined.

End GripperSolverMore.

Module PicoClientHelpers.
Import PicoClient.

Lemma generate_finger_data_zero_branch
    (quat_as_matrix : vector -> result matrix)
    (matrix_as_euler_xyz : matrix -> result vector)
    (euler_z_as_matrix : Q -> matrix)
    (hand_joints : option (list vector)) (headset_pose : option vector)
    (hand_side : string) :
  fewer_than_25 hand_joints ->
  _generate_finger_data quat_as_matrix matrix_as_euler_xyz euler_z_as_matrix
    hand_joints headset_pose hand_side = Ok (np_zeros3 25 4 4).
Proof.
  intros Hfew. unfold _generate_finger_data.
  destruct hand_joints as [joints|]; [|done].
  simpl in Hfew. by rewrite decide_True.
Qed.

End PicoClientHelpers.

(** ** pico_hand_tracking_client_streamer.py: life cycle and edge cases *)

Module PicoClientMore.
Import PicoClient PicoClientFacts PicoClientHelpers.

(** Life cycle of the client: [start_streaming] yields a connected
    client and is idempotent, [stop_streaming] is idempotent, a stopped
    client raises RuntimeError on [get] whatever the network would do, and
    it can be started again. *)
Theorem client_lifecycle
    (pickle_loads : list Byte.byte -> result server_reply)
    (quat_as_matrix : vector -> result matrix)
    (matrix_as_euler_xyz : matrix -> result vector)
    (euler_z_as_matrix : Q -> matrix)
    (self : PicoHandTrackingClientStreamer) (net : exchange) :
  is_Some (socket (start_streaming self)) /\
  start_streaming (start_streaming self) = start_streaming self /\
  stop_streaming (stop_streaming self) = stop_streaming self /\
  get pickle_loads quat_as_matrix matrix_as_euler_xyz euler_z_as_matrix
    (stop_streaming (start_streaming self)) net = Raise RuntimeError /\
  is_Some (socket (start_streaming (stop_streaming self))).
Proof.
  split; [|split; [|split; [|split]]].
  - unfold start_streaming. destruct (socket self) eqn:E; simpl; [|eauto].
    rewrite E. eauto.
  - unfold start_streaming. destruct (socket self) eqn:E; simpl.
    + by rewrite E.
    + done.
  - done.
  - by apply get_not_started.
  - by eexists.
Qed.

(** X13.  An error payload from the server (a reply with the key
    ["error"]) is answered like a failed exchange: [get] returns all-zero
    tensors for both hands, whatever else the reply holds. *)
Theorem get_on_error_payload
    (pickle_loads : list Byte.byte -> result server_reply)
    (quat_as_matrix : vector -> result matrix)
    (matrix_as_euler_xyz : matrix -> result vector)
    (euler_z_as_matrix : Q -> matrix)
    (self : PicoHandTrackingClientStreamer) (net : exchange)
    (message : list Byte.byte) (data : server_reply) :
  is_Some (socket self) ->
  send_result net = Ok tt -> recv_result net = Ok message ->
  pickle_loads message = Ok data -> is_Some (error data) ->
  get pickle_loads quat_as_matrix matrix_as_euler_xyz euler_z_as_matrix
    self net
  = Ok (fingers_output (np_zeros3 25 4 4) (np_zeros3 25 4 4)).
Proof.
  intros Hsock Hs Hr Hl He. unfold get.
  by rewrite (request_data_error_payload pickle_loads self net message data).
Qed.

Lemma get_on_error_payload_witness :
  let reply := mkReply (Some "device lost") (Some [0; 0; 0; 0; 0; 0; 1]%Q)
                 (Some (replicate 26 [0.1; 0.2; 0.3; 0; 0; 0; 1]%Q)) None in
  get (fun _ => Ok reply) unit_quat_matrix level_euler level_yaw_matrix
    (start_streaming (new "localhost" 5557)) (mkExchange (Ok tt) (Ok []))
  = Ok (fingers_output (np_zeros3 25 4 4) (np_zeros3 25 4 4)).
Proof.
  intros reply.
  apply (get_on_error_payload (fun _ => Ok reply) unit_quat_matrix
           level_euler level_yaw_matrix
           (start_streaming (new "localhost" 5557))
           (mkExchange (Ok tt) (Ok [])) [] reply);
    (reflexivity || by eexists).
Defined.

Lemma request_data_success
    (pickle_loads : list Byte.byte -> result server_reply)
    (self : PicoHandTrackingClientStreamer) (net : exchange)
    (message : list Byte.byte) (data : server_reply) :
  is_Some (socket self) ->
  send_result net = Ok tt -> recv_result net = Ok message ->
  pickle_loads message = Ok data -> error data = None ->
  _request_data pickle_loads self net = Ok (Some data).
Proof.
  intros [sock Hsock] Hs Hr Hl He. unfold _request_data.
  rewrite Hsock, Hs, Hr. simpl. rewrite Hl. simpl. by rewrite He.
Qed.

Lemma generate_tracked_no_headset
    (quat_as_matrix : vector -> result matrix)
    (matrix_as_euler_xyz : matrix -> result vector)
    (euler_z_as_matrix : Q -> matrix)
    (hand_joints : option (list vector)) (hand_side : string) :
  tracked hand_joints ->
  _generate_finger_data quat_as_matrix matrix_as_euler_xyz euler_z_as_matrix
    hand_joints None hand_side = Raise TypeError.
Proof.
  intros Ht. unfold _generate_finger_data.
  destruct hand_joints as [joints|]; [|done]. simpl in Ht.
  by rewrite decide_False by lia.
Qed.

(** X14.  When a reply carries 25 or more joints for a hand but no headset
    pose, [get] raises TypeError: the failure is not turned into an empty
    result. *)
Theorem get_tracked_without_headset
    (pickle_loads : list Byte.byte -> result server_reply)
    (quat_as_matrix : vector -> result matrix)
    (matrix_as_euler_xyz : matrix -> result vector)
    (euler_z_as_matrix : Q -> matrix)
    (self : PicoHandTrackingClientStreamer) (net : exchange)
    (message : list Byte.byte) (data : server_reply) :
  is_Some (socket self) ->
  send_result net = Ok tt -> recv_result net = Ok message ->
  pickle_loads message = Ok data -> error data = None ->
  headset_pose data = None ->
  tracked (left_hand_joints data) \/ tracked (right_hand_joints data) ->
  get pickle_loads quat_as_matrix matrix_as_euler_xyz euler_z_as_matrix
    self net = Raise TypeError.
Proof.
  intros Hsock Hs Hr Hl He Hh Ht. unfold get.
  rewrite (request_data_success pickle_loads self net message data)
    by done.
  simpl. rewrite Hh.
  destruct (left_hand_joints data) as [left|] eqn:El.
  - destruct (decide (length left < 25)) as [Hlt|Hge].
    + rewrite (generate_finger_data_zero_branch _ _ _ (Some left)) by done.
      simpl. destruct Ht as [Ht|Ht]; [exfalso; simpl in Ht; lia|].
      by rewrite generate_tracked_no_headset.
    + by rewrite (generate_tracked_no_headset _ _ _ (Some left))
        by (simpl; lia).
  - rewrite (generate_finger_data_zero_branch _ _ _ None) by done.
    simpl. destruct Ht as [Ht|Ht]; [done|].
    by rewrite generate_tracked_no_headset.
Qed.

Lemma get_tracked_without_headset_witness :
  let reply := mkReply None None
                 (Some (replicate 25 [0.1; 0.2; 0.3; 0; 0; 0; 1]%Q)) None in
  get (fun _ => Ok reply) unit_quat_matrix level_euler level_yaw_matrix
    (start_streaming (new "localhost" 5557)) (mkExchange (Ok tt) (Ok []))
  = Raise TypeError.
Proof.
  intros reply.
  apply (get_tracked_without_headset (fun _ => Ok reply) unit_quat_matrix
           level_euler level_yaw_matrix
           (start_streaming (new "localhost" 5557))
           (mkExchange (Ok tt) (Ok [])) [] reply);
    try reflexivity.
  - by eexists.
  - left. simpl. lia.
Defined.

(** X15.  Joints beyond the 25th are ignored: the tensor is that of the
    first 25 joints. *)
Theorem generate_ignores_extra_joints
    (quat_as_matrix : vector -> result matrix)
    (matrix_as_euler_xyz : matrix -> result vector)
    (euler_z_as_matrix : Q -> matrix)
    (joints : list vector) (headset_pose : option vector)
    (hand_side : string) :
  _generate_finger_data quat_as_matrix matrix_as_euler_xyz euler_z_as_matrix
    (Some joints) headset_pose hand_side
  = _generate_finger_data quat_as_matrix matrix_as_euler_xyz
      euler_z_as_matrix (Some (take 25 joints)) headset_pose hand_side.
Proof.
  unfold _generate_finger_data. rewrite length_take.
  destruct (decide (length joints < 25)) as [Hlt|Hge].
  - by rewrite decide_True by lia.
  - rewrite decide_False by lia.
    replace ((25 `min` length joints) `min` 25) with (length joints `min` 25)
      by lia.
    repeat (apply bind_ext; intros ?).
    apply for_range_ext. intros i s Hi. unfold joint_body, getitem.
    by rewrite lookup_take_lt by lia.
Qed.

Lemma matmul3_shape (a b r : matrix) :
  matmul3 a b = Ok r -> length r = length a /\
  Forall (fun row => length row = 3) r.
Proof.
  unfold matmul3. destruct (_ && _); [|done]. intros [= <-].
  split; [by rewrite length_map|].
  apply Forall_map, Forall_forall. intros row _. simpl.
  by rewrite ?length_map.
Qed.

Lemma matvec_shape (m : matrix) (v r : vector) :
  matvec m v = Ok r -> length r = length m.
Proof.
  unfold matvec. destruct (forallb _ _); [|done]. intros [= <-].
  by rewrite length_map.
Qed.

Lemma pose_matrix_shape (rot : matrix) (pos : vector) :
  length rot = 3 -> Forall (fun row => length row = 3) rot ->
  length pos = 3 ->
  let m := set_translation (set_rotation eye4 rot) pos in
  length m = 4 /\ Forall (fun row => length row = 4) m.
Proof.
  intros Hrot Hrows Hpos.
  destruct rot as [|r0 [|r1 [|r2 [|]]]]; try done.
  destruct pos as [|p0 [|p1 [|p2 [|]]]]; try done.
  apply Forall_cons in Hrows as [H0 Hrows].
  apply Forall_cons in Hrows as [H1 Hrows].
  apply Forall_cons in Hrows as [H2 _].
  simpl. split; [done|].
  repeat constructor; rewrite ?length_insert, ?length_app; simpl; lia.
Qed.

Lemma zeros_shape : GripperSolver.has_shape 25 4 4 (np_zeros3 25 4 4).
Proof. split; [reflexivity|]. repeat constructor. Qed.

Lemma joint_body_shape
    (quat_as_matrix : vector -> result matrix)
    (hand_joints : list vector) (h_pos : vector) (inv_yaw_rot : matrix)
    (i : nat) (fingertips fingertips' : tensor) :
  is_3x3 inv_yaw_rot ->
  joint_body quat_as_matrix hand_joints h_pos inv_yaw_rot i fingertips
  = Ok fingertips' ->
  GripperSolver.has_shape 25 4 4 fingertips ->
  GripperSolver.has_shape 25 4 4 fingertips'.
Proof.
  intros [Hyaw _] Hbody [Hlen Hall]. unfold joint_body in Hbody.
  apply bind_Ok_inv in Hbody as (joint_data & _ & Hbody).
  apply bind_Ok_inv in Hbody as (j_pos & _ & Hbody).
  apply bind_Ok_inv in Hbody as (j_rot0 & _ & Hbody).
  apply bind_Ok_inv in Hbody as (j_rot1 & _ & Hbody).
  apply bind_Ok_inv in Hbody as (j_rot & _ & Hbody).
  apply bind_Ok_inv in Hbody as (pos_final & Hpos & Hbody).
  apply bind_Ok_inv in Hbody as (rot_final & Hrot & Hbody).
  apply matvec_shape in Hpos. apply matmul3_shape in Hrot as [Hr Hrows].
  unfold setitem in Hbody.
  destruct (decide (i < length fingertips)); [|done].
  injection Hbody as <-. split; [by rewrite length_insert|].
  apply Forall_insert; [done|].
  apply pose_matrix_shape; (done || lia).
Qed.

(** Shape of what [_generate_finger_data] returns. *)
Lemma generate_finger_data_shape
    (quat_as_matrix : vector -> result matrix)
    (matrix_as_euler_xyz : matrix -> result vector)
    (euler_z_as_matrix : Q -> matrix)
    (hand_joints : option (list vector)) (headset_pose : option vector)
    (hand_side : string) (t : tensor) :
  (forall angle, is_3x3 (euler_z_as_matrix angle)) ->
  _generate_finger_data quat_as_matrix matrix_as_euler_xyz euler_z_as_matrix
    hand_joints headset_pose hand_side = Ok t ->
  GripperSolver.has_shape 25 4 4 t.
Proof.
  intros Hyaw Hgen. unfold _generate_finger_data in Hgen.
  destruct hand_joints as [joints|];
    [|injection Hgen as <-; apply zeros_shape].
  destruct (decide (length joints < 25));
    [injection Hgen as <-; apply zeros_shape|].
  apply bind_Ok_inv in Hgen as (hp & _ & Hgen).
  apply bind_Ok_inv in Hgen as (h_pos & _ & Hgen).
  apply bind_Ok_inv in Hgen as (h_rot0 & _ & Hgen).
  apply bind_Ok_inv in Hgen as (h_rot1 & _ & Hgen).
  apply bind_Ok_inv in Hgen as (h_rot & _ & Hgen).
  apply bind_Ok_inv in Hgen as (euler & _ & Hgen).
  apply bind_Ok_inv in Hgen as (headset_yaw & _ & Hgen).
  eapply (for_range_from_pres (GripperSolver.has_shape 25 4 4));
    [|apply zeros_shape|exact Hgen].
  intros i s s' Hb. eapply joint_body_shape; [apply Hyaw | exact Hb].
Qed.

(** X16.  Whatever [get] returns is fit for the solver: both tensors have
    shape (25, 4, 4), and the solver built by [__init__] returns on each,
    without raising, a command of 7 channels whose channel 5 is 1 and whose
    channel 6 is 0.  scipy's yaw matrix is taken to be 3 x 3. *)
Theorem get_output_feeds_solver
    (pickle_loads : list Byte.byte -> result server_reply)
    (quat_as_matrix : vector -> result matrix)
    (matrix_as_euler_xyz : matrix -> result vector)
    (euler_z_as_matrix : Q -> matrix)
    (linalg_norm : vector -> Q) (side : string)
    (self : PicoHandTrackingClientStreamer) (net : exchange)
    (out : StreamerOutput) (hand : string) :
  (forall angle, is_3x3 (euler_z_as_matrix angle)) ->
  get pickle_loads quat_as_matrix matrix_as_euler_xyz euler_z_as_matrix
    self net = Ok out ->
  hand = "left_fingers" \/ hand = "right_fingers" ->
  exists finger_data t q_desired,
    ik_data out !! hand = Some finger_data /\
    finger_data !! "position" = Some t /\
    GripperSolver.has_shape 25 4 4 t /\
    GripperSolver.__call__ linalg_norm (GripperSolver.__init__ side)
      finger_data = Ok q_desired /\
    length q_desired = 7 /\
    q_desired !! 5 = Some 1%Q /\
    q_desired !! 6 = Some 0%Q.
Proof.
  intros Hyaw Hget Hhand.
  assert (Hout : exists l r, out = fingers_output l r /\
            GripperSolver.has_shape 25 4 4 l /\
            GripperSolver.has_shape 25 4 4 r).
  { unfold get in Hget.
    apply bind_Ok_inv in Hget as ([data|] & _ & Hget).
    - apply bind_Ok_inv in Hget as (l & Hl & Hget).
      apply bind_Ok_inv in Hget as (r & Hr & Hget).
      injection Hget as <-. exists l, r. split; [done|].
      split; eapply generate_finger_data_shape; eauto.
    - injection Hget as <-. do 2 eexists. split; [done|].
      split; apply zeros_shape. }
  destruct Hout as (l & r & -> & Hl & Hr).
  assert (Hsolve : forall t, GripperSolver.has_shape 25 4 4 t ->
    exists q_desired,
      GripperSolver.__call__ linalg_norm (GripperSolver.__init__ side)
        {["position" := t]} = Ok q_desired /\
      length q_desired = 7 /\
      q_desired !! 5 = Some 1%Q /\
      q_desired !! 6 = Some 0%Q).
  { intros t Ht.
    destruct (GripperSolverFacts.call_cases linalg_norm side
                {["position" := t]} t (lookup_singleton_eq _ _) Ht)
      as [[_ Hq] | [_ (d0 & d1 & d2 & d3 & d4 & Hq)]];
      rewrite Hq; eexists; repeat split; reflexivity. }
  destruct Hhand as [-> | ->].
  - destruct (Hsolve l Hl) as (q & Hq & Hin).
    exists {["position" := l]}, l, q. unfold fingers_output. simpl.
    rewrite lookup_insert_eq, lookup_singleton_eq. done.
  - destruct (Hsolve r Hr) as (q & Hq & Hin).
    exists {["position" := r]}, r, q. unfold fingers_output. simpl.
    rewrite lookup_insert_ne by done.
    rewrite !lookup_singleton_eq. done.
Qed.

Lemma level_yaw_is_3x3 angle : is_3x3 (level_yaw_matrix angle).
Proof. split; [reflexivity|]. repeat constructor. Qed.

Lemma get_output_feeds_solver_witness :
  let reply := mkReply None (Some [0; 0; 0; 0; 0; 0; 1]%Q)
                 (Some (replicate 25 [0.1; 0.2; 0.3; 0; 0; 0; 1]%Q)) None in
  let self := start_streaming (new "localhost" 5557) in
  let net := mkExchange (Ok tt) (Ok []) in
  exists out,
    get (fun _ => Ok reply) unit_quat_matrix level_euler level_yaw_matrix
      self net = Ok out /\
    exists finger_data t q_desired,
      ik_data out !! "left_fingers" = Some finger_data /\
      finger_data !! "position" = Some t /\
      GripperSolver.has_shape 25 4 4 t /\
      GripperSolver.__call__ floor_norm (GripperSolver.__init__ "left")
        finger_data = Ok q_desired /\
      length q_desired = 7 /\
      q_desired !! 5 = Some 1%Q /\
      q_desired !! 6 = Some 0%Q.
Proof.
  intros reply self net. eexists. split; [reflexivity|].
  apply (get_output_feeds_solver (fun _ => Ok reply) unit_quat_matrix
           level_euler level_yaw_matrix floor_norm "left" self net _
           "left_fingers").
  - exact level_yaw_is_3x3.
  - reflexivity.
  - by left.
Defined.

Lemma identity_if_zero_parts (pose : vector) :
  3 <= length pose ->
  take 3 (identity_if_zero pose) = take 3 pose /\
  safe_quat (drop 3 (identity_if_zero pose)) = safe_quat (drop 3 pose).
Proof.
  intros Hlen. unfold identity_if_zero.
  destruct (allclose1 (drop 3 pose) 0) eqn:E; [|done].
  rewrite take_app_length' by (rewrite length_take; lia).
  rewrite drop_app_length' by (rewrite length_take; lia).
  split; [done|]. unfold safe_quat. by rewrite E.
Qed.

(** X17.  A quaternion that is numerically zero is handled exactly as the
    identity quaternion [0, 0, 0, 1], for the headset and for every joint:
    writing [0, 0, 0, 1] in the place of such quaternions in the input does
    not change the outcome. *)
Theorem generate_zero_quat_is_identity
    (quat_as_matrix : vector -> result matrix)
    (matrix_as_euler_xyz : matrix -> result vector)
    (euler_z_as_matrix : Q -> matrix)
    (joints : list vector) (headset_pose : vector) (hand_side : string) :
  Forall (fun pose => 3 <= length pose) joints ->
  3 <= length headset_pose ->
  _generate_finger_data quat_as_matrix matrix_as_euler_xyz euler_z_as_matrix
    (Some (identity_if_zero <$> joints))
    (Some (identity_if_zero headset_pose)) hand_side
  = _generate_finger_data quat_as_matrix matrix_as_euler_xyz
      euler_z_as_matrix (Some joints) (Some headset_pose) hand_side.
Proof.
  intros Hjoints Hhead. unfold _generate_finger_data.
  rewrite length_fmap.
  destruct (decide (length joints < 25)); [done|]. simpl.
  destruct (identity_if_zero_parts headset_pose Hhead) as [-> ->].
  repeat (apply bind_ext; intros ?).
  apply for_range_ext. intros i s Hi. unfold joint_body, getitem.
  rewrite list_lookup_fmap.
  destruct (joints !! i) as [pose|] eqn:Hp; simpl; [|done].
  destruct (identity_if_zero_parts pose) as [-> ->]; [|done].
  by apply (Forall_lookup_1 _ _ _ _ Hjoints Hp).
Qed.

Lemma generate_zero_quat_is_identity_witness :
  _generate_finger_data unit_quat_matrix level_euler level_yaw_matrix
    (Some (identity_if_zero <$> replicate 25 [0.1; 0.2; 0.3; 0; 0; 0; 0]%Q))
    (Some (identity_if_zero [0; 0; 0; 0; 0; 0; 0]%Q)) "left"
  = _generate_finger_data unit_quat_matrix level_euler level_yaw_matrix
      (Some (replicate 25 [0.1; 0.2; 0.3; 0; 0; 0; 0]%Q))
      (Some [0; 0; 0; 0; 0; 0; 0]%Q) "left".
Proof.
  apply (generate_zero_quat_is_identity unit_quat_matrix level_euler
           level_yaw_matrix (replicate 25 [0.1; 0.2; 0.3; 0; 0; 0; 0]%Q)
           [0; 0; 0; 0; 0; 0; 0]%Q "left").
  - repeat constructor; simpl; lia.
  - simpl. lia.
Defined.

(** The poses of that input after the replacement: the zero quaternions are
    now [0, 0, 0, 1]. *)
Example identity_if_zero_joint :
  identity_if_zero [0.1; 0.2; 0.3; 0; 0; 0; 0]%Q
  = [0.1; 0.2; 0.3; 0; 0; 0; 1]%Q.
Proof. reflexivity. Qed.

Example identity_if_zero_kept :
  identity_if_zero [0.1; 0.2; 0.3; 0; 1; 0; 0]%Q
  = [0.1; 0.2; 0.3; 0; 1; 0; 0]%Q.
Proof. reflexivity. Qed.

(** X18.  End to end, a failed exchange opens the hand: the tensors [get]
    returns make any solver (whatever its thresholds) return the command
    with channels 0..5 at 1 and channel 6 at 0, for both hands. *)
Theorem relay_failure_opens_hand
    (pickle_loads : list Byte.byte -> result server_reply)
    (quat_as_matrix : vector -> result matrix)
    (matrix_as_euler_xyz : matrix -> result vector)
    (euler_z_as_matrix : Q -> matrix)
    (linalg_norm : vector -> Q)
    (solver : GripperSolver.G1GripperInverseKinematicsSolver)
    (self : PicoHandTrackingClientStreamer) (net : exchange) :
  is_Some (socket self) ->
  exchange_fails pickle_loads net ->
  exists out left right,
    get pickle_loads quat_as_matrix matrix_as_euler_xyz euler_z_as_matrix
      self net = Ok out /\
    ik_data out !! "left_fingers" = Some left /\
    ik_data out !! "right_fingers" = Some right /\
    GripperSolver.__call__ linalg_norm solver left
    = Ok [1; 1; 1; 1; 1; 1; 0]%Q /\
    GripperSolver.__call__ linalg_norm solver right
    = Ok [1; 1; 1; 1; 1; 1; 0]%Q.
Proof.
  intros Hsock Hfail. unfold get.
  rewrite (request_data_failure pickle_loads self net Hsock Hfail). simpl.
  exists (fingers_output (np_zeros3 25 4 4) (np_zeros3 25 4 4)),
    {["position" := np_zeros3 25 4 4]}, {["position" := np_zeros3 25 4 4]}.
  split; [done|]. unfold fingers_output. simpl.
  split; [by rewrite lookup_insert_eq|].
  split; [rewrite lookup_insert_ne by done; by rewrite lookup_singleton_eq|].
  unfold GripperSolver.__call__. by rewrite lookup_singleton_eq.
Qed.

Lemma relay_failure_opens_hand_witness :
  exists out left right,
    get (fun _ => Raise UnpicklingError) unit_quat_matrix level_euler
      level_yaw_matrix (start_streaming (new "localhost" 5557))
      (mkExchange (Ok tt) (Raise ZmqAgain)) = Ok out /\
    ik_data out !! "left_fingers" = Some left /\
    ik_data out !! "right_fingers" = Some right /\
    GripperSolver.__call__ floor_norm (GripperSolver.__init__ "left") left
    = Ok [1; 1; 1; 1; 1; 1; 0]%Q /\
    GripperSolver.__call__ floor_norm (GripperSolver.__init__ "left") right
    = Ok [1; 1; 1; 1; 1; 1; 0]%Q.
Proof.
  apply (relay_failure_opens_hand (fun _ => Raise UnpicklingError)
           unit_quat_matrix level_euler level_yaw_matrix floor_norm
           (GripperSolver.__init__ "left")
           (start_streaming (new "localhost" 5557))
           (mkExchange (Ok tt) (Raise ZmqAgain))).
  - by eexists.
  - by apply (recv_fails _ _ ZmqAgain).
Defined.

End PicoClientMore.

(** ** run_teleop_policy_loop.py: telemetry, warm-up, payload *)

Module TeleopLoopMore.
Import TeleopLoop TeleopLoopFacts.

(** One cycle with a non-zero frequency, in closed form. *)
Lemma cycle_steady config st inp :
  ~ (teleop_frequency config == 0)%Q ->
  cycle config st inp
  = ({| iteration := iteration st + 1;
        published :=
          published st ++
            [stamped inp (if Nat.eqb (iteration st) 0
                          then t_now inp + time_to_get_to_initial_pose
                          else t_now inp + 1 / teleop_frequency config)%Q];
        slept := if Nat.eqb (iteration st) 0
                 then slept st ++ [time_to_get_to_initial_pose]
                 else slept st;
        missed := if overran config inp then missed st + 1 else missed st |},
     None).
Proof.
  intros Hf. unfold cycle, overran, stamped. rewrite (py_div_Ok _ _ Hf).
  simpl. destruct (iteration st =? 0); simpl;
    by destruct (Qlt_le_dec _ _).
Qed.

Lemma run_steady config inputs st :
  ~ (teleop_frequency config == 0)%Q ->
  let st' := (run config st inputs).1 in
  iteration st' = iteration st + length inputs /\
  missed st' = missed st + length (List.filter (overran config) inputs).
Proof.
  intros Hf. revert st.
  induction inputs as [|inp rest IH]; intros st; simpl; [lia|].
  rewrite (cycle_steady config st inp Hf).
  destruct (IH {| iteration := iteration st + 1;
        published :=
          published st ++
            [stamped inp (if Nat.eqb (iteration st) 0
                          then t_now inp + time_to_get_to_initial_pose
                          else t_now inp + 1 / teleop_frequency config)%Q];
        slept := if Nat.eqb (iteration st) 0
                 then slept st ++ [time_to_get_to_initial_pose]
                 else slept st;
        missed := if overran config inp then missed st + 1 else missed st |})
    as [Hit Hmiss].
  simpl in *. rewrite Hit, Hmiss.
  destruct (overran config inp); simpl; lia.
Qed.

(** X19.  With a non-zero frequency the loop runs every cycle and logs the
    missed-deadline report exactly for the cycles whose measured duration
    [end_time - t_start] exceeds [1 / teleop_frequency]. *)
Theorem main_deadline_misses (config : TeleopConfig)
    (inputs : list cycle_input) :
  ~ (teleop_frequency config == 0)%Q ->
  (main config inputs).2 = None /\
  iteration (main config inputs).1 = length inputs /\
  missed (main config inputs).1
  = length (List.filter
      (fun inp => if Qlt_le_dec (1 / teleop_frequency config)
                       (end_time inp - t_start inp)
                  then true else false) inputs).
Proof.
  intros Hf. split; [apply (run_live config inputs initial Hf)|].
  apply (run_steady config inputs initial Hf).
Qed.

Lemma main_deadline_misses_witness :
  let config := mkConfig 20 in
  let inputs := [mkInput 0 ∅ 0.01 2.02; mkInput 2.05 ∅ 2.06 2.07;
                 mkInput 2.10 ∅ 2.11 2.16]%Q in
  (main config inputs).2 = None /\
  iteration (main config inputs).1 = length inputs /\
  missed (main config inputs).1
  = length (List.filter
      (fun inp => if Qlt_le_dec (1 / teleop_frequency config)
                       (end_time inp - t_start inp)
                  then true else false) inputs).
Proof.
  intros config inputs. apply (main_deadline_misses config inputs).
  discriminate.
Defined.

Example deadline_misses_counted :
  missed (main (mkConfig 20)
    [mkInput 0 ∅ 0.01 2.02; mkInput 2.05 ∅ 2.06 2.07;
     mkInput 2.10 ∅ 2.11 2.16]%Q).1 = 2.
Proof. reflexivity. Qed.

Lemma cycle_later config st inp :
  iteration st <> 0 ->
  slept (cycle config st inp).1 = slept st /\
  iteration (cycle config st inp).1 <> 0.
Proof.
  intros Hit. unfold cycle.
  rewrite (proj2 (Nat.eqb_neq _ _) Hit).
  destruct (py_div 1 (teleop_frequency config)) as [period|e]; simpl;
    [|done].
  rewrite (proj2 (Nat.eqb_neq _ _) Hit).
  destruct (Qlt_le_dec _ _); simpl; split; (done || lia).
Qed.

Lemma run_later config inputs st :
  iteration st <> 0 -> slept (run config st inputs).1 = slept st.
Proof.
  revert st. induction inputs as [|inp rest IH]; intros st Hit; [done|].
  simpl. destruct (cycle_later config st inp Hit) as [Hs Hi].
  destruct (cycle config st inp) as [st' [e|]]; [done|].
  simpl in *. rewrite <- Hs. by apply IH.
Qed.

Lemma cycle_first config inp :
  slept (cycle config initial inp).1 = [time_to_get_to_initial_pose] /\
  iteration (cycle config initial inp).1 = 1 /\
  published (cycle config initial inp).1
  = [stamped inp (t_now inp + time_to_get_to_initial_pose)].
Proof.
  unfold cycle, stamped. simpl.
  destruct (py_div 1 (teleop_frequency config)) as [period|e]; simpl;
    [destruct (Qlt_le_dec _ _)|]; done.
Qed.

(** X20.  The loop sleeps for the warm-up duration exactly once, in its
    first cycle, whatever the frequency and however many cycles follow. *)
Theorem main_warm_up_once (config : TeleopConfig)
    (inputs : list cycle_input) :
  inputs <> [] ->
  slept (main config inputs).1 = [time_to_get_to_initial_pose].
Proof.
  destruct inputs as [|inp rest]; [done|]. intros _.
  unfold main. simpl.
  destruct (cycle_first config inp) as (Hs & Hi & _).
  destruct (cycle config initial inp) as [st' [e|]]; [done|].
  simpl in *. rewrite <- Hs. apply run_later. lia.
Qed.

Lemma main_warm_up_once_witness :
  slept (main (mkConfig 20)
           [mkInput 0 ∅ 0.01 2.02; mkInput 2.05 ∅ 2.06 2.07]%Q).1
  = [time_to_get_to_initial_pose].
Proof.
  apply (main_warm_up_once (mkConfig 20)
           [mkInput 0 ∅ 0.01 2.02; mkInput 2.05 ∅ 2.06 2.07]%Q).
  discriminate.
Defined.



Lemma cycle_published config st inp :
  published (cycle config st inp).1 = published st /\
    (cycle config st inp).2 <> None
  \/ exists target_time,
       published (cycle config st inp).1
       = published st ++ [stamped inp target_time].
Proof.
  unfold cycle, stamped.
  destruct (iteration st =? 0) eqn:E; simpl; rewrite ?E; simpl.
  - right. eexists.
    destruct (py_div 1 (teleop_frequency config)) as [period|e]; simpl;
      [destruct (Qlt_le_dec _ _)|]; done.
  - destruct (py_div 1 (teleop_frequency config)) as [period|e]; simpl;
      [right; eexists; rewrite ?E; destruct (Qlt_le_dec _ _); done|by left].
Qed.

Lemma run_published config inputs st :
  exists ext,
    published (run config st inputs).1 = published st ++ ext /\
    forall k act, ext !! k = Some act ->
      exists inp target_time,
        inputs !! k = Some inp /\ act = stamped inp target_time.
Proof.
  revert st. induction inputs as [|inp rest IH]; intros st.
  - exists []. simpl. by rewrite app_nil_r.
  - simpl. destruct (cycle_published config st inp)
      as [[Hsame Hexn] | [tt Happ]].
    + destruct (cycle config st inp) as [st' [e|]]; [|done].
      exists []. simpl in *. by rewrite app_nil_r.
    + destruct (cycle config st inp) as [st' [e|]]; simpl in *.
      * exists [stamped inp tt]. split; [done|].
        intros [|k] act Hk; [|done]. injection Hk as <-. by exists inp, tt.
      * destruct (IH st') as (ext & Hext & Hall).
        exists (stamped inp tt :: ext). rewrite Hext, Happ.
        split; [by rewrite <- app_assoc|].
        intros [|k] act Hk; simpl in *; [|by apply Hall].
        injection Hk as <-. by exists inp, tt.
Qed.

(** X22.  The k-th action published is the dict the policy returned in the
    k-th cycle with only the two time keys set: ["timestamp"] holds that
    cycle's [t_now], and every other key keeps the policy's value. *)
Theorem main_payload_passes_through (config : TeleopConfig)
    (inputs : list cycle_input) (k : nat) (act : action) :
  published (main config inputs).1 !! k = Some act ->
  exists inp,
    inputs !! k = Some inp /\
    float_at act "timestamp" = Some (t_now inp) /\
    forall key, key <> "timestamp" -> key <> "target_time" ->
      act !! key = data inp !! key.
Proof.
  intros Hk. unfold main in Hk.
  destruct (run_published config inputs initial) as (ext & Hext & Hall).
  rewrite Hext in Hk. simpl in Hk.
  destruct (Hall k act Hk) as (inp & tt & Hinp & ->).
  exists inp. split; [done|]. split.
  - apply float_at_stamped.
  - intros key H1 H2. unfold stamped.
    by rewrite !lookup_insert_ne by done.
Qed.

Lemma main_payload_passes_through_witness :
  let inputs :=
    [mkInput 0 {["left_hand" := VArray [1; 1; 1; 1; 1; 1; 0]%Q]} 0.01 2.02;
     mkInput 2.05 {["left_hand" := VArray [0; 0; 0; 0; 0; 1; 0]%Q]}
       2.06 2.07]%Q in
  exists act,
    published (main (mkConfig 20) inputs).1 !! 1 = Some act /\
    exists inp,
      inputs !! 1 = Some inp /\
      float_at act "timestamp" = Some (t_now inp) /\
      forall key, key <> "timestamp" -> key <> "target_time" ->
        act !! key = data inp !! key.
Proof.
  intros inputs. eexists. split; [reflexivity|].
  apply (main_payload_passes_through (mkConfig 20) inputs 1). reflexivity.
Defined.

End TeleopLoopMore.

(** ** pico_hand_tracking_server.py and the relay end to end *)

Module PicoServerFacts.
Import PicoClient PicoServer PicoClientFacts PicoClientHelpers.

Lemma capture_fails_raises (xr : xr_answers) (e : exn) :
  capture_fails xr e -> _get_hand_tracking_data xr = Raise e.
Proof.
  unfold _get_hand_tracking_data.
  intros [H | [(hp & H1 & H2) | (hp & ls & H1 & H2 & H3)]].
  - by rewrite H.
  - by rewrite H1, H2.
  - by rewrite H1, H2, H3.
Qed.

(** X23.  When a request has arrived and the capture fails, the handler
    sends one error payload carrying the error text.  If that [send]
    succeeds it is the only message of the turn and the server goes on to
    the next request; if that [send] raises, nothing was sent and the
    exception leaves the loop. *)
Theorem run_turn_capture_error (pickle_dumps : payload -> list Byte.byte)
    (exn_str : exn -> string) (env : request_env)
    (request : list Byte.byte) (e : exn) :
  srv_recv env = Arrived (Ok request) ->
  capture_fails (xr env) e ->
  run_turn pickle_dumps exn_str env
  = match error_send env with
    | Ok _ =>
        ([pickle_dumps (Failure (exn_str e) (error_time (xr env)))],
         Continue)
    | Raise e' => ([], Propagate e')
    end.
Proof.
  intros Hrecv Hfail. unfold run_turn.
  by rewrite Hrecv, (capture_fails_raises _ _ Hfail).
Qed.

Lemma run_turn_capture_error_witness :
  let xr := mkXr (Ok None) (Raise RuntimeError) (Ok 0%Z) (Ok None) (Ok None)
              10 11 in
  let env := mkRequest (Arrived (Ok [])) xr (Ok tt) (Raise ZmqError) in
  run_turn (fun _ => []) (fun _ => "device lost") env
  = match error_send env with
    | Ok _ => ([(fun _ : payload => []) (Failure "device lost" 11)], Continue)
    | Raise e' => ([], Propagate e')
    end.
Proof.
  intros xr env.
  apply (run_turn_capture_error (fun _ => []) (fun _ => "device lost") env
           [] RuntimeError).
  - reflexivity.
  - right. left. by exists None.
Defined.

Example run_turn_capture_error_sent :
  let xr := mkXr (Ok None) (Raise RuntimeError) (Ok 0%Z) (Ok None) (Ok None)
              10 11 in
  run_turn (fun p => match p with Failure _ _ => [Byte.x01] | _ => [] end)
    (fun _ => "device lost") (mkRequest (Arrived (Ok [])) xr (Ok tt) (Ok tt))
  = ([[Byte.x01]], Continue).
Proof. reflexivity. Qed.

Example run_turn_capture_error_send_raises :
  let xr := mkXr (Ok None) (Raise RuntimeError) (Ok 0%Z) (Ok None) (Ok None)
              10 11 in
  run_turn (fun _ => []) (fun _ => "device lost")
    (mkRequest (Arrived (Ok [])) xr (Ok tt) (Raise ZmqError))
  = ([], Propagate ZmqError).
Proof. reflexivity. Qed.

(** X24.  A failure while reading the hand joints is not an error reply:
    the server sends the tracking payload, with both joint entries [None]
    when the left read raises (the right one is then not read), and with
    the left joints kept and the right entry [None] when only the right
    read raises. *)
Theorem run_turn_joint_failure (pickle_dumps : payload -> list Byte.byte)
    (exn_str : exn -> string) (env : request_env)
    (request : list Byte.byte) (hp : option vector) (ls rs : Z) (e : exn) :
  srv_recv env = Arrived (Ok request) ->
  headset (xr env) = Ok hp -> left_state (xr env) = Ok ls ->
  right_state (xr env) = Ok rs ->
  data_send env = Ok tt ->
  (left_joints (xr env) = Raise e ->
   run_turn pickle_dumps exn_str env
   = ([pickle_dumps (Tracking hp ls rs None None (data_time (xr env)))],
      Continue)) /\
  (forall l, left_joints (xr env) = Ok l ->
   right_joints (xr env) = Raise e ->
   run_turn pickle_dumps exn_str env
   = ([pickle_dumps (Tracking hp ls rs l None (data_time (xr env)))],
      Continue)).
Proof.
  intros Hrecv Hh Hl Hr Hsend. unfold run_turn, _get_hand_tracking_data.
  rewrite Hrecv, Hh, Hl, Hr. simpl. split.
  - intros ->. simpl. by rewrite Hsend.
  - intros l -> ->. simpl. by rewrite Hsend.
Qed.

Lemma run_turn_joint_failure_witness :
  let xr := mkXr (Ok (Some [0; 0; 0; 0; 0; 0; 1]%Q)) (Ok 1%Z) (Ok 1%Z)
              (Raise RuntimeError) (Ok None) 10 11 in
  let env := mkRequest (Arrived (Ok [])) xr (Ok tt) (Ok tt) in
  run_turn (fun _ => []) (fun _ => "") env
  = ([(fun _ : payload => [])
        (Tracking (Some [0; 0; 0; 0; 0; 0; 1]%Q) 1 1 None None 10)],
     Continue).
Proof.
  intros xr env.
  apply (proj1 (run_turn_joint_failure (fun _ => []) (fun _ => "") env []
                  (Some [0; 0; 0; 0; 0; 0; 1]%Q) 1%Z 1%Z RuntimeError
                  eq_refl eq_refl eq_refl eq_refl eq_refl)).
  reflexivity.
Defined.

(** X25.  The relay end to end.  If the capture fails, or the read of the
    left hand's joints raises, the server still answers the request with
    one pickled payload, and the client that receives it and unpickles it
    to the same dict returns all-zero tensors for both hands. *)
Theorem relay_degrades_to_zeros
    (pickle_dumps : payload -> list Byte.byte)
    (pickle_loads : list Byte.byte -> result server_reply)
    (exn_str : exn -> string)
    (quat_as_matrix : vector -> result matrix)
    (matrix_as_euler_xyz : matrix -> result vector)
    (euler_z_as_matrix : Q -> matrix)
    (env : request_env) (request : list Byte.byte)
    (self : PicoHandTrackingClientStreamer) :
  srv_recv env = Arrived (Ok request) ->
  data_send env = Ok tt -> error_send env = Ok tt ->
  (exists e, capture_fails (xr env) e) \/
    (exists e, left_joints (xr env) = Raise e) ->
  is_Some (socket self) ->
  exists p,
    run_turn pickle_dumps exn_str env = ([pickle_dumps p], Continue) /\
    (pickle_loads (pickle_dumps p) = Ok (reply_of p) ->
     get pickle_loads quat_as_matrix matrix_as_euler_xyz euler_z_as_matrix
       self (mkExchange (Ok tt) (Ok (pickle_dumps p)))
     = Ok (fingers_output (np_zeros3 25 4 4) (np_zeros3 25 4 4))).
Proof.
  intros Hrecv Hdata Herr Hcase Hsock.
  assert (Hturn : exists p,
    run_turn pickle_dumps exn_str env = ([pickle_dumps p], Continue) /\
    (is_Some (PicoClient.error (reply_of p)) \/
     PicoClient.error (reply_of p) = None /\
     PicoClient.left_hand_joints (reply_of p) = None /\
     PicoClient.right_hand_joints (reply_of p) = None)).
  { unfold run_turn, on_exception. rewrite Hrecv, Herr, Hdata.
    destruct (_get_hand_tracking_data (xr env)) as [data|e0] eqn:Hget.
    - exists data. split; [done|]. right.
      destruct Hcase as [[e Hc] | [e Hl]].
      + by rewrite (capture_fails_raises _ _ Hc) in Hget.
      + unfold _get_hand_tracking_data in Hget.
        destruct (headset (xr env)); simpl in Hget; [|done].
        destruct (left_state (xr env)); simpl in Hget; [|done].
        destruct (right_state (xr env)); simpl in Hget; [|done].
        rewrite Hl in Hget. by injection Hget as <-.
    - eexists. split; [done|]. left. by eexists. }
  destruct Hturn as (p & Hrun & Hp). exists p.
  split; [done|]. intros Hpickle. unfold get.
  destruct Hp as [He | (He & Hl & Hr)].
  - by rewrite (request_data_error_payload pickle_loads self _
                  (pickle_dumps p) (reply_of p)).
  - assert (Hreq : _request_data pickle_loads self
                     (mkExchange (Ok tt) (Ok (pickle_dumps p)))
                   = Ok (Some (reply_of p))).
    { destruct Hsock as [sock Hs]. unfold _request_data.
      rewrite Hs. simpl. rewrite Hpickle. simpl. by rewrite He. }
    rewrite Hreq. simpl. rewrite Hl, Hr. done.
Qed.

Lemma relay_degrades_to_zeros_witness :
  let xr := mkXr (Ok None) (Ok 1%Z) (Ok 1%Z) (Raise RuntimeError)
              (Ok None) 10 11 in
  let env := mkRequest (Arrived (Ok [])) xr (Ok tt) (Ok tt) in
  let sent := Tracking None 1 1 None None 10 in
  let pickle_dumps := fun _ : payload => @nil Byte.byte in
  let pickle_loads := fun _ : list Byte.byte => Ok (reply_of sent) in
  exists p,
    run_turn pickle_dumps (fun _ => "") env = ([pickle_dumps p], Continue) /\
    (pickle_loads (pickle_dumps p) = Ok (reply_of p) ->
     get pickle_loads unit_quat_matrix level_euler level_yaw_matrix
       (start_streaming (new "localhost" 5557))
       (mkExchange (Ok tt) (Ok (pickle_dumps p)))
     = Ok (fingers_output (np_zeros3 25 4 4) (np_zeros3 25 4 4))).
Proof.
  intros xr env sent pickle_dumps pickle_loads.
  apply (relay_degrades_to_zeros pickle_dumps pickle_loads (fun _ => "")
           unit_quat_matrix level_euler level_yaw_matrix env []
           (start_streaming (new "localhost" 5557))).
  - reflexivity.
  - reflexivity.
  - reflexivity.
  - right. by exists RuntimeError.
  - by eexists.
Defined.

End PicoServerFacts.

(** ** g1_hand.py *)

Module G1HandFacts.
Import G1Hand.

Lemma blocks_cover (row : vector) :
  length row = 28 ->
  slice row 0 7 ++ slice row 7 14 ++ slice row 14 21 ++ slice row 21 28
  = row.
Proof.
  intros Hlen. unfold slice. simpl.
  rewrite (take_ge (drop 21 row)) by (rewrite length_drop; lia).
  replace (drop 21 row) with (drop 7 (drop 14 row))
    by (by rewrite drop_drop).
  rewrite take_drop.
  replace (drop 14 row) with (drop 7 (drop 7 row)) by (by rewrite drop_drop).
  rewrite take_drop. apply take_drop.
Qed.

(** X26.  [G1InspireHand.observe] splits the 28 floats of the processor's
    row into four blocks of 7 that cover it without overlap, in the order
    position, velocity, torque estimate, acceleration: the acceleration is
    the last block although it is the third key of the dict. *)
Theorem inspire_observe_layout (row : vector) (rest : matrix) :
  length row = 28 ->
  exists o,
    inspire_observe (row :: rest) = Ok o /\
    hand_q o ++ hand_dq o ++ hand_tau_est o ++ hand_ddq o = row /\
    length (hand_q o) = 7 /\ length (hand_dq o) = 7 /\
    length (hand_tau_est o) = 7 /\ length (hand_ddq o) = 7.
Proof.
  intros Hlen. eexists. split; [reflexivity|]. simpl.
  split; [by apply blocks_cover|].
  unfold slice. rewrite !length_take, !length_drop. lia.
Qed.

Lemma inspire_observe_layout_witness :
  exists o,
    inspire_observe [np_zeros 7 ++ np_ones 7 ++ np_zeros 7 ++ np_ones 7]
    = Ok o /\
    hand_q o ++ hand_dq o ++ hand_tau_est o ++ hand_ddq o
    = np_zeros 7 ++ np_ones 7 ++ np_zeros 7 ++ np_ones 7 /\
    length (hand_q o) = 7 /\ length (hand_dq o) = 7 /\
    length (hand_tau_est o) = 7 /\ length (hand_ddq o) = 7.
Proof.
  apply (inspire_observe_layout
           (np_zeros 7 ++ np_ones 7 ++ np_zeros 7 ++ np_ones 7) []).
  reflexivity.
Defined.

End G1HandFacts.

(** ** configs.py *)

Module ConfigsFacts.
Import Configs.

(** X28.  [validate_args] accepts exactly the flag combinations in which
    teleop commands come with actions and without WBC goals, WBC goals come
    with actions, image observations with the LeRobot export, and
    intervention with video.  Its third check only ever fires for WBC goals
    without actions: with teleop commands the first check has raised
    already. *)
Theorem validate_args_accepts (self : SyncSimPlaybackConfig) :
  (validate_args self = None <->
   (use_teleop_cmd self = true ->
      use_actions self = true /\ use_wbc_goals self = false) /\
   (use_wbc_goals self = true -> use_actions self = true) /\
   (save_img_obs self = true -> save_lerobot self = true) /\
   (intervention self = true -> save_video self = true)) /\
  (validate_args self = Some 3 <->
   use_teleop_cmd self = false /\ use_wbc_goals self = true /\
   use_actions self = false).
Proof.
  destruct self as [[] [] [] [] [] [] []]; unfold validate_args; simpl;
    intuition congruence.
Qed.

Lemma set_all_notin (table : list (string * yaml))
    (m : gmap string yaml) (k : string) :
  k ∉ table.*1 -> set_all table m !! k = m !! k.
Proof.
  revert m. induction table as [|[key v] rest IH]; intros m Hk; [done|].
  simpl in *. apply not_elem_of_cons in Hk as [Hne Hk].
  rewrite IH by done. by rewrite lookup_insert_ne.
Qed.

Lemma set_all_in (table : list (string * yaml))
    (m : gmap string yaml) (k : string) (v : yaml) :
  NoDup table.*1 -> (k, v) ∈ table -> set_all table m !! k = Some v.
Proof.
  revert m. induction table as [|[key w] rest IH]; intros m Hnd Hin.
  - by apply elem_of_nil in Hin.
  - simpl in *. apply NoDup_cons in Hnd as [Hnotin Hnd].
    apply elem_of_cons in Hin as [[= -> ->] | Hin].
    + rewrite set_all_notin by done. by rewrite lookup_insert_eq.
    + by apply IH.
Qed.

Lemma add_missed_notin (table : list (string * yaml))
    (m : gmap string yaml) (k : string) :
  k ∉ table.*1 -> add_missed table m !! k = m !! k.
Proof.
  revert m. induction table as [|[key v] rest IH]; intros m Hk; [done|].
  simpl in *. apply not_elem_of_cons in Hk as [Hne Hk].
  rewrite IH by done.
  destruct (m !! key); [done|]. by rewrite lookup_insert_ne.
Qed.

Lemma add_missed_present (table : list (string * yaml))
    (m : gmap string yaml) (k : string) (v0 : yaml) :
  m !! k = Some v0 -> add_missed table m !! k = Some v0.
Proof.
  revert m. induction table as [|[key v] rest IH]; intros m Hk; [done|].
  simpl. apply IH. destruct (m !! key) eqn:E; [done|].
  rewrite lookup_insert_ne; [done|]. intros ->. congruence.
Qed.

Lemma add_missed_in (table : list (string * yaml))
    (m : gmap string yaml) (k : string) (v : yaml) :
  NoDup table.*1 -> (k, v) ∈ table ->
  add_missed table m !! k = Some (default v (m !! k)).
Proof.
  revert m. induction table as [|[key w] rest IH]; intros m Hnd Hin.
  - by apply elem_of_nil in Hin.
  - simpl in *. apply NoDup_cons in Hnd as [Hnotin Hnd].
    apply elem_of_cons in Hin as [[= -> ->] | Hin].
    + rewrite add_missed_notin by done.
      destruct (m !! key) eqn:E; simpl; [done|].
      by rewrite lookup_insert_eq.
    + rewrite IH by done.
      destruct (m !! key) eqn:E; [done|].
      rewrite lookup_insert_ne; [done|].
      intros ->. apply Hnotin. apply list_elem_of_fmap.
      by exists (k, v).
Qed.

Lemma table_keys_NoDup : NoDup table_keys.
Proof. apply (bool_decide_unpack _). by vm_compute. Qed.


Lemma motor_kd_not_in_table : "MOTOR_KD" ∉ table_keys.
Proof. apply (bool_decide_unpack _). by vm_compute. Qed.

(** What the table part of [override_wbc_config] does to a key. *)
Lemma apply_table_lookup (table : list (string * yaml))
    (m : gmap string yaml) (missed_keys_only : bool) :
  NoDup table.*1 ->
  let m' := if missed_keys_only then add_missed table m
            else set_all table m in
  (forall k, k ∉ table.*1 -> m' !! k = m !! k) /\
  (forall k v, (k, v) ∈ table ->
     m' !! k = Some (if missed_keys_only then default v (m !! k) else v)).
Proof.
  intros Hnd. destruct missed_keys_only; simpl; split; intros.
  - by apply add_missed_notin.
  - by apply add_missed_in.
  - by apply set_all_notin.
  - by apply set_all_in.
Qed.



Example override_keeps_yaml_interface :
  (default ∅ (match override_wbc_config sample_yaml (sample_config "sim") true
              with Ok m => Some m | Raise _ => None end)) !! "INTERFACE"
  = Some (YStr "eth0").
Proof. reflexivity. Qed.

Example override_sets_interface :
  (default ∅ (match override_wbc_config sample_yaml (sample_config "sim")
                      false
              with Ok m => Some m | Raise _ => None end)) !! "INTERFACE"
  = Some (YStr "lo").
Proof. reflexivity. Qed.

Lemma key_to_value_Ok (config : BaseConfig) :
  ~ (sim_frequency config == 0)%Q ->
  exists table, key_to_value config = Ok table /\ table.*1 = table_keys.
Proof.
  intros Hf. unfold key_to_value.
  destruct (Qeq_bool (sim_frequency config) 0) eqn:E.
  - by apply Qeq_bool_eq in E.
  - by eexists.
Qed.

(** X30.  The waist damping.  For the environment type ["real"],
    [override_wbc_config] lowers entry 14 of ["MOTOR_KD"] by 10 and leaves
    the other entries alone, and raises KeyError when the YAML has no
    ["MOTOR_KD"]; for any other environment type it always returns and
    ["MOTOR_KD"] is as in the YAML.  In both modes of the table. *)
Theorem override_wbc_config_waist_damping (wbc_config : gmap string yaml)
    (config : BaseConfig) (missed_keys_only : bool) :
  ~ (sim_frequency config == 0)%Q ->
  (env_type config = "real" ->
     (wbc_config !! "MOTOR_KD" = None ->
        override_wbc_config wbc_config config missed_keys_only
        = Raise KeyError) /\
     (forall kd x,
        wbc_config !! "MOTOR_KD" = Some (YFloats kd) -> kd !! 14 = Some x ->
        exists result_config,
          override_wbc_config wbc_config config missed_keys_only
          = Ok result_config /\
          result_config !! "MOTOR_KD"
          = Some (YFloats (<[14 := (x - 10)%Q]> kd)))) /\
  (env_type config <> "real" ->
     exists result_config,
       override_wbc_config wbc_config config missed_keys_only
       = Ok result_config /\
       result_config !! "MOTOR_KD" = wbc_config !! "MOTOR_KD").
Proof.
  intros Hf. destruct (key_to_value_Ok config Hf) as (table & Htable & Hkeys).
  unfold override_wbc_config. rewrite Htable. simpl.
  destruct (apply_table_lookup table wbc_config missed_keys_only)
    as [Hout _]; [rewrite Hkeys; apply table_keys_NoDup|].
  specialize (Hout "MOTOR_KD").
  rewrite Hkeys in Hout. specialize (Hout motor_kd_not_in_table).
  set (m' := if missed_keys_only then add_missed table wbc_config
             else set_all table wbc_config) in *.
  split.
  - intros ->. simpl. unfold lower_waist_damping. rewrite Hout. split.
    + by intros ->.
    + intros kd x -> Hx. rewrite (getitem_Ok _ _ _ Hx). simpl.
      rewrite setitem_Ok by (eapply lookup_lt_Some; done). simpl.
      eexists. split; [reflexivity|]. by rewrite lookup_insert_eq.
  - intros Hne. apply String.eqb_neq in Hne. rewrite Hne. by eexists.
Qed.

Lemma override_wbc_config_waist_damping_witness :
  exists result_config,
    override_wbc_config sample_yaml (sample_config "real") false
    = Ok result_config /\
    result_config !! "MOTOR_KD"
    = Some (YFloats (<[14 := (20 - 10)%Q]> (replicate 29 20%Q))).
Proof.
  apply (proj2 (proj1 (override_wbc_config_waist_damping sample_yaml
                         (sample_config "real") false
                         ltac:(discriminate)) eq_refl)
           (replicate 29 20%Q) 20%Q); reflexivity.
Defined.

End ConfigsFacts.
